(** * InstanceService: the instance registry and the message projector

    A shallow embedding of [src/InstanceService.ts] of the E2E test
    service: the registry of live instances ([cachedInstances]), the
    event listeners that project a Messaging Client's payload bundles
    into an instance's message cache ([attachListeners]) and the
    registry operations that read or write that cache. *)

From Stdlib Require Import Ascii DecimalString.
From stdpp Require Import base option list strings.

Local Open Scope string_scope.
Local Open Scope nat_scope.
Local Open Scope list_scope.

(** ** Thrown values and results *)

(** A thrown JavaScript value.  [new Error(msg)] has a [message] only;
    an error raised by the HTTP layer of the Messaging Client may carry
    [response.data.message]. *)
Record JsError := mkJsError {
  message : string;
  response_data_message : option string
}.

Definition Error (msg : string) : JsError := mkJsError msg None.

Inductive Result (A : Type) : Type :=
| Returned (a : A)
| Thrown (e : JsError).

Arguments Returned {A} a.
Arguments Thrown {A} e.

(** The double quote character of the template literals. *)
Definition dquote : string := String "034"%char EmptyString.

(** JavaScript truthiness of a string: only the empty string is falsy. *)
Definition truthy (s : string) : bool :=
  match s with
  | EmptyString => false
  | String _ _ => true
  end.

(** [a || b] on optional strings. *)
Definition or_else (a : option string) (b : string) : string :=
  match a with
  | Some s => if truthy s then s else b
  | None => b
  end.

(** The property names [for (const k in array)] enumerates: the indices
    of the array, as decimal strings. *)
Definition index_name (i : nat) : string :=
  NilZero.string_of_uint (Nat.to_uint i).

Definition array_keys {A : Type} (a : list A) : list string :=
  index_name <$> seq 0 (length a).

(** ** The bounded cache *)

(** Modelled from the spec: the Bounded Cache of section 4.1, which is
    the package [@wireapp/lru-cache] and is not under src/.  Entries
    are kept from most to least recently used.  [set] inserts or
    updates and marks the entry most recently used, evicting the least
    recently used entry first when a new key would exceed the capacity;
    [get] marks a hit most recently used; [delete] removes an entry if
    present and is silent otherwise; [getAll] gives every live entry.
    Iterating the cache walks the linked entries from the most
    recently used one.  The model is of a cache with room for at least
    one entry: with capacity 0 the package keeps nothing, where [set]
    below keeps the entry it is given.  [getAll] lists the entries from
    the most recently used one, where the package follows the order of
    its map; what is proved of its result is about membership, length
    and lists of one element. *)
Module LRUCache.
Section Cache.
Context {V : Type}.

Record t := mk {
  capacity : nat;
  entries : list (string * V)
}.

Definition new (capacity : nat) : t := mk capacity [].

Fixpoint find (key : string) (l : list (string * V)) : option V :=
  match l with
  | [] => None
  | (k, v) :: l' => if decide (k = key) then Some v else find key l'
  end.

Definition unlink (key : string) (l : list (string * V)) : list (string * V) :=
  filter (λ e, e.1 ≠ key) l.

(** The value stored under a key; unlike [get] the recency order is
    left alone. *)
Definition peek (key : string) (c : t) : option V :=
  find key (entries c).

Definition get (key : string) (c : t) : option V * t :=
  match peek key c with
  | Some v => (Some v, mk (capacity c) ((key, v) :: unlink key (entries c)))
  | None => (None, c)
  end.

Definition set (key : string) (value : V) (c : t) : t :=
  match peek key c with
  | Some _ => mk (capacity c) ((key, value) :: unlink key (entries c))
  | None =>
      let kept :=
        if decide (capacity c ≤ length (entries c))
        then removelast (entries c)
        else entries c in
      mk (capacity c) ((key, value) :: kept)
  end.

Definition delete (key : string) (c : t) : t :=
  mk (capacity c) (unlink key (entries c)).

Definition getAll (c : t) : list (string * V) := entries c.

Definition keys (c : t) : list string := (entries c).*1.

(** An object held by the cache is mutated through a reference to it:
    the entry keeps its place. *)
Definition mutate (key : string) (f : V → V) (c : t) : t :=
  mk (capacity c)
     ((λ e, if decide (e.1 = key) then (e.1, f e.2) else e) <$> entries c).
End Cache.
Arguments t V : clear implicits.
End LRUCache.

(** ** Payload bundles

    The content types are those of [@wireapp/core]; only the fields the
    service reads or writes are spelled out.  Contents the service
    stores without looking inside are kept as their serialised text. *)

Definition Buffer := list Byte.byte.
Definition Opaque := string.

Module ImageContent.
Record t := mk { data : Buffer; height : N; type : string; width : N }.
End ImageContent.

Module LinkPreviewContent.
Record t := mk {
  image : option ImageContent.t;
  title : option string;
  url : string;
  urlOffset : N
}.
End LinkPreviewContent.

Module MentionContent.
Record t := mk { length : nat; start : nat; userId : string }.
End MentionContent.

Module QuoteContent.
Record t := mk { quotedMessageId : string; quotedMessageSha256 : option Buffer }.
End QuoteContent.

Module TextContent.
Record t := mk {
  expectsReadConfirmation : option bool;
  linkPreviews : option (list LinkPreviewContent.t);
  mentions : option (list MentionContent.t);
  quote : option QuoteContent.t;
  text : string
}.

Definition set_linkPreviews (l : option (list LinkPreviewContent.t)) (c : t) : t :=
  mk (expectsReadConfirmation c) l (mentions c) (quote c) (text c).
End TextContent.

Module EditedTextContent.
Record t := mk {
  expectsReadConfirmation : option bool;
  linkPreviews : option (list LinkPreviewContent.t);
  mentions : option (list MentionContent.t);
  originalMessageId : string;
  quote : option QuoteContent.t;
  text : string
}.

Definition set_linkPreviews (l : option (list LinkPreviewContent.t)) (c : t) : t :=
  mk (expectsReadConfirmation c) l (mentions c) (originalMessageId c) (quote c) (text c).
End EditedTextContent.

Module Original.
Record t := mk { mimeType : string; name : option string; size : N }.
End Original.

Module RemoteData.
Record t := mk { assetId : string; otrKey : Buffer; sha256 : Buffer }.
End RemoteData.

Module Preview.
Record t := mk { data : option Buffer; mimeType : string; size : N }.
End Preview.

Module AssetContent.
Record t := mk {
  original : option Original.t;
  preview : option Preview.t;
  uploaded : option RemoteData.t
}.

Definition set_original (o : option Original.t) (c : t) : t :=
  mk o (preview c) (uploaded c).
End AssetContent.

Module ClearedContent.
Record t := mk { conversationId : string }.
End ClearedContent.

Module DeletedContent.
Record t := mk { messageId : string }.
End DeletedContent.

Module HiddenContent.
Record t := mk { conversationId : string; messageId : string }.
End HiddenContent.

Module ConfirmationContent.
Record t := mk {
  firstMessageId : string;
  moreMessageIds : option (list string);
  type : nat
}.
End ConfirmationContent.

(** [type ConfirmationWithSender = ConfirmationContent & {from: string}] *)
Module ConfirmationWithSender.
Record t := mk { confirmation : ConfirmationContent.t; from : string }.
End ConfirmationWithSender.

(** A bundle's [type] tag and its [content] are kept together: the tag
    decides which listener receives the bundle and what the listener
    casts [content] to.  [OTHER] stands for the bundle types no listener
    is attached to. *)
Inductive Content :=
| TEXT (c : TextContent.t)
| ASSET (c : AssetContent.t)
| ASSET_META (c : AssetContent.t)
| ASSET_IMAGE (c : Opaque)
| MESSAGE_EDIT (c : EditedTextContent.t)
| CLEARED (c : ClearedContent.t)
| LOCATION (c : Opaque)
| MESSAGE_DELETE (c : DeletedContent.t)
| MESSAGE_HIDE (c : HiddenContent.t)
| PING (c : Opaque)
| CONFIRMATION (c : ConfirmationContent.t)
| OTHER (type : string) (c : Opaque).

(** [content.original] read off whatever content is at hand:
    [undefined] where the content has no such property. *)
Definition content_original (c : Content) : option Original.t :=
  match c with
  | ASSET a | ASSET_META a => AssetContent.original a
  | _ => None
  end.

Inductive PayloadBundleState := INCOMING | OUTGOING_SENT | OUTGOING_UNSENT.

(** [type MessagePayload = PayloadBundle & {confirmations?: ConfirmationWithSender[]}] *)
Module MessagePayload.
Record t := mk {
  confirmations : option (list ConfirmationWithSender.t);
  content : Content;
  conversation : string;
  from : string;
  id : string;
  messageTimer : N;
  state : PayloadBundleState;
  timestamp : N
}.

Definition set_content (c : Content) (m : t) : t :=
  mk (confirmations m) c (conversation m) (from m) (id m)
     (messageTimer m) (state m) (timestamp m).

Definition set_confirmations (l : option (list ConfirmationWithSender.t)) (m : t) : t :=
  mk l (content m) (conversation m) (from m) (id m)
     (messageTimer m) (state m) (timestamp m).
End MessagePayload.

(** ** Instances *)

Module BackendData.
Record t := mk { name : string; rest : string; ws : string }.
End BackendData.

Module CRUDEngine.
Record t := mk { storeName : string }.
End CRUDEngine.

Module APIClient.
Record t := mk { store : CRUDEngine.t; urls : BackendData.t }.
End APIClient.

(** The [Account] of [@wireapp/core]: [service] is set once the account
    has been initialised by a login. *)
Module Account.
Record t := mk { apiClient : APIClient.t; service : bool; userId : string }.
End Account.

(** A reference to a message object. *)
Abbreviation ref := nat (only parsing).

(** [messages: LRUCache<MessagePayload>] holds references to message
    objects: [objects] is the store they live in, so that an object
    reachable under two keys is one object. *)
Module Instance.
Record t := mk {
  account : Account.t;
  backendType : BackendData.t;
  client : APIClient.t;
  engine : CRUDEngine.t;
  id : string;
  messages : LRUCache.t ref;
  name : string;
  objects : list MessagePayload.t
}.

Definition set_messages (c : LRUCache.t ref) (i : t) : t :=
  mk (account i) (backendType i) (client i) (engine i) (id i) c (name i) (objects i).

Definition set_objects (o : list MessagePayload.t) (i : t) : t :=
  mk (account i) (backendType i) (client i) (engine i) (id i) (messages i) (name i) o.
End Instance.

(** ** The message projector: [attachListeners]

    [./utils] is not under src/; its helpers are parameters of the
    development: the type guard [isAssetContent] and the two functions
    that strip binary data from an asset and from a link preview (they
    update their argument in place; here they return the stripped
    value). *)
Section Projector.
Variable isAssetContent : Content → bool.
Variable stripAsset : AssetContent.t → AssetContent.t.
Variable stripLinkPreview : LinkPreviewContent.t → LinkPreviewContent.t.

(** [instance.messages.set(key, payload)] for a payload object that is
    not in the store yet. *)
Definition messages_set (key : string) (payload : MessagePayload.t)
    (i : Instance.t) : Instance.t :=
  let r := length (Instance.objects i) in
  Instance.set_messages (LRUCache.set key r (Instance.messages i))
    (Instance.set_objects (Instance.objects i ++ [payload]) i).

(** [instance.messages.get(key)]: the object and a reference to it. *)
Definition messages_get (key : string) (i : Instance.t)
    : option (ref * MessagePayload.t) * Instance.t :=
  let '(found, c) := LRUCache.get key (Instance.messages i) in
  (found ≫= λ r, (λ m, (r, m)) <$> Instance.objects i !! r,
   Instance.set_messages c i).

Definition messages_delete (key : string) (i : Instance.t) : Instance.t :=
  Instance.set_messages (LRUCache.delete key (Instance.messages i)) i.

(** The message cached under a key, as a reader sees it. *)
Definition cached (key : string) (i : Instance.t) : option MessagePayload.t :=
  LRUCache.peek key (Instance.messages i) ≫= λ r, Instance.objects i !! r.

(** The messages the cache holds, from the most recently used one:
    what iterating the cache yields. *)
Definition cachedMessages (i : Instance.t) : list MessagePayload.t :=
  omap (λ r, Instance.objects i !! r) (LRUCache.entries (Instance.messages i)).*2.

(** Every entry is stored under the [id] of its message, as the
    listeners store what they receive. *)
Definition keyed_by_id (i : Instance.t) : Prop :=
  Forall (λ e, MessagePayload.id <$> Instance.objects i !! e.2 = Some e.1)
         (LRUCache.entries (Instance.messages i)).

(** The message cache is well formed: no key twice, every entry
    under the id of its message. *)
Definition entries_ok (objects : list MessagePayload.t) (l : list (string * ref))
    : Prop :=
  NoDup l.*1 ∧ Forall (λ e, MessagePayload.id <$> objects !! e.2 = Some e.1) l.

Definition well_formed (i : Instance.t) : Prop :=
  entries_ok (Instance.objects i) (LRUCache.entries (Instance.messages i)).

#[global] Instance well_formed_dec i : Decision (well_formed i).
Proof. unfold well_formed, entries_ok. apply _. Defined.

(** The entry refers to a message of the conversation. *)
Definition in_conversation (conversationId : string)
    (objects : list MessagePayload.t) (e : string * ref) : Prop :=
  MessagePayload.conversation <$> objects !! e.2 = Some conversationId.

#[global] Instance in_conversation_dec conversationId objects e :
  Decision (in_conversation conversationId objects e).
Proof. unfold in_conversation. apply _. Defined.

(** The keys under which the entries ahead refer to a message of the
    conversation. *)
Definition doomed (conversationId : string) (objects : list MessagePayload.t)
    (nodes : list (string * ref)) : list string :=
  (filter (in_conversation conversationId objects) nodes).*1.

Definition on_TEXT (payload : MessagePayload.t) (c : TextContent.t)
    (i : Instance.t) : Instance.t :=
  let c' :=
    match TextContent.linkPreviews c with
    | Some previews =>
        TextContent.set_linkPreviews (Some (stripLinkPreview <$> previews)) c
    | None => c
    end in
  messages_set (MessagePayload.id payload)
    (MessagePayload.set_content (TEXT c') payload) i.

Definition on_ASSET (payload : MessagePayload.t) (c : AssetContent.t)
    (i : Instance.t) : Instance.t :=
  let '(metaPayload, i1) := messages_get (MessagePayload.id payload) i in
  let c' :=
    match metaPayload with
    | Some (_, metaPayload) =>
        if isAssetContent (ASSET c)
           && isAssetContent (MessagePayload.content metaPayload)
        then AssetContent.set_original
               (content_original (MessagePayload.content metaPayload)) c
        else c
    | None => c
    end in
  messages_set (MessagePayload.id payload)
    (MessagePayload.set_content (ASSET (stripAsset c')) payload) i1.

Definition on_MESSAGE_EDIT (payload : MessagePayload.t)
    (editedContent : EditedTextContent.t) (i : Instance.t) : Instance.t :=
  messages_delete (EditedTextContent.originalMessageId editedContent)
    (messages_set (MessagePayload.id payload) payload i).

(** [for (const message of instance.messages)] with the deletions of
    the loop body: [nodes] are the entries ahead of the iterator; one
    that was unlinked before the iterator reached it is not visited. *)
Fixpoint clear_walk (conversationId : string) (nodes : list (string * ref))
    (i : Instance.t) : Instance.t :=
  match nodes with
  | [] => i
  | (key, r) :: nodes' =>
      match LRUCache.peek key (Instance.messages i), Instance.objects i !! r with
      | Some _, Some message =>
          if decide (MessagePayload.conversation message = conversationId)
          then clear_walk conversationId nodes'
                 (messages_delete (MessagePayload.id message) i)
          else clear_walk conversationId nodes' i
      | _, _ => clear_walk conversationId nodes' i
      end
  end.

Definition on_CLEARED (clearedContent : ClearedContent.t) (i : Instance.t)
    : Instance.t :=
  clear_walk (ClearedContent.conversationId clearedContent)
    (LRUCache.entries (Instance.messages i)) i.

(** The body shared by the two halves of the confirmation listener:
    look the message up, create its list if absent, push the record
    onto the list of the object itself and upsert the object under
    its own [id]. *)
Definition confirm (confirmationWithSender : ConfirmationWithSender.t)
    (key : string) (i : Instance.t) : Instance.t :=
  let '(found, i1) := messages_get key i in
  match found with
  | Some (r, messageToConfirm) =>
      let confirmations :=
        default [] (MessagePayload.confirmations messageToConfirm) in
      let messageToConfirm' :=
        MessagePayload.set_confirmations
          (Some (confirmations ++ [confirmationWithSender])) messageToConfirm in
      Instance.set_messages
        (LRUCache.set (MessagePayload.id messageToConfirm') r (Instance.messages i1))
        (Instance.set_objects (<[r := messageToConfirm']> (Instance.objects i1)) i1)
  | None => i1
  end.

Definition on_CONFIRMATION (payload : MessagePayload.t)
    (confirmationContent : ConfirmationContent.t) (i : Instance.t) : Instance.t :=
  let confirmationWithSender :=
    ConfirmationWithSender.mk confirmationContent (MessagePayload.from payload) in
  let i1 :=
    confirm confirmationWithSender
      (ConfirmationContent.firstMessageId confirmationContent) i in
  match ConfirmationContent.moreMessageIds confirmationContent with
  | Some moreMessageIds =>
      (* for (const furtherMessageId in confirmationContent.moreMessageIds) *)
      foldl (λ i furtherMessageId, confirm confirmationWithSender furtherMessageId i)
        i1 (array_keys moreMessageIds)
  | None => i1
  end.

(** The listener that [attachListeners] registers for the bundle's
    type, applied to the bundle. *)
Definition project (payload : MessagePayload.t) (i : Instance.t) : Instance.t :=
  match MessagePayload.content payload with
  | TEXT c => on_TEXT payload c i
  | ASSET c => on_ASSET payload c i
  | ASSET_META _ => messages_set (MessagePayload.id payload) payload i
  | ASSET_IMAGE _ => messages_set (MessagePayload.id payload) payload i
  | MESSAGE_EDIT c => on_MESSAGE_EDIT payload c i
  | CLEARED c => on_CLEARED c i
  | LOCATION _ => messages_set (MessagePayload.id payload) payload i
  | MESSAGE_DELETE c => messages_delete (DeletedContent.messageId c) i
  | MESSAGE_HIDE c => messages_delete (HiddenContent.messageId c) i
  | PING _ => messages_set (MessagePayload.id payload) payload i
  | CONFIRMATION c => on_CONFIRMATION payload c i
  | OTHER _ _ => i
  end.

(** The body of [getMessages]: the values of [getAll()], key by key,
    filtered by conversation. *)
Definition conversationMessages (conversationId : string) (i : Instance.t)
    : list MessagePayload.t :=
  let allMessages := LRUCache.getAll (Instance.messages i) in
  filter (λ message, MessagePayload.conversation message = conversationId)
    (omap (λ messageId,
             LRUCache.find messageId allMessages ≫= λ r, Instance.objects i !! r)
          allMessages.*1).
End Projector.

(** [linkPreviews.forEach(preview => stripLinkPreview(preview))] on a
    content read as text content: contents without a [linkPreviews]
    property are left alone. *)
Definition strip_linkPreviews
    (stripLinkPreview : LinkPreviewContent.t → LinkPreviewContent.t)
    (c : Content) : Content :=
  match c with
  | TEXT t =>
      match TextContent.linkPreviews t with
      | Some previews =>
          TEXT (TextContent.set_linkPreviews (Some (stripLinkPreview <$> previews)) t)
      | None => c
      end
  | MESSAGE_EDIT t =>
      match EditedTextContent.linkPreviews t with
      | Some previews =>
          MESSAGE_EDIT
            (EditedTextContent.set_linkPreviews (Some (stripLinkPreview <$> previews)) t)
      | None => c
      end
  | _ => c
  end.

(** ** The collaborators *)

Inductive ClientType := NONE | PERMANENT | TEMPORARY.

Module LoginData.
Record t := mk { clientType : ClientType; email : string; password : string }.
End LoginData.

Module ClientInfo.
Record t := mk {
  classification : string;
  cookieLabel : string;
  label : option string;
  model : string
}.
End ClientInfo.

Module InstanceCreationOptions.
Record t := mk {
  backend : option string;
  customBackend : option BackendData.t;
  deviceClass : option string;
  deviceLabel : option string;
  deviceName : option string;
  instanceName : option string;
  loginData : LoginData.t
}.
End InstanceCreationOptions.

(** The arguments a text builder chain collects before [build()]. *)
Module TextArguments.
Record t := mk {
  conversationId : string;
  text : string;
  messageId : option string;
  linkPreviews : option (list LinkPreviewContent.t);
  mentions : option (list MentionContent.t);
  quote : option QuoteContent.t;
  expectsReadConfirmation : option bool
}.
End TextArguments.

Module EditedTextArguments.
Record t := mk {
  conversationId : string;
  newMessageText : string;
  originalMessageId : string;
  messageId : option string;
  linkPreviews : option (list LinkPreviewContent.t);
  mentions : option (list MentionContent.t);
  quote : option QuoteContent.t;
  expectsReadConfirmation : option bool
}.
End EditedTextArguments.

(** What the service asks of the outside, in the order it asks. *)
Inductive Call :=
| login_call (loginData : LoginData.t) (clientInfo : ClientInfo.t)
| listen_call (account : Account.t)
| logout_call (account : Account.t)
| setMessageLevelTimer_call (account : Account.t)
    (conversationId : string) (expireAfterMillis : N)
| send_call (account : Account.t) (payload : MessagePayload.t)
| createLinkPreview_call (account : Account.t) (linkPreview : LinkPreviewContent.t)
| deleteMessageEveryone_call (account : Account.t)
    (conversationId messageId : string) (recipients : list string).

(** The Messaging Client ([@wireapp/core], [@wireapp/api-client]) and
    the UUID generator are external: each answer is a function of the
    calls made so far and of the arguments of the call.  [inl] is a
    rejection with the thrown value. *)
Record Collaborators := mkCollaborators {
  uuid : list Call → string;
  version : string;
  BACKEND_PRODUCTION : BackendData.t;
  BACKEND_STAGING : BackendData.t;
  defaultCapacity : nat;
  login : list Call → Account.t → LoginData.t → ClientInfo.t → JsError + Account.t;
  listen : list Call → Account.t → option JsError;
  logout : list Call → Account.t → option JsError;
  send : list Call → Account.t → MessagePayload.t → JsError + MessagePayload.t;
  deleteMessageEveryone :
    list Call → Account.t → string → string → list string → option JsError;
  createText : list Call → Account.t → TextArguments.t → MessagePayload.t;
  createEditedText : list Call → Account.t → EditedTextArguments.t → MessagePayload.t;
  createConfirmation :
    list Call → Account.t → string → string → nat → option (list string)
    → MessagePayload.t;
  createLinkPreview :
    list Call → Account.t → LinkPreviewContent.t → JsError + LinkPreviewContent.t
}.

(** ** The state of the service and its computations *)

Record State := mkState {
  maximumInstances : nat;
  cachedInstances : LRUCache.t Instance.t;
  calls : list Call
}.

(** [new InstanceService(maximumInstances = 100)] *)
Definition new_InstanceService (maximumInstances : option nat) : State :=
  let maximumInstances := default 100 maximumInstances in
  mkState maximumInstances (LRUCache.new maximumInstances) [].

Definition set_cachedInstances (c : LRUCache.t Instance.t) (s : State) : State :=
  mkState (maximumInstances s) c (calls s).

Definition record_call (c : Call) (s : State) : State :=
  mkState (maximumInstances s) (cachedInstances s) (calls s ++ [c]).

(** A method of the service: it returns or throws, and leaves a state. *)
Definition M (A : Type) : Type := State → Result A * State.

Definition ret {A} (a : A) : M A := λ s, (Returned a, s).

Definition throw {A} (e : JsError) : M A := λ s, (Thrown e, s).

Definition bind {A B} (m : M A) (k : A → M B) : M B :=
  λ s, match m s with
       | (Returned a, s') => k a s'
       | (Thrown e, s') => (Thrown e, s')
       end.

(** [try { m } catch (error) { handler(error) }] *)
Definition try_catch {A} (m : M A) (handler : JsError → M A) : M A :=
  λ s, match m s with
       | (Returned a, s') => (Returned a, s')
       | (Thrown e, s') => handler e s'
       end.

Notation "x <- m ;; k" := (bind m (λ x, k))
  (at level 100, m at next level, right associativity).
Notation "m ;;; k" := (bind m (λ _, k))
  (at level 100, right associativity).

(** [await] on a call that resolves to nothing. *)
Definition await_unit (answer : list Call → option JsError) (c : Call) : M unit :=
  λ s, match answer (calls s) with
       | None => (Returned (), record_call c s)
       | Some e => (Thrown e, record_call c s)
       end.

(** [await] on a call that resolves to a value. *)
Definition await {A} (answer : list Call → JsError + A) (c : Call) : M A :=
  λ s, match answer (calls s) with
       | inr a => (Returned a, record_call c s)
       | inl e => (Thrown e, record_call c s)
       end.

(** A synchronous question to a collaborator that cannot fail. *)
Definition ask {A} (answer : list Call → A) : M A :=
  λ s, (Returned (answer (calls s)), s).

(** The instance object found under [instanceId] was updated through
    the reference the method holds: the registry sees the update, the
    recency order is left alone. *)
Definition store_instance (instanceId : string) (i : Instance.t) : M unit :=
  λ s, (Returned (),
        set_cachedInstances
          (LRUCache.mutate instanceId (λ _, i) (cachedInstances s)) s).

(** ** The instance registry: the methods of [InstanceService] *)

Inductive BackendArgument :=
| backend_string (s : string)
| backend_data (d : BackendData.t)
| backend_undefined.

Section Service.
Variable isAssetContent : Content → bool.
Variable stripAsset : AssetContent.t → AssetContent.t.
Variable stripLinkPreview : LinkPreviewContent.t → LinkPreviewContent.t.
Variable env : Collaborators.

Definition parseBackend (backend : BackendArgument) : BackendData.t :=
  match backend with
  | backend_string s =>
      if decide (s = "production") then BACKEND_PRODUCTION env
      else if decide (s = "prod") then BACKEND_PRODUCTION env
      else BACKEND_STAGING env
  | backend_undefined => BACKEND_STAGING env
  | backend_data d => d
  end.

(** [options.backend || options.customBackend] *)
Definition backend_or_custom (options : InstanceCreationOptions.t) : BackendArgument :=
  match InstanceCreationOptions.backend options with
  | Some s =>
      if truthy s then backend_string s
      else match InstanceCreationOptions.customBackend options with
           | Some d => backend_data d
           | None => backend_undefined
           end
  | None =>
      match InstanceCreationOptions.customBackend options with
      | Some d => backend_data d
      | None => backend_undefined
      end
  end.

(** [new Error(`Instance "${instanceId}" not found.`)] *)
Definition instance_not_found (instanceId : string) : JsError :=
  Error ("Instance " +:+ dquote +:+ instanceId +:+ dquote +:+ " not found.").

(** [new Error(`Message with ID "${messageId}" not found.`)] *)
Definition message_not_found (messageId : string) : JsError :=
  Error ("Message with ID " +:+ dquote +:+ messageId +:+ dquote +:+ " not found.").

Definition getInstance (instanceId : string) : M Instance.t :=
  λ s, match LRUCache.get instanceId (cachedInstances s) with
       | (Some instance, c) => (Returned instance, set_cachedInstances c s)
       | (None, _) => (Thrown (instance_not_found instanceId), s)
       end.

Definition instanceExists (instanceId : string) : State → bool * State :=
  λ s, match LRUCache.get instanceId (cachedInstances s) with
       | (Some _, c) => (true, set_cachedInstances c s)
       | (None, _) => (false, s)
       end.

Definition service_not_set {A} (instanceId : string) : M A :=
  throw (Error ("Account service for instance " +:+ instanceId +:+ " not set.")).

(** What the [catch] clause of [createInstance] throws. *)
Definition backend_error (error : JsError) : JsError :=
  match response_data_message error with
  | Some msg =>
      if truthy msg then Error ("Backend error: " +:+ msg) else error
  | None => error
  end.

(** [new Account(client)]: no service before the login. *)
Definition new_Account (client : APIClient.t) : Account.t :=
  Account.mk client false EmptyString.

Definition creation_client (options : InstanceCreationOptions.t) : APIClient.t :=
  APIClient.mk (CRUDEngine.mk "wire-web-ets") (parseBackend (backend_or_custom options)).

Definition creation_ClientInfo (options : InstanceCreationOptions.t) : ClientInfo.t :=
  ClientInfo.mk
    (or_else (InstanceCreationOptions.deviceClass options) "desktop")
    "default"
    (InstanceCreationOptions.deviceLabel options)
    (or_else (InstanceCreationOptions.deviceName options)
             ("E2E Test Server v" +:+ version env)).

Definition createInstance (options : InstanceCreationOptions.t) : M string :=
  instanceId <- ask (uuid env) ;;
  let backendType := parseBackend (backend_or_custom options) in
  let client := creation_client options in
  let engine := APIClient.store client in
  let account := new_Account client in
  let ClientInfo := creation_ClientInfo options in
  let loginData := InstanceCreationOptions.loginData options in
  account <-
    try_catch
      (account <- await (λ h, login env h account loginData ClientInfo)
                        (login_call loginData ClientInfo) ;;
       await_unit (λ h, listen env h account) (listen_call account) ;;;
       ret account)
      (λ error, throw (backend_error error)) ;;
  let instance :=
    Instance.mk account backendType client engine instanceId
      (LRUCache.new (defaultCapacity env))
      (or_else (InstanceCreationOptions.instanceName options) EmptyString)
      [] in
  (λ s, (Returned (),
         set_cachedInstances (LRUCache.set instanceId instance (cachedInstances s)) s)) ;;;
  ret instanceId.

(** An event the account of instance [instanceId] emits reaches the
    listeners attached to that instance. *)
Definition emit (instanceId : string) (payload : MessagePayload.t) (s : State) : State :=
  set_cachedInstances
    (LRUCache.mutate instanceId
       (project isAssetContent stripAsset stripLinkPreview payload)
       (cachedInstances s)) s.

Definition deleteInstance (instanceId : string) : M unit :=
  instance <- getInstance instanceId ;;
  await_unit (λ h, logout env h (Instance.account instance))
    (logout_call (Instance.account instance)) ;;;
  (λ s, (Returned (),
         set_cachedInstances (LRUCache.delete instanceId (cachedInstances s)) s)).

Definition getMessages (instanceId conversationId : string)
    : M (list MessagePayload.t) :=
  instance <- getInstance instanceId ;;
  if Account.service (Instance.account instance)
  then ret (conversationMessages conversationId instance)
  else throw (Error "Account service not set.").

Definition sendText (instanceId conversationId message : string)
    (linkPreview : option LinkPreviewContent.t)
    (mentions : option (list MentionContent.t))
    (quote : option QuoteContent.t)
    (expectsReadConfirmation : option bool)
    (expireAfterMillis : option N) : M string :=
  let expireAfterMillis := default 0%N expireAfterMillis in
  instance <- getInstance instanceId ;;
  let account := Instance.account instance in
  if Account.service account then
    (λ s, (Returned (),
           record_call
             (setMessageLevelTimer_call account conversationId expireAfterMillis) s)) ;;;
    payload <-
      ask (λ h, createText env h account
                  (TextArguments.mk conversationId message None None
                     mentions quote expectsReadConfirmation)) ;;
    sentMessage <- await (λ h, send env h account payload) (send_call account payload) ;;
    sentMessage <-
      match linkPreview with
      | Some linkPreview =>
          linkPreviewPayload <-
            await (λ h, createLinkPreview env h account linkPreview)
                  (createLinkPreview_call account linkPreview) ;;
          editedWithPreviewPayload <-
            ask (λ h, createText env h account
                        (TextArguments.mk conversationId message
                           (Some (MessagePayload.id sentMessage))
                           (Some [linkPreviewPayload])
                           mentions quote expectsReadConfirmation)) ;;
          sentMessage <-
            await (λ h, send env h account editedWithPreviewPayload)
                  (send_call account editedWithPreviewPayload) ;;
          ret (MessagePayload.set_content
                 (strip_linkPreviews stripLinkPreview
                    (MessagePayload.content sentMessage))
                 sentMessage)
      | None => ret sentMessage
      end ;;
    store_instance instanceId
      (messages_set (MessagePayload.id sentMessage) sentMessage instance) ;;;
    ret (MessagePayload.id sentMessage)
  else service_not_set instanceId.

(** [for (const messageId of moreMessageIds)] of the ephemeral
    confirmations; a missing further message is reported under the
    first message's id, as the source does. *)
Fixpoint delete_further_messages (instanceId conversationId firstMessageId : string)
    (moreMessageIds : list string) (instance : Instance.t) : M unit :=
  match moreMessageIds with
  | [] => ret ()
  | messageId :: rest =>
      let '(furtherMessage, instance) := messages_get messageId instance in
      store_instance instanceId instance ;;;
      match furtherMessage with
      | None => throw (message_not_found firstMessageId)
      | Some (_, furtherMessage) =>
          let account := Instance.account instance in
          let recipients := [MessagePayload.from furtherMessage] in
          await_unit
            (λ h, deleteMessageEveryone env h account conversationId messageId recipients)
            (deleteMessageEveryone_call account conversationId messageId recipients) ;;;
          delete_further_messages instanceId conversationId firstMessageId rest
            instance
      end
  end.

(** The body that [sendEphemeralConfirmationDelivered] (type 0) and
    [sendEphemeralConfirmationRead] (type 1) have in common. *)
Definition sendEphemeralConfirmation (type : nat)
    (instanceId conversationId firstMessageId : string)
    (moreMessageIds : option (list string)) : M string :=
  instance <- getInstance instanceId ;;
  let '(message, instance) := messages_get firstMessageId instance in
  store_instance instanceId instance ;;;
  match message with
  | None => throw (message_not_found firstMessageId)
  | Some (_, message) =>
      let account := Instance.account instance in
      if Account.service account then
        confirmationPayload <-
          ask (λ h, createConfirmation env h account conversationId firstMessageId
                      type moreMessageIds) ;;
        await (λ h, send env h account confirmationPayload)
              (send_call account confirmationPayload) ;;;
        (let recipients := [MessagePayload.from message] in
         await_unit
           (λ h, deleteMessageEveryone env h account conversationId firstMessageId
                   recipients)
           (deleteMessageEveryone_call account conversationId firstMessageId
              recipients)) ;;;
        match moreMessageIds with
        | Some (messageId :: rest) =>
            delete_further_messages instanceId conversationId firstMessageId
              (messageId :: rest) instance
        | _ => ret ()
        end ;;;
        ret (Instance.name instance)
      else service_not_set instanceId
  end.

Definition sendEphemeralConfirmationDelivered :=
  sendEphemeralConfirmation 0.

Definition sendEphemeralConfirmationRead :=
  sendEphemeralConfirmation 1.

Definition sendEditedText (instanceId conversationId originalMessageId : string)
    (newMessageText : string)
    (newLinkPreview : option LinkPreviewContent.t)
    (newMentions : option (list MentionContent.t))
    (newQuote : option QuoteContent.t)
    (expectsReadConfirmation : option bool) : M string :=
  instance <- getInstance instanceId ;;
  let account := Instance.account instance in
  if Account.service account then
    editedPayload <-
      ask (λ h, createEditedText env h account
                  (EditedTextArguments.mk conversationId newMessageText
                     originalMessageId None None
                     newMentions newQuote expectsReadConfirmation)) ;;
    editedMessage <-
      await (λ h, send env h account editedPayload) (send_call account editedPayload) ;;
    editedMessage <-
      match newLinkPreview with
      | Some newLinkPreview =>
          linkPreviewPayload <-
            await (λ h, createLinkPreview env h account newLinkPreview)
                  (createLinkPreview_call account newLinkPreview) ;;
          editedWithPreviewPayload <-
            ask (λ h, createEditedText env h account
                        (EditedTextArguments.mk conversationId newMessageText
                           originalMessageId
                           (Some (MessagePayload.id editedMessage))
                           (Some [linkPreviewPayload])
                           newMentions newQuote expectsReadConfirmation)) ;;
          editedMessage <-
            await (λ h, send env h account editedWithPreviewPayload)
                  (send_call account editedWithPreviewPayload) ;;
          ret (MessagePayload.set_content
                 (strip_linkPreviews stripLinkPreview
                    (MessagePayload.content editedMessage))
                 editedMessage)
      | None => ret editedMessage
      end ;;
    store_instance instanceId (messages_set originalMessageId editedMessage instance) ;;;
    ret (MessagePayload.id editedMessage)
  else service_not_set instanceId.
End Service.

(** ** What the service relies on when it reads back what it sent

    The builder puts the conversation and the text it was given into
    the bundle, and [send] resolves to a bundle with the conversation
    and the content of the one it was given. *)
Definition builds_text (env : Collaborators) : Prop :=
  ∀ h a args,
    MessagePayload.conversation (createText env h a args)
    = TextArguments.conversationId args
    ∧ ∃ c, MessagePayload.content (createText env h a args) = TEXT c
           ∧ TextContent.text c = TextArguments.text args.

(** The builder of an edit puts the conversation, the new text and
    the id of the message it replaces into the bundle. *)
Definition builds_edited_text (env : Collaborators) : Prop :=
  ∀ h a args,
    MessagePayload.conversation (createEditedText env h a args)
    = EditedTextArguments.conversationId args
    ∧ ∃ c, MessagePayload.content (createEditedText env h a args) = MESSAGE_EDIT c
           ∧ EditedTextContent.text c = EditedTextArguments.newMessageText args
           ∧ EditedTextContent.originalMessageId c
             = EditedTextArguments.originalMessageId args.

Definition send_keeps_message (env : Collaborators) : Prop :=
  ∀ h a p m,
    send env h a p = inr m →
    MessagePayload.conversation m = MessagePayload.conversation p
    ∧ MessagePayload.content m = MessagePayload.content p.

(** ** Stand-ins for the collaborators

    A Messaging Client that accepts everything, in the manner of the
    HTTP mocks of the route tests: logins succeed and initialise the
    account, [send] resolves to the bundle it was given, marked as
    sent, and the builders fill a bundle with their arguments. *)
Module Mock.
Definition uuid (h : list Call) : string := "uuid-" +:+ index_name (length h).

Definition sent (m : MessagePayload.t) : MessagePayload.t :=
  MessagePayload.mk (MessagePayload.confirmations m) (MessagePayload.content m)
    (MessagePayload.conversation m) (MessagePayload.from m) (MessagePayload.id m)
    (MessagePayload.messageTimer m) OUTGOING_SENT (MessagePayload.timestamp m).

Definition createText (h : list Call) (a : Account.t) (args : TextArguments.t)
    : MessagePayload.t :=
  MessagePayload.mk None
    (TEXT (TextContent.mk
             (TextArguments.expectsReadConfirmation args)
             (TextArguments.linkPreviews args)
             (TextArguments.mentions args)
             (TextArguments.quote args)
             (TextArguments.text args)))
    (TextArguments.conversationId args) (Account.userId a)
    (default (uuid h) (TextArguments.messageId args))
    0%N OUTGOING_UNSENT (N.of_nat (length h)).

Definition createEditedText (h : list Call) (a : Account.t)
    (args : EditedTextArguments.t) : MessagePayload.t :=
  MessagePayload.mk None
    (MESSAGE_EDIT (EditedTextContent.mk
             (EditedTextArguments.expectsReadConfirmation args)
             (EditedTextArguments.linkPreviews args)
             (EditedTextArguments.mentions args)
             (EditedTextArguments.originalMessageId args)
             (EditedTextArguments.quote args)
             (EditedTextArguments.newMessageText args)))
    (EditedTextArguments.conversationId args) (Account.userId a)
    (default (uuid h) (EditedTextArguments.messageId args))
    0%N OUTGOING_UNSENT (N.of_nat (length h)).

Definition createConfirmation (h : list Call) (a : Account.t)
    (conversationId firstMessageId : string) (type : nat)
    (moreMessageIds : option (list string)) : MessagePayload.t :=
  MessagePayload.mk None
    (CONFIRMATION (ConfirmationContent.mk firstMessageId moreMessageIds type))
    conversationId (Account.userId a) (uuid h) 0%N OUTGOING_UNSENT
    (N.of_nat (length h)).

Definition accepting : Collaborators :=
  mkCollaborators uuid "1.0.0"
    (BackendData.mk "production" "https://prod-nginz-https.wire.com"
       "wss://prod-nginz-ssl.wire.com")
    (BackendData.mk "staging" "https://staging-nginz-https.zinfra.io"
       "wss://staging-nginz-ssl.zinfra.io")
    100
    (λ _ a _ _, inr (Account.mk (Account.apiClient a) true "self"))
    (λ _ _, None)
    (λ _ _, None)
    (λ _ _ p, inr (sent p))
    (λ _ _ _ _ _, None)
    createText createEditedText createConfirmation
    (λ _ _ p, inr p).

(** The same client against a backend that rejects every login. *)
Definition rejecting (error : JsError) : Collaborators :=
  mkCollaborators uuid (version accepting)
    (BACKEND_PRODUCTION accepting) (BACKEND_STAGING accepting)
    100
    (λ _ _ _ _, inl error)
    (λ _ _, None)
    (λ _ _, None)
    (λ _ _ p, inr (sent p))
    (λ _ _ _ _ _, None)
    createText createEditedText createConfirmation
    (λ _ _ p, inr p).

Definition isAssetContent (c : Content) : bool :=
  match c with
  | ASSET _ | ASSET_META _ => true
  | _ => false
  end.

Definition stripAsset (c : AssetContent.t) : AssetContent.t :=
  AssetContent.mk (AssetContent.original c)
    ((λ p, Preview.mk None (Preview.mimeType p) (Preview.size p))
       <$> AssetContent.preview c)
    (AssetContent.uploaded c).

Definition stripLinkPreview (p : LinkPreviewContent.t) : LinkPreviewContent.t :=
  LinkPreviewContent.mk
    ((λ i, ImageContent.mk [] (ImageContent.height i) (ImageContent.type i)
             (ImageContent.width i)) <$> LinkPreviewContent.image p)
    (LinkPreviewContent.title p) (LinkPreviewContent.url p)
    (LinkPreviewContent.urlOffset p).

Definition project := project isAssetContent stripAsset stripLinkPreview.

Definition options : InstanceCreationOptions.t :=
  InstanceCreationOptions.mk (Some "production") None None None None None
    (LoginData.mk PERMANENT "test@example.com" "supersecret").

(** A received text message. *)
Definition text (id conversation from text : string) : MessagePayload.t :=
  MessagePayload.mk None (TEXT (TextContent.mk None None None None text))
    conversation from id 0%N INCOMING 1533033857761%N.

(** An instance with an initialised account and no messages. *)
Definition instance : Instance.t :=
  let client := APIClient.mk (CRUDEngine.mk "wire-web-ets") (BACKEND_PRODUCTION accepting) in
  Instance.mk (Account.mk client true "self") (BACKEND_PRODUCTION accepting)
    client (CRUDEngine.mk "wire-web-ets") "instance-1" (LRUCache.new 100) EmptyString [].
End Mock.

(** ** Scenarios

    The states and bundles the examples below run the service on. *)
Module Scenario.
(** A service in which one instance, "uuid-0", has been created. *)
Definition created : State :=
  (createInstance Mock.accepting Mock.options (new_InstanceService None)).2.

Definition instanceId : string := "uuid-0".

(** An instance that has received the text messages M1 and M3. *)
Definition received_M1_M3 : Instance.t :=
  Mock.project (Mock.text "M3" "X" "bob" "three")
    (Mock.project (Mock.text "M1" "X" "bob" "one") Mock.instance).

(** A read confirmation from alice for M1 and, further, M2 and M3. *)
Definition confirmation_content : ConfirmationContent.t :=
  ConfirmationContent.mk "M1" (Some ["M2"; "M3"]) 1.

Definition confirmation : MessagePayload.t :=
  MessagePayload.mk None (CONFIRMATION confirmation_content)
    "X" "alice" "confirmation-1" 0%N INCOMING 1533033857762%N.

(** An instance that has received the text message A, and the event
    that edits A into B. *)
Definition received_A : Instance.t :=
  Mock.project (Mock.text "A" "X" "bob" "first wording") Mock.instance.

Definition edit_content : EditedTextContent.t :=
  EditedTextContent.mk None None None "A" None "second wording".

Definition edit : MessagePayload.t :=
  MessagePayload.mk None (MESSAGE_EDIT edit_content)
    "X" "bob" "B" 0%N INCOMING 1533033857763%N.

(** An instance with two messages in C1 and one in C2, and the event
    that clears C1. *)
Definition received_three : Instance.t :=
  Mock.project (Mock.text "m3" "C2" "bob" "three")
    (Mock.project (Mock.text "m2" "C1" "bob" "two")
       (Mock.project (Mock.text "m1" "C1" "bob" "one") Mock.instance)).

Definition clear_C1 : MessagePayload.t :=
  MessagePayload.mk None (CLEARED (ClearedContent.mk "C1"))
    "C1" "self" "clear-1" 0%N INCOMING 1533033857764%N.

(** The service after instance "uuid-0" has received the text message A
    in conversation C1 and has itself sent an edit of A. *)
Definition self_edited : State :=
  (sendEditedText Mock.stripLinkPreview Mock.accepting instanceId "C1" "A"
     "second wording" None None None None
     (emit Mock.isAssetContent Mock.stripAsset Mock.stripLinkPreview instanceId
        (Mock.text "A" "C1" "bob" "first wording") created)).2.

(** The edit the service sent in [self_edited]. *)
Definition sent_edit : MessagePayload.t :=
  MessagePayload.mk None
    (MESSAGE_EDIT (EditedTextContent.mk None None None "A" None "second wording"))
    "C1" "self" "uuid-2" 0%N OUTGOING_SENT 2%N.

(** An instance holding the metadata placeholder of a file, and the
    event that brings the file's data. *)
Definition file_original : Original.t := Original.mk "application/pdf" (Some "report.pdf") 2048.

Definition file_metadata : MessagePayload.t :=
  MessagePayload.mk None
    (ASSET_META (AssetContent.mk (Some file_original) None None))
    "X" "bob" "F" 0%N INCOMING 1533033857765%N.

Definition file_data_content : AssetContent.t :=
  AssetContent.mk None
    (Some (Preview.mk (Some [Byte.x89; Byte.x50; Byte.x4e; Byte.x47]) "image/png" 4))
    (Some (RemoteData.mk "asset-1" [Byte.x01] [Byte.x02])).

Definition file_data : MessagePayload.t :=
  MessagePayload.mk None (ASSET file_data_content)
    "X" "bob" "F" 0%N INCOMING 1533033857766%N.

Definition received_metadata : Instance.t := Mock.project file_metadata Mock.instance.

(** A backend rejection of the login, as the HTTP layer reports it. *)
Definition invalid_credentials : JsError :=
  mkJsError "Request failed with status code 403"
    (Some "Authentication failed.").
End Scenario.

(** The content the listeners store without a lookup. *)
Definition plainly_stored (c : Content) : Prop :=
  match c with
  | TEXT _ | ASSET_META _ | ASSET_IMAGE _ | LOCATION _ | PING _ => True
  | _ => False
  end.

(** ** Further methods of [InstanceService] *)

(** [ReactionType] of [@wireapp/core]. *)
Module ReactionType.
Inductive t := LIKE | NONE.
End ReactionType.

(** The builders of the Messaging Client the methods below use, each a
    function of the calls made so far and of its arguments, like
    [createText]. *)
Record MessageBuilder := mkMessageBuilder {
  createLocation : list Call → Account.t → string → Opaque → MessagePayload.t;
  createPing : list Call → Account.t → string → option bool → MessagePayload.t;
  createReaction :
    list Call → Account.t → string → string → ReactionType.t → MessagePayload.t;
  createSessionReset : list Call → Account.t → string → MessagePayload.t
}.

Section FurtherMethods.
Variable env : Collaborators.
Variable builder : MessageBuilder.

(** [getInstances(): NodeMap<Instance>] *)
Definition getInstances (s : State) : list (string * Instance.t) :=
  LRUCache.getAll (cachedInstances s).

(** The body that [sendConfirmationDelivered] (type 0) and
    [sendConfirmationRead] (type 1) have in common. *)
Definition sendConfirmation (type : nat)
    (instanceId conversationId firstMessageId : string)
    (moreMessageIds : option (list string)) : M string :=
  instance <- getInstance instanceId ;;
  let account := Instance.account instance in
  if Account.service account then
    payload <-
      ask (λ h, createConfirmation env h account conversationId firstMessageId
                  type moreMessageIds) ;;
    await (λ h, send env h account payload) (send_call account payload) ;;;
    ret (Instance.name instance)
  else service_not_set instanceId.

Definition sendConfirmationDelivered := sendConfirmation 0.

Definition sendConfirmationRead := sendConfirmation 1.

Definition sendLocation (instanceId conversationId : string) (location : Opaque)
    (expireAfterMillis : option N) : M string :=
  let expireAfterMillis := default 0%N expireAfterMillis in
  instance <- getInstance instanceId ;;
  let account := Instance.account instance in
  if Account.service account then
    (λ s, (Returned (),
           record_call
             (setMessageLevelTimer_call account conversationId expireAfterMillis) s)) ;;;
    payload <- ask (λ h, createLocation builder h account conversationId location) ;;
    sentLocation <-
      await (λ h, send env h account payload) (send_call account payload) ;;
    store_instance instanceId
      (messages_set (MessagePayload.id sentLocation) sentLocation instance) ;;;
    ret (MessagePayload.id sentLocation)
  else service_not_set instanceId.

Definition sendPing (instanceId conversationId : string)
    (expectsReadConfirmation : option bool) (expireAfterMillis : option N)
    : M string :=
  let expireAfterMillis := default 0%N expireAfterMillis in
  instance <- getInstance instanceId ;;
  let account := Instance.account instance in
  if Account.service account then
    (λ s, (Returned (),
           record_call
             (setMessageLevelTimer_call account conversationId expireAfterMillis) s)) ;;;
    payload <-
      ask (λ h, createPing builder h account conversationId expectsReadConfirmation) ;;
    sentPing <- await (λ h, send env h account payload) (send_call account payload) ;;
    store_instance instanceId
      (messages_set (MessagePayload.id sentPing) sentPing instance) ;;;
    ret (MessagePayload.id sentPing)
  else service_not_set instanceId.

Definition sendReaction (instanceId conversationId originalMessageId : string)
    (type : ReactionType.t) : M string :=
  instance <- getInstance instanceId ;;
  let account := Instance.account instance in
  if Account.service account then
    payload <-
      ask (λ h, createReaction builder h account conversationId originalMessageId
                  type) ;;
    sent <- await (λ h, send env h account payload) (send_call account payload) ;;
    ret (MessagePayload.id sent)
  else service_not_set instanceId.

Definition resetSession (instanceId conversationId : string) : M string :=
  instance <- getInstance instanceId ;;
  let account := Instance.account instance in
  if Account.service account then
    sessionResetPayload <-
      ask (λ h, createSessionReset builder h account conversationId) ;;
    sent <-
      await (λ h, send env h account sessionResetPayload)
            (send_call account sessionResetPayload) ;;
    ret (MessagePayload.id sent)
  else service_not_set instanceId.

(** The instance object [createInstance] builds once the login and the
    start of the event delivery have resolved. *)
Definition created_instance (options : InstanceCreationOptions.t)
    (instanceId : string) (account : Account.t) : Instance.t :=
  Instance.mk account (parseBackend env (backend_or_custom options))
    (creation_client env options) (APIClient.store (creation_client env options))
    instanceId (LRUCache.new (defaultCapacity env))
    (or_else (InstanceCreationOptions.instanceName options) EmptyString) [].
End FurtherMethods.

(** The two states register the same instances, in the same state. *)
Definition same_instances (s s' : State) : Prop :=
  ∀ instanceId,
    LRUCache.peek instanceId (cachedInstances s')
    = LRUCache.peek instanceId (cachedInstances s).

(** The registry holds no more instances than its capacity. *)
Definition within_capacity (s : State) : Prop :=
  length (LRUCache.entries (cachedInstances s)) ≤ LRUCache.capacity (cachedInstances s).

(** The method throws [e], having asked nothing of the Messaging Client
    and leaving every registered instance as it was. *)
Definition throws_untouched {A} (m : M A) (s : State) (e : JsError) : Prop :=
  (m s).1 = Thrown e ∧ calls (m s).2 = calls s ∧ same_instances s (m s).2.

(** The requests to delete the cached messages under [ids] for
    everyone, each addressed to the sender of its message. *)
Definition deletions (account : Account.t) (conversationId : string)
    (instance : Instance.t) (ids : list string) : list Call :=
  omap (λ messageId,
          (λ message,
             deleteMessageEveryone_call account conversationId messageId
               [MessagePayload.from message])
          <$> cached messageId instance)
       ids.

(** ** Uses of the service over time *)

(** What happens to the registry from outside: an instance is created
    or deleted, or the account of an instance emits an event. *)
Inductive Operation :=
| create_instance (options : InstanceCreationOptions.t)
| delete_instance (instanceId : string)
| receive_event (instanceId : string) (payload : MessagePayload.t).

Section Operations.
Variable isAssetContent : Content → bool.
Variable stripAsset : AssetContent.t → AssetContent.t.
Variable stripLinkPreview : LinkPreviewContent.t → LinkPreviewContent.t.
Variable env : Collaborators.

Definition run (s : State) (operation : Operation) : State :=
  match operation with
  | create_instance options => (createInstance env options s).2
  | delete_instance instanceId => (deleteInstance env instanceId s).2
  | receive_event instanceId payload =>
      emit isAssetContent stripAsset stripLinkPreview instanceId payload s
  end.
End Operations.

(** ** Sending images and files *)

(** The asset builders of the Messaging Client upload what they are
    given, so they can be rejected; like the other builders they answer
    as a function of the calls made so far and of their arguments. *)
Record AssetBuilder := mkAssetBuilder {
  createImage :
    list Call → Account.t → string → ImageContent.t → option bool
    → JsError + MessagePayload.t;
  createFileMetadata :
    list Call → Account.t → string → Opaque → option bool
    → JsError + MessagePayload.t;
  createFileData :
    list Call → Account.t → string → Buffer → string → option bool
    → JsError + MessagePayload.t
}.

(** [await] on what a builder resolves to. *)
Definition await_built {A} (answer : list Call → JsError + A) : M A :=
  λ s, match answer (calls s) with
       | inr a => (Returned a, s)
       | inl e => (Thrown e, s)
       end.

Section AssetMethods.
Variable env : Collaborators.
Variable assets : AssetBuilder.
(** [stripAsset] of [./utils], applied to the content of a bundle that
    was sent. *)
Variable stripSent : Content → Content.

Definition sendImage (instanceId conversationId : string) (image : ImageContent.t)
    (expectsReadConfirmation : option bool) (expireAfterMillis : option N)
    : M string :=
  let expireAfterMillis := default 0%N expireAfterMillis in
  instance <- getInstance instanceId ;;
  let account := Instance.account instance in
  if Account.service account then
    (λ s, (Returned (),
           record_call
             (setMessageLevelTimer_call account conversationId expireAfterMillis) s)) ;;;
    payload <-
      await_built (λ h, createImage assets h account conversationId image
                          expectsReadConfirmation) ;;
    sentImage <- await (λ h, send env h account payload) (send_call account payload) ;;
    let sentImage :=
      MessagePayload.set_content (stripSent (MessagePayload.content sentImage))
        sentImage in
    store_instance instanceId
      (messages_set (MessagePayload.id sentImage) sentImage instance) ;;;
    ret (MessagePayload.id sentImage)
  else service_not_set instanceId.

Definition sendFile (instanceId conversationId : string) (file : Buffer)
    (metadata : Opaque) (expectsReadConfirmation : option bool)
    (expireAfterMillis : option N) : M string :=
  let expireAfterMillis := default 0%N expireAfterMillis in
  instance <- getInstance instanceId ;;
  let account := Instance.account instance in
  if Account.service account then
    (λ s, (Returned (),
           record_call
             (setMessageLevelTimer_call account conversationId expireAfterMillis) s)) ;;;
    metadataPayload <-
      await_built (λ h, createFileMetadata assets h account conversationId metadata
                          expectsReadConfirmation) ;;
    await (λ h, send env h account metadataPayload)
          (send_call account metadataPayload) ;;;
    filePayload <-
      await_built (λ h, createFileData assets h account conversationId file
                          (MessagePayload.id metadataPayload)
                          expectsReadConfirmation) ;;
    sentFile <-
      await (λ h, send env h account filePayload) (send_call account filePayload) ;;
    let sentFile :=
      MessagePayload.set_content (stripSent (MessagePayload.content sentFile))
        sentFile in
    store_instance instanceId
      (messages_set (MessagePayload.id sentFile) sentFile instance) ;;;
    ret (MessagePayload.id sentFile)
  else service_not_set instanceId.
End AssetMethods.

(** ** Further stand-ins and scenarios *)
Module Stub.
(** A bundle as the builders of the Messaging Client make them. *)
Definition bundle (content : Content) (conversationId : string) (h : list Call)
    (a : Account.t) : MessagePayload.t :=
  MessagePayload.mk None content conversationId (Account.userId a) (Mock.uuid h)
    0%N OUTGOING_UNSENT (N.of_nat (length h)).

Definition builder : MessageBuilder :=
  mkMessageBuilder
    (λ h a conversationId location, bundle (LOCATION location) conversationId h a)
    (λ h a conversationId _, bundle (PING "ping") conversationId h a)
    (λ h a conversationId originalMessageId _,
       bundle (OTHER "reaction" originalMessageId) conversationId h a)
    (λ h a conversationId, bundle (OTHER "session-reset" EmptyString) conversationId h a).

Definition assets : AssetBuilder :=
  mkAssetBuilder
    (λ h a conversationId _ _, inr (bundle (ASSET_IMAGE "image") conversationId h a))
    (λ h a conversationId _ _,
       inr (bundle (ASSET_META (AssetContent.mk (Some Scenario.file_original) None None))
              conversationId h a))
    (λ h a conversationId _ messageId _,
       inr (MessagePayload.mk None (ASSET Scenario.file_data_content) conversationId
              (Account.userId a) messageId 0%N OUTGOING_UNSENT (N.of_nat (length h)))).

Definition stripSent (c : Content) : Content :=
  match c with
  | ASSET a => ASSET (Mock.stripAsset a)
  | ASSET_META a => ASSET_META (Mock.stripAsset a)
  | c => c
  end.

(** The accepting client with one answer replaced. *)
Definition with_login
    (login : list Call → Account.t → LoginData.t → ClientInfo.t → JsError + Account.t)
    : Collaborators :=
  mkCollaborators Mock.uuid (version Mock.accepting)
    (BACKEND_PRODUCTION Mock.accepting) (BACKEND_STAGING Mock.accepting)
    (defaultCapacity Mock.accepting) login (listen Mock.accepting)
    (logout Mock.accepting) (send Mock.accepting)
    (deleteMessageEveryone Mock.accepting) Mock.createText Mock.createEditedText
    Mock.createConfirmation (createLinkPreview Mock.accepting).

Definition with_listen (listen : list Call → Account.t → option JsError)
    : Collaborators :=
  mkCollaborators Mock.uuid (version Mock.accepting)
    (BACKEND_PRODUCTION Mock.accepting) (BACKEND_STAGING Mock.accepting)
    (defaultCapacity Mock.accepting) (login Mock.accepting) listen
    (logout Mock.accepting) (send Mock.accepting)
    (deleteMessageEveryone Mock.accepting) Mock.createText Mock.createEditedText
    Mock.createConfirmation (createLinkPreview Mock.accepting).

Definition with_send
    (send : list Call → Account.t → MessagePayload.t → JsError + MessagePayload.t)
    : Collaborators :=
  mkCollaborators Mock.uuid (version Mock.accepting)
    (BACKEND_PRODUCTION Mock.accepting) (BACKEND_STAGING Mock.accepting)
    (defaultCapacity Mock.accepting) (login Mock.accepting) (listen Mock.accepting)
    (logout Mock.accepting) send
    (deleteMessageEveryone Mock.accepting) Mock.createText Mock.createEditedText
    Mock.createConfirmation (createLinkPreview Mock.accepting).

Definition with_createLinkPreview
    (createLinkPreview :
       list Call → Account.t → LinkPreviewContent.t → JsError + LinkPreviewContent.t)
    : Collaborators :=
  mkCollaborators Mock.uuid (version Mock.accepting)
    (BACKEND_PRODUCTION Mock.accepting) (BACKEND_STAGING Mock.accepting)
    (defaultCapacity Mock.accepting) (login Mock.accepting) (listen Mock.accepting)
    (logout Mock.accepting) (send Mock.accepting)
    (deleteMessageEveryone Mock.accepting) Mock.createText Mock.createEditedText
    Mock.createConfirmation createLinkPreview.

(** A rejection by the network. *)
Definition offline : JsError := mkJsError "Network Error" None.

(** A client whose login leaves the account without a service. *)
Definition uninitialised : Collaborators :=
  with_login (λ _ a _ _, inr (Account.mk (Account.apiClient a) false "self")).
End Stub.

Module Runs.
(** The account of the instance of [Scenario.created]. *)
Definition account : Account.t :=
  Account.mk (creation_client Mock.accepting Mock.options) true "self".

Definition instance : Instance.t :=
  created_instance Mock.accepting Mock.options "uuid-0" account.

(** The service after instance "uuid-0" has received the text messages
    M1 and M3 from bob in conversation X. *)
Definition received : State :=
  emit Mock.isAssetContent Mock.stripAsset Mock.stripLinkPreview "uuid-0"
    (Mock.text "M3" "X" "bob" "three")
    (emit Mock.isAssetContent Mock.stripAsset Mock.stripLinkPreview "uuid-0"
       (Mock.text "M1" "X" "bob" "one") Scenario.created).

Definition received_instance : Instance.t :=
  Mock.project (Mock.text "M3" "X" "bob" "three")
    (Mock.project (Mock.text "M1" "X" "bob" "one") instance).

(** A service whose only instance has an account without a service. *)
Definition without_service : State :=
  (createInstance Stub.uninitialised Mock.options (new_InstanceService None)).2.

Definition instance_without_service : Instance.t :=
  created_instance Stub.uninitialised Mock.options "uuid-0"
    (Account.mk (creation_client Mock.accepting Mock.options) false "self").

(** That service after its instance has received M1 and M3. *)
Definition without_service_received : State :=
  emit Mock.isAssetContent Mock.stripAsset Mock.stripLinkPreview "uuid-0"
    (Mock.text "M3" "X" "bob" "three")
    (emit Mock.isAssetContent Mock.stripAsset Mock.stripLinkPreview "uuid-0"
       (Mock.text "M1" "X" "bob" "one") without_service).

Definition instance_without_service_received : Instance.t :=
  Mock.project (Mock.text "M3" "X" "bob" "three")
    (Mock.project (Mock.text "M1" "X" "bob" "one") instance_without_service).

(** A service for one instance at most, with its instance created. *)
Definition full : State :=
  (createInstance Mock.accepting Mock.options (new_InstanceService (Some 1))).2.

(** The service after instance "uuid-0" has received the text message A
    from bob in conversation C1, and that instance. *)
Definition received_A : State :=
  emit Mock.isAssetContent Mock.stripAsset Mock.stripLinkPreview "uuid-0"
    (Mock.text "A" "C1" "bob" "first wording") Scenario.created.

Definition received_A_instance : Instance.t :=
  Mock.project (Mock.text "A" "C1" "bob" "first wording") instance.

(** An event that deletes M1. *)
Definition delete_M1 : MessagePayload.t :=
  MessagePayload.mk None (MESSAGE_DELETE (DeletedContent.mk "M1"))
    "X" "bob" "delete-1" 0%N INCOMING 1533033857767%N.

(** A ping. *)
Definition ping : MessagePayload.t :=
  MessagePayload.mk None (PING "ping") "X" "bob" "P" 0%N INCOMING 1533033857768%N.

(** A link preview. *)
Definition preview : LinkPreviewContent.t :=
  LinkPreviewContent.mk None (Some "Wire") "https://wire.com" 0.

(** Options that name a backend and carry a custom one. *)
Definition options_prod : InstanceCreationOptions.t :=
  InstanceCreationOptions.mk (Some "prod")
    (Some (BackendData.mk "custom" "https://example.com" "wss://example.com"))
    None None None None (LoginData.mk PERMANENT "test@example.com" "supersecret").
End Runs.

(** * Properties *)

(** ** The bounded cache *)
Section LRUFacts.
Context {V : Type}.
Implicit Types (c : LRUCache.t V) (l : list (string * V)) (key : string).

Lemma find_unlink_eq key l : LRUCache.find key (LRUCache.unlink key l) = None.
Proof.
  unfold LRUCache.unlink.
  induction l as [|[k v] l IH]; [done|].
  rewrite filter_cons. simpl. case_decide; simpl; [|done].
  case_decide; [congruence|done].
Qed.

Lemma find_unlink_ne key key' l :
  key ≠ key' → LRUCache.find key' (LRUCache.unlink key l) = LRUCache.find key' l.
Proof.
  intros Hne. unfold LRUCache.unlink.
  induction l as [|[k v] l IH]; [done|].
  rewrite filter_cons. simpl. case_decide; simpl.
  - by rewrite IH.
  - case_decide; [|done]. exfalso. naive_solver.
Qed.

Lemma find_None key l : LRUCache.find key l = None ↔ key ∉ l.*1.
Proof.
  induction l as [|[k v] l IH]; simpl.
  - split; [intros _; apply not_elem_of_nil|done].
  - case_decide as Hk.
    + subst. split; [done|]. intros Hn. exfalso. apply Hn. left.
    + rewrite IH, not_elem_of_cons. simpl. split; [intros ?; split; [congruence|done]|by intros [_ ?]].
Qed.

Lemma find_Some_elem key v l : LRUCache.find key l = Some v → (key, v) ∈ l.
Proof.
  induction l as [|[k w] l IH]; simpl; [done|].
  case_decide.
  - intros [= ->]. subst. left.
  - intros ?. right. auto.
Qed.

Lemma unlink_keys key l : key ∉ (LRUCache.unlink key l).*1.
Proof. apply find_None, find_unlink_eq. Qed.

Lemma get_fst key c : (LRUCache.get key c).1 = LRUCache.peek key c.
Proof. unfold LRUCache.get. by destruct (LRUCache.peek key c). Qed.

Lemma peek_get key key' c :
  LRUCache.peek key' (LRUCache.get key c).2 = LRUCache.peek key' c.
Proof.
  unfold LRUCache.get. destruct (LRUCache.peek key c) as [v|] eqn:Hv; [|done].
  unfold LRUCache.peek in *. simpl. case_decide.
  - by subst.
  - by apply find_unlink_ne.
Qed.

Lemma get_None key c :
  LRUCache.peek key c = None → LRUCache.get key c = (None, c).
Proof. unfold LRUCache.get. by intros ->. Qed.

Lemma peek_set_eq key v c : LRUCache.peek key (LRUCache.set key v c) = Some v.
Proof.
  unfold LRUCache.set, LRUCache.peek.
  destruct (LRUCache.find key (LRUCache.entries c)); simpl; by case_decide.
Qed.

Lemma peek_delete_eq key c : LRUCache.peek key (LRUCache.delete key c) = None.
Proof. apply find_unlink_eq. Qed.

Lemma peek_delete_ne key key' c :
  key ≠ key' → LRUCache.peek key' (LRUCache.delete key c) = LRUCache.peek key' c.
Proof. apply find_unlink_ne. Qed.

Lemma keys_delete key c : key ∉ LRUCache.keys (LRUCache.delete key c).
Proof. apply unlink_keys. Qed.

Lemma elem_of_removelast {A} (x : A) (l : list A) : x ∈ removelast l → x ∈ l.
Proof.
  induction l as [|y l IH]; [done|].
  destruct l as [|z l]; [by intros ?%elem_of_nil|].
  change (removelast (y :: z :: l)) with (y :: removelast (z :: l)).
  rewrite !(elem_of_cons _ x y). intros [->|?]; auto.
Qed.

Lemma keys_set_once key v c :
  length (filter (λ k, k = key) (LRUCache.keys (LRUCache.set key v c))) = 1.
Proof.
  assert (Hfresh : ∀ l : list (string * V),
             key ∉ l.*1 → filter (λ k, k = key) l.*1 = []).
  { intros l Hl. induction l as [|[k w] l IH]; [done|].
    simpl in *. apply not_elem_of_cons in Hl as [? ?].
    rewrite filter_cons. case_decide; [congruence|auto]. }
  unfold LRUCache.set, LRUCache.keys, LRUCache.peek.
  destruct (LRUCache.find key (LRUCache.entries c)) eqn:Hfind; simpl;
    rewrite filter_cons; (case_decide; [|done]); simpl; f_equal.
  - rewrite Hfresh; [done|apply unlink_keys].
  - apply find_None in Hfind. rewrite Hfresh; [done|].
    case_decide; [|done].
    intros (e & -> & He%elem_of_removelast)%list_elem_of_fmap.
    apply Hfind. apply list_elem_of_fmap. eauto.
Qed.
Lemma keys_set_subseteq key key' v c :
  key' ∈ LRUCache.keys (LRUCache.set key v c) →
  key' = key ∨ key' ∈ LRUCache.keys c.
Proof.
  unfold LRUCache.set, LRUCache.keys.
  destruct (LRUCache.peek key c); simpl; rewrite elem_of_cons;
    (intros [?|Hin]; [by left|right]).
  - apply list_elem_of_fmap in Hin as (e & -> & [_ He]%list_elem_of_filter).
    apply list_elem_of_fmap. eauto.
  - case_decide; [|done].
    apply list_elem_of_fmap in Hin as (e & -> & He%elem_of_removelast).
    apply list_elem_of_fmap. eauto.
Qed.
Lemma keys_get key key' c :
  key' ∈ LRUCache.keys (LRUCache.get key c).2 → key' ∈ LRUCache.keys c.
Proof.
  unfold LRUCache.get, LRUCache.keys.
  destruct (LRUCache.peek key c) as [v|] eqn:Hpeek; [|done]. simpl.
  rewrite elem_of_cons. intros [->|Hin].
  - apply find_Some_elem in Hpeek. apply list_elem_of_fmap. by exists (key, v).
  - apply list_elem_of_fmap in Hin as (e & -> & [_ He]%list_elem_of_filter).
    apply list_elem_of_fmap. eauto.
Qed.
End LRUFacts.

(** ** The message cache of an instance *)
Section ProjectorFacts.
Variable isAssetContent : Content → bool.
Variable stripAsset : AssetContent.t → AssetContent.t.
Variable stripLinkPreview : LinkPreviewContent.t → LinkPreviewContent.t.

Lemma cached_messages_set_eq key payload i :
  cached key (messages_set key payload i) = Some payload.
Proof.
  unfold cached, messages_set. destruct i. simpl.
  rewrite peek_set_eq. simpl. by apply list_lookup_middle.
Qed.

Lemma cached_messages_delete_eq key i : cached key (messages_delete key i) = None.
Proof.
  unfold cached, messages_delete. destruct i. simpl. by rewrite peek_delete_eq.
Qed.

Lemma cached_messages_delete_ne key key' i :
  key ≠ key' → cached key' (messages_delete key i) = cached key' i.
Proof.
  intros Hne. unfold cached, messages_delete. destruct i. simpl.
  by rewrite peek_delete_ne.
Qed.

Lemma keys_messages_delete key i :
  key ∉ LRUCache.keys (Instance.messages (messages_delete key i)).
Proof. destruct i. apply keys_delete. Qed.

Lemma cached_Some_key key m i :
  cached key i = Some m → key ∈ LRUCache.keys (Instance.messages i).
Proof.
  unfold cached, LRUCache.peek, LRUCache.keys. intros Hc.
  destruct (decide (key ∈ (LRUCache.entries (Instance.messages i)).*1)) as [|Hn];
    [done|].
  apply find_None in Hn. by rewrite Hn in Hc.
Qed.

(** What [getMessages] reads: the messages under the keys of the cache. *)
Lemma elem_of_conversationMessages m conversationId i :
  m ∈ conversationMessages conversationId i ↔
  MessagePayload.conversation m = conversationId ∧
  ∃ key, key ∈ LRUCache.keys (Instance.messages i) ∧ cached key i = Some m.
Proof.
  unfold conversationMessages. rewrite list_elem_of_filter, list_elem_of_omap.
  reflexivity.
Qed.

Lemma cached_conversationMessages key m i :
  cached key i = Some m →
  m ∈ conversationMessages (MessagePayload.conversation m) i.
Proof.
  intros Hc. apply elem_of_conversationMessages. split; [done|].
  exists key. eauto using cached_Some_key.
Qed.

(** C5: projecting an edit event that carries the new id B and names
    the original message A, with B distinct from A, leaves the edited
    content cached under B and nothing under A; [getMessages] then
    returns the edited message, and every message it returns is read
    from a key other than A. *)
Theorem edit_event_replaces_original (i : Instance.t) (payload : MessagePayload.t)
    (editedContent : EditedTextContent.t) :
  MessagePayload.content payload = MESSAGE_EDIT editedContent →
  MessagePayload.id payload ≠ EditedTextContent.originalMessageId editedContent →
  let A := EditedTextContent.originalMessageId editedContent in
  let B := MessagePayload.id payload in
  let i' := project isAssetContent stripAsset stripLinkPreview payload i in
  cached B i' = Some payload
  ∧ cached A i' = None
  ∧ (A ∉ LRUCache.keys (Instance.messages i'))
  ∧ payload ∈ conversationMessages (MessagePayload.conversation payload) i'
  ∧ (∀ conversationId m,
        m ∈ conversationMessages conversationId i' →
        ∃ key, key ≠ A ∧ cached key i' = Some m).
Proof.
  intros Hcontent Hne A B i'.
  assert (Hi' : i' = messages_delete A (messages_set B payload i)).
  { subst i'. unfold project. by rewrite Hcontent. }
  assert (HB : cached B i' = Some payload).
  { rewrite Hi', cached_messages_delete_ne by (subst A B; congruence).
    apply cached_messages_set_eq. }
  assert (HA : A ∉ LRUCache.keys (Instance.messages i')).
  { rewrite Hi'. apply keys_messages_delete. }
  split_and!; [done| |done| |].
  - rewrite Hi'. apply cached_messages_delete_eq.
  - by apply (cached_conversationMessages B).
  - intros conv m [_ (key & Hkey & Hm)]%elem_of_conversationMessages.
    exists key. split; [|done]. intros ->. done.
Qed.

Lemma messages_get_fst key i :
  (messages_get key i).1 =
  LRUCache.peek key (Instance.messages i) ≫= λ r,
    (λ m, (r, m)) <$> Instance.objects i !! r.
Proof.
  unfold messages_get.
  destruct (LRUCache.get key (Instance.messages i)) as [found c] eqn:Hget.
  simpl. by rewrite <-get_fst, Hget.
Qed.

Lemma messages_get_snd key i :
  (messages_get key i).2 =
  Instance.set_messages (LRUCache.get key (Instance.messages i)).2 i.
Proof.
  unfold messages_get. by destruct (LRUCache.get key (Instance.messages i)).
Qed.

Lemma messages_get_cached key i m :
  cached key i = Some m → ∃ r, (messages_get key i).1 = Some (r, m).
Proof.
  rewrite messages_get_fst. unfold cached.
  destruct (LRUCache.peek key (Instance.messages i)) as [r|]; simpl; [|done].
  intros ->. by exists r.
Qed.

Lemma messages_get_None key i :
  cached key i = None → (messages_get key i).1 = None.
Proof.
  rewrite messages_get_fst. unfold cached.
  destruct (LRUCache.peek key (Instance.messages i)) as [r|]; simpl; [|done].
  by intros ->.
Qed.

Lemma keys_messages_set_once key payload i :
  length (filter (λ k, k = key)
            (LRUCache.keys (Instance.messages (messages_set key payload i)))) = 1.
Proof. destruct i. apply keys_set_once. Qed.

(** C8: an asset-data event whose id has a cached placeholder holding
    asset metadata leaves exactly one entry under that id: the data
    payload with the placeholder's [original] attached and then
    stripped; where stripping keeps [original], the entry carries the
    placeholder's descriptor. *)
Theorem asset_data_event_merges_placeholder (i : Instance.t)
    (payload metaPayload : MessagePayload.t) (c : AssetContent.t) :
  MessagePayload.content payload = ASSET c →
  cached (MessagePayload.id payload) i = Some metaPayload →
  isAssetContent (ASSET c) = true →
  isAssetContent (MessagePayload.content metaPayload) = true →
  let original := content_original (MessagePayload.content metaPayload) in
  let merged :=
    MessagePayload.set_content
      (ASSET (stripAsset (AssetContent.set_original original c))) payload in
  let i' := project isAssetContent stripAsset stripLinkPreview payload i in
  cached (MessagePayload.id payload) i' = Some merged
  ∧ length (filter (λ k, k = MessagePayload.id payload)
              (LRUCache.keys (Instance.messages i'))) = 1
  ∧ ((∀ a, AssetContent.original (stripAsset a) = AssetContent.original a) →
     content_original (MessagePayload.content merged) = original).
Proof.
  intros Hcontent Hmeta Hdata Hplaceholder original merged i'.
  assert (Hi' : i' = messages_set (MessagePayload.id payload) merged
                       (messages_get (MessagePayload.id payload) i).2).
  { subst i' merged original. unfold project. rewrite Hcontent. unfold on_ASSET.
    destruct (messages_get_cached _ _ _ Hmeta) as [r Hr].
    destruct (messages_get (MessagePayload.id payload) i) as [found i1].
    simpl in Hr. subst found. simpl. by rewrite Hdata, Hplaceholder. }
  split_and!.
  - rewrite Hi'. apply cached_messages_set_eq.
  - rewrite Hi'. apply keys_messages_set_once.
  - intros Hkeeps. subst merged. simpl. apply Hkeeps.
Qed.
End ProjectorFacts.

(** ** Clearing a conversation *)
Section ClearFacts.
Variable isAssetContent : Content → bool.
Variable stripAsset : AssetContent.t → AssetContent.t.
Variable stripLinkPreview : LinkPreviewContent.t → LinkPreviewContent.t.
Variable C : string.

Lemma filter_ext_elem {A} (P Q : A → Prop) `{!∀ x, Decision (P x)}
    `{!∀ x, Decision (Q x)} (l : list A) :
  (∀ x, x ∈ l → P x ↔ Q x) → filter P l = filter Q l.
Proof.
  induction l as [|x l IH]; intros Hext; [done|].
  rewrite !filter_cons.
  assert (P x ↔ Q x) by (apply Hext; left).
  rewrite IH by (intros; apply Hext; by right).
  repeat case_decide; first [done | tauto].
Qed.

Lemma filter_all_elem {A} (P : A → Prop) `{!∀ x, Decision (P x)} (l : list A) :
  (∀ x, x ∈ l → P x) → filter P l = l.
Proof.
  induction l as [|x l IH]; intros Hall; [done|].
  rewrite filter_cons, decide_True by (apply Hall; left).
  f_equal. apply IH. intros. apply Hall. by right.
Qed.

Lemma objects_clear_walk nodes i :
  Instance.objects (clear_walk C nodes i) = Instance.objects i.
Proof.
  revert i. induction nodes as [|[key r] nodes IH]; intros i; [done|].
  simpl. destruct (LRUCache.peek key (Instance.messages i)); [|by rewrite IH].
  destruct (Instance.objects i !! r); [|by rewrite IH].
  case_decide; rewrite IH; by destruct i.
Qed.

Lemma entries_clear_walk nodes i :
  (∀ key r, (key, r) ∈ nodes →
     ∃ m, Instance.objects i !! r = Some m ∧ MessagePayload.id m = key) →
  LRUCache.entries (Instance.messages (clear_walk C nodes i)) =
  filter (λ e, e.1 ∉ doomed C (Instance.objects i) nodes)
         (LRUCache.entries (Instance.messages i)).
Proof.
  revert i. induction nodes as [|[key r] nodes IH]; intros i Hnodes.
  - simpl. symmetry. apply filter_all_elem. intros ? _. apply not_elem_of_nil.
  - destruct (Hnodes key r) as (m & Hm & Hid); [left|].
    assert (Hrest : ∀ key r, (key, r) ∈ nodes →
              ∃ m, Instance.objects i !! r = Some m ∧ MessagePayload.id m = key).
    { intros. apply Hnodes. by right. }
    assert (Hin : in_conversation C (Instance.objects i) (key, r)
                  ↔ MessagePayload.conversation m = C).
    { unfold in_conversation. simpl. rewrite Hm. simpl. split; congruence. }
    simpl. rewrite Hm. unfold doomed. rewrite filter_cons.
    destruct (LRUCache.peek key (Instance.messages i)) as [r'|] eqn:Hpeek.
    + case_decide as Hconv.
      * rewrite decide_True by (by apply Hin).
        rewrite IH by (destruct i; apply Hrest). rewrite Hid.
        replace (Instance.objects (messages_delete key i))
          with (Instance.objects i) by (by destruct i).
        replace (LRUCache.entries (Instance.messages (messages_delete key i)))
          with (LRUCache.unlink key (LRUCache.entries (Instance.messages i)))
          by (by destruct i).
        unfold LRUCache.unlink. rewrite list_filter_filter.
        apply filter_ext_elem. intros [k x] _. simpl.
        rewrite not_elem_of_cons. fold (doomed C (Instance.objects i) nodes). tauto.
      * rewrite decide_False by (by rewrite Hin). by apply IH.
    + rewrite IH by done. apply filter_ext_elem. intros [k x] Hk. simpl.
      case_decide; [|done]. simpl. rewrite not_elem_of_cons.
      fold (doomed C (Instance.objects i) nodes).
      assert (k ≠ key); [|tauto].
      intros ->. apply find_None in Hpeek. apply Hpeek.
      apply list_elem_of_fmap. by exists (key, x).
Qed.

Lemma NoDup_keys_eq {V} (l : list (string * V)) key v w :
  NoDup l.*1 → (key, v) ∈ l → (key, w) ∈ l → v = w.
Proof.
  induction l as [|[k x] l IH]; simpl; [by intros _ ?%elem_of_nil|].
  rewrite NoDup_cons, !elem_of_cons. intros [Hk Hl] [Hv|Hv] [Hw|Hw].
  - congruence.
  - exfalso. apply Hk. injection Hv as <- _. apply list_elem_of_fmap. by exists (key, w).
  - exfalso. apply Hk. injection Hw as <- _. apply list_elem_of_fmap. by exists (key, v).
  - by apply IH.
Qed.

Lemma find_filter_NoDup {V} (Q : string * V → Prop) `{!∀ e, Decision (Q e)}
    (l : list (string * V)) key :
  NoDup l.*1 →
  LRUCache.find key (filter Q l) =
  LRUCache.find key l ≫= λ v, if decide (Q (key, v)) then Some v else None.
Proof.
  induction l as [|[k x] l IH]; simpl; [done|].
  rewrite NoDup_cons. intros [Hk Hl]. rewrite filter_cons.
  destruct (decide (k = key)) as [->|Hne]; simpl.
  - case_decide; simpl; [by rewrite decide_True|].
    apply find_None. intros (e & ? & [_ ?]%list_elem_of_filter)%list_elem_of_fmap.
    apply Hk. apply list_elem_of_fmap. eauto.
  - case_decide; simpl; [rewrite decide_False by done|]; by apply IH.
Qed.

Lemma doomed_NoDup objects (l : list (string * ref)) e :
  NoDup l.*1 → e ∈ l → e.1 ∈ doomed C objects l ↔ in_conversation C objects e.
Proof.
  intros Hl He. unfold doomed. rewrite list_elem_of_fmap. split.
  - intros ([k r] & Hk & [Hin Hkr]%list_elem_of_filter). destruct e as [k' r'].
    simpl in Hk. subst k'.
    by rewrite (NoDup_keys_eq l k r' r Hl He Hkr).
  - intros Hin. exists e. split; [done|]. by apply list_elem_of_filter.
Qed.

Lemma omap_filter_conversation objects (l : list (string * ref)) :
  omap (λ r, objects !! r) (filter (λ e, ¬ in_conversation C objects e) l).*2 =
  filter (λ m, MessagePayload.conversation m ≠ C) (omap (λ r, objects !! r) l.*2).
Proof.
  induction l as [|[k r] l IH]; [done|].
  rewrite filter_cons. case_decide as Hq; simpl;
    unfold in_conversation in Hq; simpl in Hq;
    destruct (objects !! r) as [m|] eqn:Hm; simpl in *; rewrite ?Hm.
  - rewrite filter_cons, decide_True by congruence. by f_equal.
  - done.
  - rewrite filter_cons, decide_False; [done|].
    intros Hconv. apply Hconv. congruence.
  - discriminate.
Qed.

Lemma keyed_by_id_elem i key r :
  keyed_by_id i →
  (key, r) ∈ LRUCache.entries (Instance.messages i) →
  ∃ m, Instance.objects i !! r = Some m ∧ MessagePayload.id m = key.
Proof.
  unfold keyed_by_id. rewrite Forall_forall. intros Hall Hin.
  specialize (Hall _ Hin). simpl in Hall.
  destruct (Instance.objects i !! r) as [m|]; [|done].
  exists m. split; [done|]. by injection Hall.
Qed.

(** In a well-formed cache, one whose entries are each
    stored under the id of their message, projecting a clear event for
    conversation C removes exactly the messages of C and keeps every
    other message; of three cached messages, two in C and one
    elsewhere, it leaves exactly the third. *)
Theorem clear_event_removes_conversation (i : Instance.t)
    (payload : MessagePayload.t) (clearedContent : ClearedContent.t) :
  MessagePayload.content payload = CLEARED clearedContent →
  ClearedContent.conversationId clearedContent = C →
  well_formed i →
  let i' := project isAssetContent stripAsset stripLinkPreview payload i in
  (∀ key,
     cached key i' =
     match cached key i with
     | Some m => if decide (MessagePayload.conversation m = C) then None else Some m
     | None => None
     end)
  ∧ cachedMessages i' =
    filter (λ m, MessagePayload.conversation m ≠ C) (cachedMessages i)
  ∧ (∀ m1 m2 m3,
       cachedMessages i ≡ₚ [m1; m2; m3] →
       MessagePayload.conversation m1 = C →
       MessagePayload.conversation m2 = C →
       MessagePayload.conversation m3 ≠ C →
       cachedMessages i' = [m3]).
Proof.
  intros Hcontent HC [Hkeys Hkeyed] i'.
  assert (Hobjects : Instance.objects i' = Instance.objects i).
  { subst i'. unfold project. rewrite Hcontent. unfold on_CLEARED. rewrite HC.
    apply objects_clear_walk. }
  assert (Hentries :
    LRUCache.entries (Instance.messages i') =
    filter (λ e, ¬ in_conversation C (Instance.objects i) e)
           (LRUCache.entries (Instance.messages i))).
  { subst i'. unfold project. rewrite Hcontent. unfold on_CLEARED. rewrite HC.
    rewrite entries_clear_walk by (intros; by apply keyed_by_id_elem).
    apply filter_ext_elem. intros e He. by rewrite doomed_NoDup. }
  assert (Hmessages : cachedMessages i' =
    filter (λ m, MessagePayload.conversation m ≠ C) (cachedMessages i)).
  { unfold cachedMessages. rewrite Hobjects, Hentries.
    apply omap_filter_conversation. }
  split_and!; [|done|].
  - intros key. unfold cached, LRUCache.peek. rewrite Hobjects, Hentries.
    rewrite find_filter_NoDup by done.
    destruct (LRUCache.find key (LRUCache.entries (Instance.messages i)))
      as [r|] eqn:Hfind; simpl; [|done].
    destruct (keyed_by_id_elem i key r Hkeyed) as (m & Hm & _);
      [by apply find_Some_elem|].
    assert (Hin : in_conversation C (Instance.objects i) (key, r)
                  ↔ MessagePayload.conversation m = C).
    { unfold in_conversation. simpl. rewrite Hm. simpl. split; congruence. }
    rewrite Hm. case_decide as Hconv; case_decide as Hconv'; simpl; try done.
    + exfalso. tauto.
    + exfalso. tauto.
  - intros m1 m2 m3 Hperm H1 H2 H3. apply Permutation_singleton_r.
    rewrite Hmessages, Hperm. rewrite !filter_cons.
    rewrite decide_False by (intros ?; done).
    rewrite decide_False by (intros ?; done).
    by rewrite decide_True.
Qed.
End ClearFacts.

(** ** The listeners keep the message cache well formed *)
Section InvariantFacts.
Variable isAssetContent : Content → bool.
Variable stripAsset : AssetContent.t → AssetContent.t.
Variable stripLinkPreview : LinkPreviewContent.t → LinkPreviewContent.t.

Lemma well_formed_entries_ok i :
  well_formed i ↔ entries_ok (Instance.objects i) (LRUCache.entries (Instance.messages i)).
Proof. done. Qed.

Lemma well_formed_keyed_by_id i :
  well_formed i ↔ NoDup (LRUCache.keys (Instance.messages i)) ∧ keyed_by_id i.
Proof. done. Qed.

Lemma entries_ok_sublist objects l l' :
  l' `sublist_of` l → entries_ok objects l → entries_ok objects l'.
Proof.
  intros Hsub [Hnodup Hall]. split.
  - eapply sublist_NoDup; [exact Hnodup|]. by apply fmap_sublist.
  - rewrite Forall_forall in *. intros e He. apply Hall.
    by eapply elem_of_sublist.
Qed.

Lemma entries_ok_cons objects l key (r : ref) :
  key ∉ l.*1 →
  MessagePayload.id <$> objects !! r = Some key →
  entries_ok objects l → entries_ok objects ((key, r) :: l).
Proof.
  intros Hfresh Hr [Hnodup Hall]. split.
  - simpl. by apply NoDup_cons.
  - by apply Forall_cons.
Qed.

Lemma entries_ok_alloc objects l payload :
  entries_ok objects l → entries_ok (objects ++ [payload]) l.
Proof.
  intros [Hnodup Hall]. split; [done|].
  eapply Forall_impl; [exact Hall|]. intros [k r] He. cbn [fst snd] in *.
  destruct (objects !! r) as [m|] eqn:Hm; [|done].
  by rewrite (lookup_app_l_Some _ _ _ _ Hm).
Qed.

Lemma entries_ok_update objects l (r : ref) m m' :
  objects !! r = Some m →
  MessagePayload.id m' = MessagePayload.id m →
  entries_ok objects l → entries_ok (<[r := m']> objects) l.
Proof.
  intros Hm Hid [Hnodup Hall]. split; [done|].
  eapply Forall_impl; [exact Hall|]. intros [k r'] He. cbn [fst snd] in *.
  destruct (decide (r = r')) as [<-|Hne].
  - rewrite list_lookup_insert_eq by (by eapply lookup_lt_Some).
    rewrite Hm in He. simpl in *. congruence.
  - by rewrite list_lookup_insert_ne.
Qed.

Lemma sublist_removelast {A} (l : list A) : removelast l `sublist_of` l.
Proof. rewrite removelast_firstn_len. apply sublist_take. Qed.

Lemma set_entries {V} key (v : V) c :
  ∃ l, LRUCache.entries (LRUCache.set key v c) = (key, v) :: l
       ∧ l `sublist_of` LRUCache.entries c ∧ key ∉ l.*1.
Proof.
  unfold LRUCache.set, LRUCache.peek.
  destruct (LRUCache.find key (LRUCache.entries c)) eqn:Hfind; simpl.
  - eexists. split_and!; [done|apply sublist_filter|apply unlink_keys].
  - apply find_None in Hfind. case_decide.
    + eexists. split_and!; [done|apply sublist_removelast|].
      intros Hin. apply Hfind. eapply elem_of_sublist; [exact Hin|].
      apply fmap_sublist, sublist_removelast.
    + eexists. split_and!; done.
Qed.

Lemma get_entries_ok objects key (c : LRUCache.t ref) :
  entries_ok objects (LRUCache.entries c) →
  entries_ok objects (LRUCache.entries (LRUCache.get key c).2).
Proof.
  intros Hok. unfold LRUCache.get.
  destruct (LRUCache.peek key c) as [r|] eqn:Hpeek; [|done]. simpl.
  apply entries_ok_cons.
  - apply unlink_keys.
  - apply find_Some_elem in Hpeek. destruct Hok as [_ Hall].
    rewrite Forall_forall in Hall. apply (Hall _ Hpeek).
  - eapply entries_ok_sublist; [apply sublist_filter|done].
Qed.

Lemma messages_set_well_formed key payload i :
  MessagePayload.id payload = key →
  well_formed i → well_formed (messages_set key payload i).
Proof.
  intros Hid Hok. apply well_formed_entries_ok. destruct i. simpl in *.
  destruct (set_entries key (length objects) messages) as (l & -> & Hsub & Hfresh).
  apply entries_ok_cons; [done| |].
  - rewrite (list_lookup_middle objects [] payload) by done. simpl. congruence.
  - apply entries_ok_alloc. by eapply entries_ok_sublist.
Qed.

Lemma messages_delete_well_formed key i :
  well_formed i → well_formed (messages_delete key i).
Proof.
  intros Hok. apply well_formed_entries_ok. destruct i. simpl in *.
  eapply entries_ok_sublist; [apply sublist_filter|done].
Qed.

Lemma messages_get_well_formed key i :
  well_formed i → well_formed (messages_get key i).2.
Proof.
  intros Hok. rewrite messages_get_snd. apply well_formed_entries_ok.
  destruct i. simpl in *. by apply get_entries_ok.
Qed.

Lemma clear_walk_well_formed conversationId nodes i :
  well_formed i → well_formed (clear_walk conversationId nodes i).
Proof.
  revert i. induction nodes as [|[key r] nodes IH]; intros i Hok; [done|].
  simpl. destruct (LRUCache.peek key (Instance.messages i)); [|by apply IH].
  destruct (Instance.objects i !! r); [|by apply IH].
  case_decide; apply IH; [by apply messages_delete_well_formed|done].
Qed.

Lemma confirm_well_formed confirmationWithSender key i :
  well_formed i → well_formed (confirm confirmationWithSender key i).
Proof.
  intros Hok. unfold confirm.
  pose proof (messages_get_well_formed key i Hok) as Hok1.
  pose proof (messages_get_fst key i) as Hfound.
  rewrite (surjective_pairing (messages_get key i)).
  destruct (messages_get key i).1 as [[r m]|]; [|done].
  assert (Hm : Instance.objects (messages_get key i).2 !! r = Some m).
  { rewrite messages_get_snd. symmetry in Hfound.
    destruct (LRUCache.peek key (Instance.messages i)) as [r'|]; [|done].
    simpl in Hfound. destruct i. simpl in *.
    destruct (objects !! r') eqn:Hr'; [|done]. simpl in Hfound. congruence. }
  set (i1 := (messages_get key i).2) in *.
  apply well_formed_entries_ok in Hok1. apply well_formed_entries_ok.
  destruct i1 as [? ? ? ? ? messages ? objects]. simpl in *.
  match goal with
  | |- context [LRUCache.set ?k r messages] =>
      destruct (set_entries k r messages) as (l & -> & Hsub & Hfresh)
  end.
  apply entries_ok_cons; [done| |].
  - rewrite list_lookup_insert_eq by (by eapply lookup_lt_Some). done.
  - eapply entries_ok_update; [done|done|]. by eapply entries_ok_sublist.
Qed.

Lemma on_CONFIRMATION_well_formed payload confirmationContent i :
  well_formed i → well_formed (on_CONFIRMATION payload confirmationContent i).
Proof.
  intros Hok. unfold on_CONFIRMATION.
  set (record := ConfirmationWithSender.mk _ _).
  pose proof (confirm_well_formed record
                (ConfirmationContent.firstMessageId confirmationContent) i Hok) as Hok1.
  destruct (ConfirmationContent.moreMessageIds confirmationContent) as [more|]; [|done].
  revert Hok1. generalize (confirm record
    (ConfirmationContent.firstMessageId confirmationContent) i).
  induction (array_keys more) as [|key keys IH]; intros i1 Hok1; [done|].
  simpl. apply IH. by apply confirm_well_formed.
Qed.

(** Whatever event is projected, a well-formed message cache stays
    well formed: the listeners store every bundle under its own id. *)
Lemma project_well_formed payload i :
  well_formed i →
  well_formed (project isAssetContent stripAsset stripLinkPreview payload i).
Proof.
  intros Hok. unfold project.
  destruct (MessagePayload.content payload) eqn:Hcontent.
  - unfold on_TEXT. by apply messages_set_well_formed.
  - unfold on_ASSET. rewrite (surjective_pairing (messages_get _ i)).
    apply messages_set_well_formed; [done|]. by apply messages_get_well_formed.
  - by apply messages_set_well_formed.
  - by apply messages_set_well_formed.
  - unfold on_MESSAGE_EDIT.
    by apply messages_delete_well_formed, messages_set_well_formed.
  - by apply clear_walk_well_formed.
  - by apply messages_set_well_formed.
  - by apply messages_delete_well_formed.
  - by apply messages_delete_well_formed.
  - by apply messages_set_well_formed.
  - by apply on_CONFIRMATION_well_formed.
  - done.
Qed.

Lemma new_cache_well_formed i :
  LRUCache.entries (Instance.messages i) = [] → well_formed i.
Proof.
  intros Hempty. unfold well_formed. rewrite Hempty. split; constructor.
Qed.

(** So is every cache the events alone have filled. *)
Lemma events_well_formed (events : list MessagePayload.t) i :
  well_formed i →
  well_formed
    (foldl (λ i payload, project isAssetContent stripAsset stripLinkPreview payload i)
       i events).
Proof.
  revert i. induction events as [|payload events IH]; intros i Hok; [done|].
  simpl. apply IH. by apply project_well_formed.
Qed.

(** *** What the confirmation listener looks up *)

Lemma confirm_absent confirmationWithSender key i :
  LRUCache.peek key (Instance.messages i) = None →
  confirm confirmationWithSender key i = i.
Proof.
  intros Hpeek. unfold confirm, messages_get.
  rewrite (get_None _ _ Hpeek). simpl. by destruct i.
Qed.

Lemma keys_confirm confirmationWithSender key i k :
  well_formed i →
  k ∈ LRUCache.keys (Instance.messages (confirm confirmationWithSender key i)) →
  k ∈ LRUCache.keys (Instance.messages i).
Proof.
  intros [_ Hall] Hk.
  destruct (LRUCache.peek key (Instance.messages i)) as [r|] eqn:Hpeek;
    [|by rewrite confirm_absent in Hk].
  assert (Hkey : key ∈ LRUCache.keys (Instance.messages i)).
  { apply find_Some_elem in Hpeek. apply list_elem_of_fmap. by exists (key, r). }
  rewrite Forall_forall in Hall.
  specialize (Hall _ (find_Some_elem _ _ _ Hpeek)). cbn [fst snd] in Hall.
  destruct (Instance.objects i !! r) as [m|] eqn:Hm; [|done].
  injection Hall as Hid.
  revert Hk. unfold confirm.
  rewrite (surjective_pairing (messages_get key i)), messages_get_fst, messages_get_snd.
  rewrite Hpeek. simpl. rewrite Hm. simpl. destruct i as [? ? ? ? ? c ? ?]. simpl in *.
  intros [->|Hk]%keys_set_subseteq; [by rewrite Hid|].
  by apply keys_get in Hk.
Qed.

(** The loop over the further ids asks the cache for the indices of the
    array, not for the ids: in a well-formed cache that has no message
    under such an index, the listener does to the cache what it does
    for the first id, and nothing more. *)
Lemma confirmation_listener_reads_indices payload confirmationContent more i :
  well_formed i →
  ConfirmationContent.moreMessageIds confirmationContent = Some more →
  (∀ k, k ∈ array_keys more → k ∉ LRUCache.keys (Instance.messages i)) →
  on_CONFIRMATION payload confirmationContent i =
  confirm
    (ConfirmationWithSender.mk confirmationContent (MessagePayload.from payload))
    (ConfirmationContent.firstMessageId confirmationContent) i.
Proof.
  intros Hok Hmore Hindices. unfold on_CONFIRMATION. rewrite Hmore.
  set (record := ConfirmationWithSender.mk _ _).
  assert (Hindices1 : ∀ k, k ∈ array_keys more →
            LRUCache.peek k
              (Instance.messages
                 (confirm record
                    (ConfirmationContent.firstMessageId confirmationContent) i))
            = None).
  { intros k Hk. apply find_None. intros Hin.
    apply (Hindices k Hk). by eapply keys_confirm. }
  clear Hindices. revert Hindices1.
  generalize (confirm record
                (ConfirmationContent.firstMessageId confirmationContent) i).
  induction (array_keys more) as [|key keys IH]; intros i1 Hindices1; [done|].
  simpl. rewrite confirm_absent by (apply Hindices1; left).
  apply IH. intros k Hk. apply Hindices1. by right.
Qed.
End InvariantFacts.

(** ** Computations of the service *)

Lemma bind_Returned {A B} (m : M A) (k : A → M B) s b s' :
  bind m k s = (Returned b, s') →
  ∃ a s1, m s = (Returned a, s1) ∧ k a s1 = (Returned b, s').
Proof.
  unfold bind. destruct (m s) as [[a|e] s1]; [eauto|discriminate].
Qed.

Lemma await_Returned {A} (answer : list Call → JsError + A) c s a s' :
  await answer c s = (Returned a, s') →
  answer (calls s) = inr a ∧ s' = record_call c s.
Proof.
  unfold await. destruct (answer (calls s)); intros [= <- <-]; auto.
Qed.

Lemma peek_mutate_eq {V} key (f : V → V) (c : LRUCache.t V) :
  LRUCache.peek key (LRUCache.mutate key f c) = f <$> LRUCache.peek key c.
Proof.
  unfold LRUCache.peek, LRUCache.mutate. simpl.
  induction (LRUCache.entries c) as [|[k v] l IH]; [done|].
  simpl. repeat (case_decide; simpl in *); first [congruence | apply IH].
Qed.

Lemma peek_mutate_ne {V} key key' (f : V → V) (c : LRUCache.t V) :
  key ≠ key' →
  LRUCache.peek key' (LRUCache.mutate key f c) = LRUCache.peek key' c.
Proof.
  intros Hne. unfold LRUCache.peek, LRUCache.mutate. simpl.
  induction (LRUCache.entries c) as [|[k v] l IH]; [done|].
  simpl. repeat (case_decide; simpl in *); first [congruence | apply IH].
Qed.

Section ServiceFacts.
Variable isAssetContent : Content → bool.
Variable stripAsset : AssetContent.t → AssetContent.t.
Variable stripLinkPreview : LinkPreviewContent.t → LinkPreviewContent.t.
Variable env : Collaborators.

Lemma getInstance_unregistered instanceId s :
  LRUCache.peek instanceId (cachedInstances s) = None →
  getInstance instanceId s = (Thrown (instance_not_found instanceId), s).
Proof. intros Hpeek. unfold getInstance. by rewrite get_None. Qed.

Lemma getInstance_registered instanceId instance s :
  LRUCache.peek instanceId (cachedInstances s) = Some instance →
  getInstance instanceId s =
  (Returned instance,
   set_cachedInstances (LRUCache.get instanceId (cachedInstances s)).2 s).
Proof.
  intros Hpeek. unfold getInstance.
  pose proof (get_fst instanceId (cachedInstances s)) as Hfst.
  destruct (LRUCache.get instanceId (cachedInstances s)) as [found c].
  simpl in *. by rewrite Hfst, Hpeek.
Qed.

Lemma getInstance_Returned instanceId instance s s' :
  getInstance instanceId s = (Returned instance, s') →
  LRUCache.peek instanceId (cachedInstances s) = Some instance
  ∧ s' = set_cachedInstances (LRUCache.get instanceId (cachedInstances s)).2 s.
Proof.
  destruct (LRUCache.peek instanceId (cachedInstances s)) as [i|] eqn:Hpeek.
  - rewrite (getInstance_registered _ i) by done. by intros [= -> <-].
  - by rewrite getInstance_unregistered.
Qed.

(** C3: [deleteInstance] on an id that is not registered fails with
    the not-found error; on a registered id it asks the instance's
    account to log out and, once the logout has resolved, removes the
    instance from the registry, leaving the other instances in place.
    A rejected logout is rethrown and the instance stays registered. *)
Theorem deleteInstance_logs_out_then_removes (instanceId : string) (s : State) :
  (LRUCache.peek instanceId (cachedInstances s) = None →
   deleteInstance env instanceId s = (Thrown (instance_not_found instanceId), s))
  ∧ (∀ instance,
       LRUCache.peek instanceId (cachedInstances s) = Some instance →
       let result := (deleteInstance env instanceId s).1 in
       let s' := (deleteInstance env instanceId s).2 in
       calls s' = calls s ++ [logout_call (Instance.account instance)]
       ∧ match logout env (calls s) (Instance.account instance) with
         | None =>
             result = Returned ()
             ∧ LRUCache.peek instanceId (cachedInstances s') = None
             ∧ (instanceId ∉ LRUCache.keys (cachedInstances s'))
             ∧ (∀ other, other ≠ instanceId →
                  LRUCache.peek other (cachedInstances s')
                  = LRUCache.peek other (cachedInstances s))
         | Some error =>
             result = Thrown error
             ∧ LRUCache.peek instanceId (cachedInstances s') = Some instance
         end).
Proof.
  split.
  - intros Hpeek. unfold deleteInstance, bind.
    by rewrite getInstance_unregistered.
  - intros instance Hpeek. unfold deleteInstance, bind.
    rewrite (getInstance_registered _ instance) by done.
    unfold await_unit. simpl.
    destruct (logout env (calls s) (Instance.account instance)) as [error|]; simpl.
    + split_and!; [done..|]. by rewrite peek_get.
    + split_and!; [done..| | |].
      * apply peek_delete_eq.
      * apply keys_delete.
      * intros other Hother. by rewrite peek_delete_ne, peek_get.
Qed.

(** C2, amended: [deleteInstance] on an id that is not registered, be it
    never created or already deleted, fails with the not-found error and
    leaves the state as it was; so a second delete fails and leaves the
    state the first delete produced. *)
Theorem deleteInstance_unregistered_fails (instanceId : string) (s : State) :
  (LRUCache.peek instanceId (cachedInstances s) = None →
   deleteInstance env instanceId s = (Thrown (instance_not_found instanceId), s))
  ∧ (∀ s1,
       deleteInstance env instanceId s = (Returned (), s1) →
       deleteInstance env instanceId s1
       = (Thrown (instance_not_found instanceId), s1)).
Proof.
  assert (Hunregistered : ∀ s0,
    LRUCache.peek instanceId (cachedInstances s0) = None →
    deleteInstance env instanceId s0 = (Thrown (instance_not_found instanceId), s0)).
  { intros s0 Hpeek. unfold deleteInstance, bind.
    by rewrite getInstance_unregistered. }
  split; [apply Hunregistered|].
  intros s1 Hdelete. apply Hunregistered.
  unfold deleteInstance in Hdelete.
  apply bind_Returned in Hdelete as (instance & s2 & _ & Hdelete).
  apply bind_Returned in Hdelete as ([] & s3 & _ & Hdelete).
  injection Hdelete as <-. apply peek_delete_eq.
Qed.

(** C4: when the backend rejects the login, [createInstance] fails with
    what its catch clause makes of the rejection, and the registry's
    instance cache is as it was: nothing is registered under the fresh
    id. *)
Theorem createInstance_rejected_login (options : InstanceCreationOptions.t)
    (s : State) (error : JsError) :
  login env (calls s) (new_Account (creation_client env options))
    (InstanceCreationOptions.loginData options) (creation_ClientInfo env options)
  = inl error →
  (createInstance env options s).1 = Thrown (backend_error error)
  ∧ cachedInstances (createInstance env options s).2 = cachedInstances s
  ∧ LRUCache.peek (uuid env (calls s)) (cachedInstances (createInstance env options s).2)
    = LRUCache.peek (uuid env (calls s)) (cachedInstances s)
  ∧ calls (createInstance env options s).2
    = calls s ++ [login_call (InstanceCreationOptions.loginData options)
                             (creation_ClientInfo env options)].
Proof.
  intros Hlogin. unfold createInstance, bind, ask, try_catch, await. simpl.
  rewrite Hlogin. simpl. done.
Qed.

Lemma sendEphemeralConfirmation_unknown_message (type : nat)
    (instanceId conversationId firstMessageId : string)
    (moreMessageIds : option (list string)) (instance : Instance.t) (s : State) :
  LRUCache.peek instanceId (cachedInstances s) = Some instance →
  cached firstMessageId instance = None →
  let outcome :=
    sendEphemeralConfirmation env type instanceId conversationId firstMessageId
      moreMessageIds s in
  outcome.1 = Thrown (message_not_found firstMessageId)
  ∧ calls outcome.2 = calls s.
Proof.
  intros Hpeek Hcached. unfold sendEphemeralConfirmation, bind.
  rewrite (getInstance_registered _ instance) by done.
  pose proof (messages_get_None _ _ Hcached) as Hget.
  destruct (messages_get firstMessageId instance) as [message instance1].
  simpl in Hget. subst message. done.
Qed.

(** C9: an ephemeral confirmation, delivered or read, whose first
    target message is not in the instance's message cache fails with
    the not-found error that names the message, and nothing is asked of
    the Messaging Client: no confirmation is sent. *)
Theorem ephemeral_confirmation_unknown_message
    (instanceId conversationId firstMessageId : string)
    (moreMessageIds : option (list string)) (instance : Instance.t) (s : State) :
  LRUCache.peek instanceId (cachedInstances s) = Some instance →
  cached firstMessageId instance = None →
  let delivered :=
    sendEphemeralConfirmationDelivered env instanceId conversationId firstMessageId
      moreMessageIds s in
  let read :=
    sendEphemeralConfirmationRead env instanceId conversationId firstMessageId
      moreMessageIds s in
  delivered.1 = Thrown (message_not_found firstMessageId)
  ∧ calls delivered.2 = calls s
  ∧ read.1 = Thrown (message_not_found firstMessageId)
  ∧ calls read.2 = calls s.
Proof.
  intros Hpeek Hcached delivered read.
  destruct (sendEphemeralConfirmation_unknown_message 0 instanceId conversationId
              firstMessageId moreMessageIds instance s Hpeek Hcached) as [? ?].
  destruct (sendEphemeralConfirmation_unknown_message 1 instanceId conversationId
              firstMessageId moreMessageIds instance s Hpeek Hcached) as [? ?].
  done.
Qed.

Lemma conversationMessages_first_message conversationId key m i :
  LRUCache.entries (Instance.messages i) = [] →
  conversationMessages conversationId (messages_set key m i) =
  if decide (MessagePayload.conversation m = conversationId) then [m] else [].
Proof.
  intros Hempty. unfold conversationMessages, messages_set, LRUCache.getAll.
  destruct i as [? ? ? ? ? [capacity entries] ? objects]. simpl in *. subst entries.
  unfold LRUCache.set, LRUCache.peek. simpl.
  destruct (decide (capacity ≤ 0)); simpl; rewrite decide_True by done; simpl;
    match goal with
    | |- context [match ?o with Some _ => _ | None => _ end] =>
        assert (o = Some m) as -> by (by apply list_lookup_middle)
    end;
    rewrite filter_cons; by case_decide.
Qed.

Lemma strip_linkPreviews_text c d :
  strip_linkPreviews stripLinkPreview (TEXT c) = TEXT d →
  TextContent.text d = TextContent.text c.
Proof.
  simpl. destruct (TextContent.linkPreviews c); by intros [= <-].
Qed.

(** What a successful [sendText] has done: the instance was found with
    an initialised account, [send] resolved to a bundle built for the
    conversation and the text, and the registry holds the instance with
    that bundle (its previews stripped) set under the bundle's id. *)
Lemma sendText_Returned instanceId conversationId message linkPreview mentions
    quote expectsReadConfirmation expireAfterMillis s messageId s1 :
  sendText stripLinkPreview env instanceId conversationId message linkPreview
    mentions quote expectsReadConfirmation expireAfterMillis s
  = (Returned messageId, s1) →
  ∃ instance h account args sent sentMessage,
    LRUCache.peek instanceId (cachedInstances s) = Some instance
    ∧ Account.service (Instance.account instance) = true
    ∧ TextArguments.conversationId args = conversationId
    ∧ TextArguments.text args = message
    ∧ send env h account (createText env h account args) = inr sent
    ∧ MessagePayload.id sentMessage = MessagePayload.id sent
    ∧ MessagePayload.conversation sentMessage = MessagePayload.conversation sent
    ∧ (MessagePayload.content sentMessage = MessagePayload.content sent
       ∨ MessagePayload.content sentMessage
         = strip_linkPreviews stripLinkPreview (MessagePayload.content sent))
    ∧ messageId = MessagePayload.id sentMessage
    ∧ cachedInstances s1 =
      LRUCache.mutate instanceId
        (λ _, messages_set messageId sentMessage instance)
        (LRUCache.get instanceId (cachedInstances s)).2.
Proof.
  unfold sendText. intros Hsend.
  apply bind_Returned in Hsend as (instance & sA & [Hpeek ->]%getInstance_Returned & Hsend).
  destruct (Account.service (Instance.account instance)) eqn:Hservice; [|done].
  apply bind_Returned in Hsend as ([] & sB & [= <-] & Hsend).
  apply bind_Returned in Hsend as (payload & sC & [= <- <-] & Hsend).
  apply bind_Returned in Hsend as (sent & sD & [Hsent ->]%await_Returned & Hsend).
  apply bind_Returned in Hsend as (sentMessage & sE & Hpreview & Hsend).
  apply bind_Returned in Hsend as ([] & sF & [= <-] & [= <- <-]).
  exists instance.
  destruct linkPreview as [linkPreview|].
  - apply bind_Returned in Hpreview
      as (linkPreviewPayload & sG & [_ ->]%await_Returned & Hpreview).
    apply bind_Returned in Hpreview as (payload' & sH & [= <- <-] & Hpreview).
    apply bind_Returned in Hpreview
      as (sent' & sI & [Hsent' ->]%await_Returned & [= <- <-]).
    eexists _, _, _, sent',
      (MessagePayload.set_content
         (strip_linkPreviews stripLinkPreview (MessagePayload.content sent')) sent').
    split; [done|]. split; [done|].
    split; [|split; [|split; [exact Hsent'|]]].
    1, 2: done.
    split_and!; try done. by right.
  - injection Hpreview as <- <-.
    eexists _, _, _, sent, sent.
    split; [done|]. split; [done|].
    split; [|split; [|split; [exact Hsent|]]].
    1, 2: done.
    split_and!; try done. by left.
Qed.


Lemma sendEditedText_Returned instanceId conversationId originalMessageId
    newMessageText newLinkPreview newMentions newQuote expectsReadConfirmation
    s newMessageId s1 :
  sendEditedText stripLinkPreview env instanceId conversationId originalMessageId
    newMessageText newLinkPreview newMentions newQuote expectsReadConfirmation s
  = (Returned newMessageId, s1) →
  ∃ instance editedMessage,
    LRUCache.peek instanceId (cachedInstances s) = Some instance
    ∧ Account.service (Instance.account instance) = true
    ∧ newMessageId = MessagePayload.id editedMessage
    ∧ cachedInstances s1 =
      LRUCache.mutate instanceId
        (λ _, messages_set originalMessageId editedMessage instance)
        (LRUCache.get instanceId (cachedInstances s)).2.
Proof.
  unfold sendEditedText. intros Hsend.
  apply bind_Returned in Hsend as (instance & sA & [Hpeek ->]%getInstance_Returned & Hsend).
  destruct (Account.service (Instance.account instance)) eqn:Hservice; [|done].
  apply bind_Returned in Hsend as (payload & sB & [= <- <-] & Hsend).
  apply bind_Returned in Hsend as (sent & sC & [Hsent ->]%await_Returned & Hsend).
  apply bind_Returned in Hsend as (editedMessage & sD & Hpreview & Hsend).
  apply bind_Returned in Hsend as ([] & sE & [= <-] & [= <- <-]).
  exists instance, editedMessage. split_and!; [done..|].
  destruct newLinkPreview as [newLinkPreview|].
  - apply bind_Returned in Hpreview
      as (linkPreviewPayload & sF & [_ ->]%await_Returned & Hpreview).
    apply bind_Returned in Hpreview as (payload' & sG & [= <- <-] & Hpreview).
    apply bind_Returned in Hpreview
      as (sent' & sH & [_ ->]%await_Returned & [= <- <-]).
    done.
  - by injection Hpreview as <- <-.
Qed.

Lemma strip_linkPreviews_edited c d :
  strip_linkPreviews stripLinkPreview (MESSAGE_EDIT c) = MESSAGE_EDIT d →
  EditedTextContent.text d = EditedTextContent.text c
  ∧ EditedTextContent.originalMessageId d = EditedTextContent.originalMessageId c.
Proof.
  simpl. destruct (EditedTextContent.linkPreviews c); by intros [= <-].
Qed.

(** C10: when [sendEditedText] succeeds, that is when the instance is
    registered with an account service and every [send] and link
    preview asked for resolves, the method sends the edit built from
    the conversation, the new text and the original message id (and,
    given a link preview, the edit built again with the preview and the
    id of the first sent bundle), and caches what the last [send]
    resolved to (its previews stripped in the second case) under the
    original message id, returning that bundle's own id.  So the
    key in the cache is the original id: when the returned id differs
    from it and was not a key, the returned id is no key afterwards.
    [getMessages] lists the cached values without their keys: it lists
    that bundle, which carries the returned id.  With a builder that
    fills the edit with its arguments and a [send] that keeps
    conversation and content, the bundle is an edit of the original id
    in the conversation given, with the new text. *)
Theorem sendEditedText_stores_under_original_id
    (instanceId conversationId originalMessageId newMessageText : string)
    (newLinkPreview : option LinkPreviewContent.t)
    (newMentions : option (list MentionContent.t))
    (newQuote : option QuoteContent.t) (expectsReadConfirmation : option bool)
    (instance : Instance.t) (s : State)
    (sent sentWithPreview : MessagePayload.t)
    (linkPreviewPayload : LinkPreviewContent.t) :
  let account := Instance.account instance in
  let editedPayload :=
    createEditedText env (calls s) account
      (EditedTextArguments.mk conversationId newMessageText originalMessageId
         None None newMentions newQuote expectsReadConfirmation) in
  let first := send_call account editedPayload in
  let editedWithPreviewPayload preview :=
    createEditedText env (calls s ++ [first; createLinkPreview_call account preview])
      account
      (EditedTextArguments.mk conversationId newMessageText originalMessageId
         (Some (MessagePayload.id sent)) (Some [linkPreviewPayload])
         newMentions newQuote expectsReadConfirmation) in
  let editedMessage :=
    match newLinkPreview with
    | Some _ =>
        MessagePayload.set_content
          (strip_linkPreviews stripLinkPreview
             (MessagePayload.content sentWithPreview))
          sentWithPreview
    | None => sent
    end in
  LRUCache.peek instanceId (cachedInstances s) = Some instance →
  Account.service account = true →
  send env (calls s) account editedPayload = inr sent →
  (∀ preview, newLinkPreview = Some preview →
     createLinkPreview env (calls s ++ [first]) account preview
     = inr linkPreviewPayload
     ∧ send env (calls s ++ [first; createLinkPreview_call account preview]) account
         (editedWithPreviewPayload preview)
       = inr sentWithPreview) →
  let outcome :=
    sendEditedText stripLinkPreview env instanceId conversationId originalMessageId
      newMessageText newLinkPreview newMentions newQuote expectsReadConfirmation s in
  let instance1 := messages_set originalMessageId editedMessage instance in
  let newMessageId := MessagePayload.id editedMessage in
  outcome.1 = Returned newMessageId
  ∧ calls outcome.2
    = calls s ++ first
              :: match newLinkPreview with
                 | Some preview =>
                     [createLinkPreview_call account preview;
                      send_call account (editedWithPreviewPayload preview)]
                 | None => []
                 end
  ∧ LRUCache.peek instanceId (cachedInstances outcome.2) = Some instance1
  ∧ (∀ other, other ≠ instanceId →
       LRUCache.peek other (cachedInstances outcome.2)
       = LRUCache.peek other (cachedInstances s))
  ∧ cached originalMessageId instance1 = Some editedMessage
  ∧ (newMessageId ≠ originalMessageId →
     newMessageId ∉ LRUCache.keys (Instance.messages instance) →
     (newMessageId ∉ LRUCache.keys (Instance.messages instance1))
     ∧ cached newMessageId instance1 = None)
  ∧ (getMessages instanceId (MessagePayload.conversation editedMessage) outcome.2).1
    = Returned
        (conversationMessages (MessagePayload.conversation editedMessage) instance1)
  ∧ editedMessage
    ∈ conversationMessages (MessagePayload.conversation editedMessage) instance1
  ∧ (builds_edited_text env → send_keeps_message env →
     MessagePayload.conversation editedMessage = conversationId
     ∧ ∃ c, MessagePayload.content editedMessage = MESSAGE_EDIT c
            ∧ EditedTextContent.text c = newMessageText
            ∧ EditedTextContent.originalMessageId c = originalMessageId).
Proof.
  intros account editedPayload first editedWithPreviewPayload editedMessage
    Hpeek Hservice Hsent Hpreview outcome instance1 newMessageId.
  assert (Hrun : outcome =
    (Returned newMessageId,
     set_cachedInstances
       (LRUCache.mutate instanceId (λ _, instance1)
          (LRUCache.get instanceId (cachedInstances s)).2)
       (mkState (maximumInstances s) (cachedInstances s)
          (calls s ++ first
             :: match newLinkPreview with
                | Some preview =>
                    [createLinkPreview_call account preview;
                     send_call account (editedWithPreviewPayload preview)]
                | None => []
                end)))).
  { subst outcome. unfold sendEditedText, bind.
    rewrite (getInstance_registered _ instance) by done.
    fold account. rewrite Hservice.
    unfold ask, await, store_instance, ret.
    cbn [fst snd calls cachedInstances record_call set_cachedInstances
         maximumInstances].
    fold editedPayload. rewrite Hsent.
    cbn [fst snd calls cachedInstances record_call set_cachedInstances
         maximumInstances].
    fold first.
    destruct newLinkPreview as [preview|].
    - destruct (Hpreview preview eq_refl) as [Hlink Hsecond].
      unfold bind, ask, await, ret.
      cbn [fst snd calls cachedInstances record_call set_cachedInstances
           maximumInstances].
      rewrite Hlink.
      cbn [fst snd calls cachedInstances record_call set_cachedInstances
           maximumInstances].
      rewrite <-(app_assoc (calls s) [first]). simpl app.
      fold (editedWithPreviewPayload preview). rewrite Hsecond.
      cbn [fst snd calls cachedInstances record_call set_cachedInstances
           maximumInstances].
      unfold set_cachedInstances, record_call.
      cbn [maximumInstances calls cachedInstances].
      by rewrite <-!app_assoc.
    - unfold set_cachedInstances, record_call.
      by cbn [maximumInstances calls cachedInstances]. }
  assert (Hpeek1 : LRUCache.peek instanceId (cachedInstances outcome.2)
                   = Some instance1).
  { rewrite Hrun. cbn [snd cachedInstances set_cachedInstances].
    by rewrite peek_mutate_eq, peek_get, Hpeek. }
  assert (Hservice1 : Account.service (Instance.account instance1) = true).
  { rewrite <-Hservice. subst instance1 account. by destruct instance. }
  assert (Hcached : cached originalMessageId instance1 = Some editedMessage)
    by apply cached_messages_set_eq.
  split_and!.
  - by rewrite Hrun.
  - by rewrite Hrun.
  - exact Hpeek1.
  - intros other Hne. rewrite Hrun. cbn [snd cachedInstances set_cachedInstances].
    rewrite peek_mutate_ne by done. apply peek_get.
  - exact Hcached.
  - intros Hne Hfresh.
    assert (Hkeys : newMessageId ∉ LRUCache.keys (Instance.messages instance1)).
    { intros Hin. subst instance1. destruct instance. simpl in *.
      apply keys_set_subseteq in Hin as [?|?]; done. }
    split; [exact Hkeys|].
    unfold cached. apply find_None in Hkeys.
    unfold LRUCache.peek. by rewrite Hkeys.
  - unfold getMessages, bind. rewrite (getInstance_registered _ instance1) by done.
    by rewrite Hservice1.
  - by apply (cached_conversationMessages originalMessageId).
  - intros Hbuilds Hkeeps. subst editedMessage.
    destruct newLinkPreview as [preview|].
    + destruct (Hpreview preview eq_refl) as [_ Hsecond].
      destruct (Hkeeps _ _ _ _ Hsecond) as [Hconversation Hcontent].
      destruct (Hbuilds (calls s ++ [first; createLinkPreview_call account preview])
                  account
                  (EditedTextArguments.mk conversationId newMessageText
                     originalMessageId (Some (MessagePayload.id sent))
                     (Some [linkPreviewPayload]) newMentions newQuote
                     expectsReadConfirmation))
        as (Hbconversation & c & Hbcontent & Hbtext & Hboriginal).
      fold (editedWithPreviewPayload preview) in Hbconversation, Hbcontent.
      simpl in Hbconversation, Hbtext, Hboriginal.
      split; [simpl; congruence|].
      simpl. rewrite Hcontent, Hbcontent.
      destruct (strip_linkPreviews stripLinkPreview (MESSAGE_EDIT c))
        as [| | | |d| | | | | | |] eqn:Hd;
        try (simpl in Hd; destruct (EditedTextContent.linkPreviews c); discriminate).
      destruct (strip_linkPreviews_edited c d Hd) as [Htext Horiginal].
      exists d. split_and!; [done|congruence..].
    + destruct (Hkeeps _ _ _ _ Hsent) as [Hconversation Hcontent].
      destruct (Hbuilds (calls s) account
                  (EditedTextArguments.mk conversationId newMessageText
                     originalMessageId None None newMentions newQuote
                     expectsReadConfirmation))
        as (Hbconversation & c & Hbcontent & Hbtext & Hboriginal).
      fold editedPayload in Hbconversation, Hbcontent.
      simpl in Hbconversation, Hbtext, Hboriginal.
      split; [congruence|]. exists c. split_and!; congruence.
Qed.
End ServiceFacts.

(** ** The claims on concrete runs *)

(** C1: a confirmation event for M1 with the further ids M2 and M3,
    projected into a cache that holds M1 and M3, appends its record to
    M1 only: the loop over the further ids enumerates the array's
    indices "0" and "1", so M3 gains no confirmation. *)
Theorem confirmation_event_skips_further_ids
    (isAssetContent : Content → bool)
    (stripAsset : AssetContent.t → AssetContent.t)
    (stripLinkPreview : LinkPreviewContent.t → LinkPreviewContent.t) :
  let record := ConfirmationWithSender.mk Scenario.confirmation_content "alice" in
  let i' :=
    project isAssetContent stripAsset stripLinkPreview
      Scenario.confirmation Scenario.received_M1_M3 in
  array_keys ["M2"; "M3"] = ["0"; "1"]
  ∧ MessagePayload.confirmations <$> cached "M1" i' = Some (Some [record])
  ∧ MessagePayload.confirmations <$> cached "M3" i' = Some None
  ∧ cached "M2" i' = None.
Proof. vm_compute. done. Qed.

(** C2 as stated fails: the second delete of an instance, and the
    delete of an instance that was never created, throw. *)
Lemma deleteInstance_twice_throws :
  let first := deleteInstance Mock.accepting "uuid-0" Scenario.created in
  let second := deleteInstance Mock.accepting "uuid-0" first.2 in
  let never := deleteInstance Mock.accepting "never-created" Scenario.created in
  first.1 = Returned ()
  ∧ second.1 = Thrown (instance_not_found "uuid-0")
  ∧ never.1 = Thrown (instance_not_found "never-created").
Proof. vm_compute. done. Qed.

(** C6: the clear listener deletes by the id a message carries, not by
    the key it is cached under.  The service itself caches an edit it
    sent under the original id while the bundle carries the new one, so
    a clear event for the conversation of that message leaves it in the
    cache: [getMessages] lists it before the clear and still lists it
    after. *)
Lemma clear_event_keeps_self_edited_message :
  let cleared :=
    emit Mock.isAssetContent Mock.stripAsset Mock.stripLinkPreview
      Scenario.instanceId Scenario.clear_C1 Scenario.self_edited in
  MessagePayload.conversation Scenario.sent_edit = "C1"
  ∧ (getMessages Scenario.instanceId "C1" Scenario.self_edited).1
    = Returned [Scenario.sent_edit]
  ∧ (getMessages Scenario.instanceId "C1" cleared).1
    = Returned [Scenario.sent_edit]
  ∧ (default None (cached "A" <$> LRUCache.peek Scenario.instanceId (cachedInstances cleared))
     = Some Scenario.sent_edit).
Proof. vm_compute. done. Qed.

(** C10 as stated fails for [getMessages]: it lists the cached values
    without their keys, so after the instance has sent an edit of A the
    one message listed carries the id [sendEditedText] returned, not the
    original id; the original id is only the key in the cache. *)
Lemma sendEditedText_lists_the_returned_id :
  let edited :=
    sendEditedText Mock.stripLinkPreview Mock.accepting "uuid-0" "C1" "A"
      "second wording" None None None None Runs.received_A in
  edited.1 = Returned "uuid-2"
  ∧ (getMessages "uuid-0" "C1" edited.2).1 = Returned [Scenario.sent_edit]
  ∧ MessagePayload.id Scenario.sent_edit = "uuid-2"
  ∧ (default None
       (cached "A" <$> LRUCache.peek "uuid-0" (cachedInstances edited.2))
     = Some Scenario.sent_edit)
  ∧ (default None
       (cached "uuid-2" <$> LRUCache.peek "uuid-0" (cachedInstances edited.2))
     = None).
Proof. vm_compute. done. Qed.

(** ** The theorems on the scenarios *)

(** A delete of an id that was never created, and a second delete. *)
Lemma deleteInstance_unregistered_fails_witness :
  let first := deleteInstance Mock.accepting "uuid-0" Scenario.created in
  (LRUCache.peek "never-created" (cachedInstances Scenario.created) = None
   ∧ deleteInstance Mock.accepting "never-created" Scenario.created
     = (Thrown (instance_not_found "never-created"), Scenario.created))
  ∧ (first = (Returned (), first.2)
     ∧ deleteInstance Mock.accepting "uuid-0" first.2
       = (Thrown (instance_not_found "uuid-0"), first.2)).
Proof.
  intros first. split; (split; [reflexivity|]).
  - apply (proj1 (deleteInstance_unregistered_fails Mock.accepting "never-created"
                    Scenario.created)).
    reflexivity.
  - apply (proj2 (deleteInstance_unregistered_fails Mock.accepting "uuid-0"
                    Scenario.created)).
    reflexivity.
Defined.

(** A delete of an unknown id, and the delete of the created instance. *)
Lemma deleteInstance_logs_out_then_removes_witness :
  let deleted := deleteInstance Mock.accepting "uuid-0" Scenario.created in
  (LRUCache.peek "uuid-1" (cachedInstances Scenario.created) = None
   ∧ deleteInstance Mock.accepting "uuid-1" Scenario.created
     = (Thrown (instance_not_found "uuid-1"), Scenario.created))
  ∧ (is_Some (LRUCache.peek "uuid-0" (cachedInstances Scenario.created))
     ∧ deleted.1 = Returned ()
     ∧ LRUCache.peek "uuid-0" (cachedInstances deleted.2) = None
     ∧ ∃ account, calls deleted.2 = calls Scenario.created ++ [logout_call account]).
Proof.
  intros deleted. split.
  - split; [reflexivity|].
    apply (proj1 (deleteInstance_logs_out_then_removes Mock.accepting "uuid-1"
                    Scenario.created)).
    reflexivity.
  - destruct (LRUCache.peek "uuid-0" (cachedInstances Scenario.created))
      as [instance|] eqn:Hpeek; [|discriminate Hpeek].
    split; [by exists instance|].
    destruct (deleteInstance_logs_out_then_removes Mock.accepting "uuid-0"
                Scenario.created) as [_ Hregistered].
    destruct (Hregistered instance Hpeek) as (Hcalls & Hreturned & Hgone & _).
    split; [exact Hreturned|]. split; [exact Hgone|].
    exists (Instance.account instance). exact Hcalls.
Defined.

(** A creation against a backend that answers the login with 403. *)
Lemma createInstance_rejected_login_witness :
  let env := Mock.rejecting Scenario.invalid_credentials in
  let s := new_InstanceService None in
  (createInstance env Mock.options s).1
  = Thrown (Error "Backend error: Authentication failed.")
  ∧ cachedInstances (createInstance env Mock.options s).2 = cachedInstances s.
Proof.
  intros env s.
  destruct (createInstance_rejected_login env Mock.options s
              Scenario.invalid_credentials) as (Hthrown & Hregistry & _).
  - reflexivity.
  - split; [exact Hthrown|exact Hregistry].
Defined.

(** The text message A edited into B. *)
Lemma edit_event_replaces_original_witness :
  cached "A" Scenario.received_A = Some (Mock.text "A" "X" "bob" "first wording")
  ∧ cached "B" (Mock.project Scenario.edit Scenario.received_A) = Some Scenario.edit
  ∧ cached "A" (Mock.project Scenario.edit Scenario.received_A) = None.
Proof.
  split; [reflexivity|].
  destruct (edit_event_replaces_original Mock.isAssetContent Mock.stripAsset
              Mock.stripLinkPreview Scenario.received_A Scenario.edit
              Scenario.edit_content) as (HB & HA & _).
  - reflexivity.
  - vm_compute. discriminate.
  - split; [exact HB|exact HA].
Defined.

(** Two messages in C1, one in C2, and a clear of C1. *)
Lemma clear_event_removes_conversation_witness :
  cachedMessages Scenario.received_three
  = [Mock.text "m3" "C2" "bob" "three"; Mock.text "m2" "C1" "bob" "two";
     Mock.text "m1" "C1" "bob" "one"]
  ∧ cachedMessages (Mock.project Scenario.clear_C1 Scenario.received_three)
    = [Mock.text "m3" "C2" "bob" "three"].
Proof.
  split; [reflexivity|].
  destruct (clear_event_removes_conversation Mock.isAssetContent Mock.stripAsset
              Mock.stripLinkPreview "C1" Scenario.received_three Scenario.clear_C1
              (ClearedContent.mk "C1")) as (_ & _ & Hthree).
  - reflexivity.
  - reflexivity.
  - apply (bool_decide_unpack (well_formed _)). vm_compute. exact I.
  - apply (Hthree (Mock.text "m1" "C1" "bob" "one") (Mock.text "m2" "C1" "bob" "two")
                  (Mock.text "m3" "C2" "bob" "three")).
    + exact (reverse_Permutation
               [Mock.text "m1" "C1" "bob" "one"; Mock.text "m2" "C1" "bob" "two";
                Mock.text "m3" "C2" "bob" "three"]).
    + reflexivity.
    + reflexivity.
    + vm_compute. discriminate.
Defined.

(** The data of a file arriving after its metadata. *)
Lemma asset_data_event_merges_placeholder_witness :
  let merged := Mock.project Scenario.file_data Scenario.received_metadata in
  cached "F" Scenario.received_metadata = Some Scenario.file_metadata
  ∧ cached "F" merged
    = Some (MessagePayload.set_content
              (ASSET (AssetContent.mk (Some Scenario.file_original)
                        (Some (Preview.mk None "image/png" 4))
                        (Some (RemoteData.mk "asset-1" [Byte.x01] [Byte.x02]))))
              Scenario.file_data)
  ∧ LRUCache.keys (Instance.messages merged) = ["F"].
Proof.
  intros merged. split; [reflexivity|].
  destruct (asset_data_event_merges_placeholder Mock.isAssetContent Mock.stripAsset
              Mock.stripLinkPreview Scenario.received_metadata Scenario.file_data
              Scenario.file_metadata Scenario.file_data_content)
    as (Hmerged & _ & _).
  - reflexivity.
  - reflexivity.
  - reflexivity.
  - reflexivity.
  - split; [exact Hmerged|reflexivity].
Defined.

(** Ephemeral confirmations for a message the instance never cached. *)
Lemma ephemeral_confirmation_unknown_message_witness :
  let delivered :=
    sendEphemeralConfirmationDelivered Mock.accepting "uuid-0" "X" "unknown" None
      Scenario.created in
  let read :=
    sendEphemeralConfirmationRead Mock.accepting "uuid-0" "X" "unknown"
      (Some ["M2"]) Scenario.created in
  delivered.1 = Thrown (message_not_found "unknown")
  ∧ calls delivered.2 = calls Scenario.created
  ∧ read.1 = Thrown (message_not_found "unknown")
  ∧ calls read.2 = calls Scenario.created.
Proof.
  intros delivered read.
  destruct (LRUCache.peek "uuid-0" (cachedInstances Scenario.created))
    as [instance|] eqn:Hpeek; [|discriminate Hpeek].
  assert (Hunknown : cached "unknown" instance = None).
  { injection Hpeek as <-. reflexivity. }
  destruct (ephemeral_confirmation_unknown_message Mock.accepting "uuid-0" "X"
              "unknown" None instance Scenario.created Hpeek Hunknown)
    as (Hdelivered & Hcalls & _).
  destruct (ephemeral_confirmation_unknown_message Mock.accepting "uuid-0" "X"
              "unknown" (Some ["M2"]) instance Scenario.created Hpeek Hunknown)
    as (_ & _ & Hread & Hcalls').
  split_and!; [exact Hdelivered|exact Hcalls|exact Hread|exact Hcalls'].
Defined.


(** An edit of the received message A, sent with a link preview by the
    instance itself. *)
Lemma sendEditedText_stores_under_original_id_witness :
  let edited :=
    sendEditedText Mock.stripLinkPreview Mock.accepting "uuid-0" "C1" "A"
      "second wording" (Some Runs.preview) None None None Runs.received_A in
  edited.1 = Returned "uuid-2"
  ∧ length (calls edited.2) = length (calls Runs.received_A) + 3
  ∧ ∃ instance1 editedMessage c,
      LRUCache.peek "uuid-0" (cachedInstances edited.2) = Some instance1
      ∧ cached "A" instance1 = Some editedMessage
      ∧ cached "uuid-2" instance1 = None
      ∧ MessagePayload.id editedMessage = "uuid-2"
      ∧ MessagePayload.conversation editedMessage = "C1"
      ∧ MessagePayload.content editedMessage = MESSAGE_EDIT c
      ∧ EditedTextContent.text c = "second wording"
      ∧ EditedTextContent.originalMessageId c = "A".
Proof.
  intros edited.
  set (account := Instance.account Runs.received_A_instance).
  set (editedPayload :=
         Mock.createEditedText (calls Runs.received_A) account
           (EditedTextArguments.mk "C1" "second wording" "A" None None None None None)).
  set (editedWithPreviewPayload :=
         Mock.createEditedText
           (calls Runs.received_A
            ++ [send_call account editedPayload;
                createLinkPreview_call account Runs.preview])
           account
           (EditedTextArguments.mk "C1" "second wording" "A" (Some "uuid-2")
              (Some [Runs.preview]) None None None)).
  destruct (sendEditedText_stores_under_original_id Mock.stripLinkPreview
              Mock.accepting "uuid-0" "C1" "A" "second wording" (Some Runs.preview)
              None None None Runs.received_A_instance Runs.received_A
              (Mock.sent editedPayload) (Mock.sent editedWithPreviewPayload)
              Runs.preview)
    as (Hreturned & Hcalls & Hpeek & _ & Horiginal & Hnew & _ & _ & Hcontent).
  - reflexivity.
  - reflexivity.
  - reflexivity.
  - intros preview Hpreview. injection Hpreview as <-. split; reflexivity.
  - destruct Hnew as [_ Hnone].
    + vm_compute. discriminate.
    + apply (bool_decide_unpack (_ ∉ _)). vm_compute. exact I.
    + destruct Hcontent as (Hconversation & c & Hedit & Htext & Hid).
      * intros h a args. split; [reflexivity|].
        eexists. split_and!; reflexivity.
      * intros h a p m Hsent. injection Hsent as <-. split; reflexivity.
      * split; [exact Hreturned|]. split.
        { fold edited in Hcalls. rewrite Hcalls. rewrite length_app. reflexivity. }
        eexists _, _, c.
        split_and!; [exact Hpeek|exact Horiginal|exact Hnone|reflexivity
                     |exact Hconversation|exact Hedit|exact Htext|exact Hid].
Defined.

(** * Further properties *)

(** ** What the listeners do to the other messages *)
Section ListenerFacts.
Variable isAssetContent : Content → bool.
Variable stripAsset : AssetContent.t → AssetContent.t.
Variable stripLinkPreview : LinkPreviewContent.t → LinkPreviewContent.t.

Lemma unlink_absent {V} key (l : list (string * V)) :
  key ∉ l.*1 → LRUCache.unlink key l = l.
Proof.
  intros Habsent. apply filter_all_elem. intros e He Heq. apply Habsent.
  apply list_elem_of_fmap. eauto.
Qed.

Lemma messages_delete_absent key i :
  key ∉ LRUCache.keys (Instance.messages i) → messages_delete key i = i.
Proof.
  intros Habsent. destruct i as [? ? ? ? ? [capacity entries] ? ?].
  unfold messages_delete, LRUCache.delete. simpl in *.
  by rewrite unlink_absent.
Qed.

(** X1: a delete or hide event removes the entry under its target id and
    nothing else; when there is no such entry the instance is left as
    it was. *)
Theorem delete_event_removes_target_only (i : Instance.t)
    (payload : MessagePayload.t) (target : string) :
  (∃ c, MessagePayload.content payload = MESSAGE_DELETE c
        ∧ DeletedContent.messageId c = target)
  ∨ (∃ c, MessagePayload.content payload = MESSAGE_HIDE c
          ∧ HiddenContent.messageId c = target) →
  let i' := project isAssetContent stripAsset stripLinkPreview payload i in
  cached target i' = None
  ∧ (∀ key, key ≠ target → cached key i' = cached key i)
  ∧ Instance.objects i' = Instance.objects i
  ∧ (target ∉ LRUCache.keys (Instance.messages i) → i' = i).
Proof.
  intros Hcontent i'.
  assert (Hi' : i' = messages_delete target i).
  { subst i'. unfold project.
    destruct Hcontent as [(c & -> & <-)|(c & -> & <-)]; done. }
  rewrite Hi'. split_and!.
  - apply cached_messages_delete_eq.
  - intros key Hne. by apply cached_messages_delete_ne.
  - by destruct i.
  - apply messages_delete_absent.
Qed.

Lemma find_removelast_Some {V} key (l : list (string * V)) w :
  LRUCache.find key (removelast l) = Some w → LRUCache.find key l = Some w.
Proof.
  induction l as [|[k x] l IH]; [done|].
  destruct l as [|e l]; [done|].
  change (removelast ((k, x) :: e :: l)) with ((k, x) :: removelast (e :: l)).
  cbn [LRUCache.find]. case_decide; [done|]. apply IH.
Qed.

Lemma peek_set_Some {V} key key' (v w : V) (c : LRUCache.t V) :
  LRUCache.peek key' (LRUCache.set key v c) = Some w →
  key' = key ∨ LRUCache.peek key' c = Some w.
Proof.
  intros Hpeek. destruct (decide (key' = key)) as [|Hne]; [by left|]. right.
  revert Hpeek.
  unfold LRUCache.set, LRUCache.peek.
  destruct (LRUCache.find key (LRUCache.entries c)); simpl;
    rewrite decide_False by done.
  - by rewrite find_unlink_ne.
  - case_decide; [apply find_removelast_Some|done].
Qed.

Lemma peek_set_ne_keep {V} key key' (v : V) (c : LRUCache.t V) :
  key ≠ key' →
  is_Some (LRUCache.peek key c)
  ∨ length (LRUCache.entries c) < LRUCache.capacity c →
  LRUCache.peek key' (LRUCache.set key v c) = LRUCache.peek key' c.
Proof.
  intros Hne Hroom. unfold LRUCache.set, LRUCache.peek in *.
  destruct (LRUCache.find key (LRUCache.entries c)) eqn:Hfind; simpl;
    rewrite decide_False by done.
  - by rewrite find_unlink_ne.
  - destruct Hroom as [[? [=]]|Hroom]. rewrite decide_False by lia. done.
Qed.

Lemma cached_alloc key payload i (c : LRUCache.t ref) :
  well_formed i →
  LRUCache.peek key c = LRUCache.peek key (Instance.messages i)
  ∨ LRUCache.peek key c = None →
  LRUCache.peek key c ≫= (λ r, (Instance.objects i ++ [payload]) !! r)
  = LRUCache.peek key c ≫= (λ r, Instance.objects i !! r).
Proof.
  intros [_ Hall] [Hsame|Hnone]; [|by rewrite Hnone].
  rewrite Hsame.
  destruct (LRUCache.peek key (Instance.messages i)) as [r|] eqn:Hpeek; [|done].
  simpl. rewrite Forall_forall in Hall.
  specialize (Hall _ (find_Some_elem _ _ _ Hpeek)). cbn [fst snd] in Hall.
  destruct (Instance.objects i !! r) as [m|] eqn:Hm; [|done].
  by rewrite (lookup_app_l_Some _ _ _ _ Hm).
Qed.

Lemma cached_messages_set_Some key other payload m i :
  well_formed i →
  cached other (messages_set key payload i) = Some m →
  other = key ∨ cached other i = Some m.
Proof.
  intros Hok Hcached. destruct (decide (other = key)) as [|Hne]; [by left|]. right.
  unfold cached in *.
  destruct (LRUCache.peek other (Instance.messages (messages_set key payload i)))
    as [r|] eqn:Hpeek; [|done].
  assert (Hold : LRUCache.peek other (Instance.messages i) = Some r).
  { destruct i. simpl in *. by apply peek_set_Some in Hpeek as [?|?]. }
  rewrite Hold. simpl in *.
  destruct Hok as [_ Hall]. rewrite Forall_forall in Hall.
  specialize (Hall _ (find_Some_elem _ _ _ Hold)). cbn [fst snd] in Hall.
  destruct (Instance.objects i !! r) as [m'|] eqn:Hm'; [|done].
  replace (Instance.objects (messages_set key payload i))
    with (Instance.objects i ++ [payload]) in Hcached by (by destruct i).
  by rewrite (lookup_app_l_Some _ _ _ _ Hm') in Hcached.
Qed.

Lemma cached_messages_set_ne key other payload i :
  well_formed i →
  key ≠ other →
  key ∈ LRUCache.keys (Instance.messages i)
  ∨ length (LRUCache.entries (Instance.messages i))
    < LRUCache.capacity (Instance.messages i) →
  cached other (messages_set key payload i) = cached other i.
Proof.
  intros Hok Hne Hroom. unfold cached.
  assert (Hpeek : LRUCache.peek other (Instance.messages (messages_set key payload i))
                  = LRUCache.peek other (Instance.messages i)).
  { replace (Instance.messages (messages_set key payload i))
      with (LRUCache.set key (length (Instance.objects i)) (Instance.messages i))
      by (by destruct i).
    apply peek_set_ne_keep; [done|].
    destruct Hroom as [Hin|?]; [left|by right].
    destruct (LRUCache.peek key (Instance.messages i)) eqn:Hk; [done|].
    by apply find_None in Hk. }
  rewrite Hpeek.
  replace (Instance.objects (messages_set key payload i))
    with (Instance.objects i ++ [payload]) by (by destruct i).
  apply (cached_alloc other payload i (Instance.messages i)); auto.
Qed.

(** X2: a text, asset-metadata, image, location or ping event upserts its
    bundle under the bundle's own id: whatever was cached there is
    replaced (for text, with the link previews stripped).  No other
    message is altered; the others all stay when the id was already
    cached or the cache had room. *)
Theorem storing_event_upserts (i : Instance.t) (payload : MessagePayload.t) :
  plainly_stored (MessagePayload.content payload) →
  well_formed i →
  let id := MessagePayload.id payload in
  let stored :=
    MessagePayload.set_content
      (strip_linkPreviews stripLinkPreview (MessagePayload.content payload))
      payload in
  let i' := project isAssetContent stripAsset stripLinkPreview payload i in
  cached id i' = Some stored
  ∧ (∀ other m, cached other i' = Some m → other = id ∨ cached other i = Some m)
  ∧ (id ∈ LRUCache.keys (Instance.messages i)
     ∨ length (LRUCache.entries (Instance.messages i))
       < LRUCache.capacity (Instance.messages i) →
     ∀ other, other ≠ id → cached other i' = cached other i).
Proof.
  intros Hplain Hok id stored i'.
  assert (Hi' : i' = messages_set id stored i).
  { subst i' stored id. unfold project.
    destruct payload as [? content ? ? ? ? ? ?]. simpl in *.
    destruct content as [c| | | | | | | | | | |]; try done.
    unfold on_TEXT. simpl. by destruct (TextContent.linkPreviews c). }
  rewrite Hi'. split_and!.
  - apply cached_messages_set_eq.
  - intros other m. by apply cached_messages_set_Some.
  - intros Hroom other Hne. by apply cached_messages_set_ne.
Qed.

(** X3: an asset-data event with no cached placeholder under its id, or
    with one that the type guard does not accept, is stored under its
    id with its own content stripped: nothing is merged into it. *)
Theorem asset_data_event_without_placeholder (i : Instance.t)
    (payload : MessagePayload.t) (c : AssetContent.t) :
  MessagePayload.content payload = ASSET c →
  match cached (MessagePayload.id payload) i with
  | Some metaPayload =>
      isAssetContent (ASSET c)
      && isAssetContent (MessagePayload.content metaPayload) = false
  | None => True
  end →
  let i' := project isAssetContent stripAsset stripLinkPreview payload i in
  cached (MessagePayload.id payload) i'
  = Some (MessagePayload.set_content (ASSET (stripAsset c)) payload)
  ∧ length (filter (λ k, k = MessagePayload.id payload)
              (LRUCache.keys (Instance.messages i'))) = 1.
Proof.
  intros Hcontent Hguard i'.
  assert (Hi' : i' = messages_set (MessagePayload.id payload)
                       (MessagePayload.set_content (ASSET (stripAsset c)) payload)
                       (messages_get (MessagePayload.id payload) i).2).
  { subst i'. unfold project. rewrite Hcontent. unfold on_ASSET.
    rewrite (surjective_pairing (messages_get _ i)).
    destruct (cached (MessagePayload.id payload) i) as [metaPayload|] eqn:Hcached.
    - destruct (messages_get_cached _ _ _ Hcached) as [r Hr]. rewrite Hr.
      by rewrite Hguard.
    - by rewrite (messages_get_None _ _ Hcached). }
  rewrite Hi'. split; [apply cached_messages_set_eq|apply keys_messages_set_once].
Qed.

Lemma clear_walk_only_removes conversationId nodes i key m :
  cached key (clear_walk conversationId nodes i) = Some m → cached key i = Some m.
Proof.
  revert i. induction nodes as [|[k r] nodes IH]; intros i; [done|].
  simpl. destruct (LRUCache.peek k (Instance.messages i)); [|apply IH].
  destruct (Instance.objects i !! r) as [message|]; [|apply IH].
  case_decide; [|apply IH].
  intros Hcached%IH.
  destruct (decide (MessagePayload.id message = key)) as [<-|Hne].
  - by rewrite cached_messages_delete_eq in Hcached.
  - by rewrite cached_messages_delete_ne in Hcached.
Qed.

Lemma clear_walk_nothing_to_clear conversationId nodes i :
  (∀ key r m, (key, r) ∈ nodes → Instance.objects i !! r = Some m →
              MessagePayload.conversation m ≠ conversationId) →
  clear_walk conversationId nodes i = i.
Proof.
  induction nodes as [|[k r] nodes IH]; intros Hnone; [done|].
  assert (Hrest : clear_walk conversationId nodes i = i).
  { apply IH. intros key r' m Hin. apply (Hnone key). by right. }
  simpl. destruct (LRUCache.peek k (Instance.messages i)); [|done].
  destruct (Instance.objects i !! r) as [message|] eqn:Hmessage; [|done].
  rewrite decide_False; [done|]. apply (Hnone k r); [left|done].
Qed.

(** X4: whatever the cache holds, a clear event only removes: every
    message cached after it was cached under the same key before it,
    and when no cached message belongs to the cleared conversation the
    instance is left exactly as it was. *)
Theorem clear_event_only_removes (i : Instance.t) (payload : MessagePayload.t)
    (clearedContent : ClearedContent.t) :
  MessagePayload.content payload = CLEARED clearedContent →
  let i' := project isAssetContent stripAsset stripLinkPreview payload i in
  (∀ key m, cached key i' = Some m → cached key i = Some m)
  ∧ ((∀ m, m ∈ cachedMessages i →
           MessagePayload.conversation m
           ≠ ClearedContent.conversationId clearedContent) →
     i' = i).
Proof.
  intros Hcontent i'. subst i'. unfold project. rewrite Hcontent. unfold on_CLEARED.
  split.
  - intros key m. apply clear_walk_only_removes.
  - intros Hnone. apply clear_walk_nothing_to_clear. intros key r m Hin Hm.
    apply Hnone. unfold cachedMessages. apply list_elem_of_omap.
    exists r. split; [|done]. apply list_elem_of_fmap. by exists (key, r).
Qed.

(** *** Confirmation events *)

Lemma keys_get_rev {V} key key' (c : LRUCache.t V) :
  key' ∈ LRUCache.keys c → key' ∈ LRUCache.keys (LRUCache.get key c).2.
Proof.
  unfold LRUCache.get, LRUCache.keys.
  destruct (LRUCache.peek key c) as [v|]; [|done]. simpl.
  intros (e & -> & He)%list_elem_of_fmap. rewrite elem_of_cons.
  destruct (decide (e.1 = key)) as [|Hne]; [by left|right].
  apply list_elem_of_fmap. exists e. split; [done|]. by apply list_elem_of_filter.
Qed.

Lemma keys_set_present {V} key key' (v : V) (c : LRUCache.t V) :
  is_Some (LRUCache.peek key c) →
  key' ∈ LRUCache.keys c → key' ∈ LRUCache.keys (LRUCache.set key v c).
Proof.
  unfold LRUCache.set, LRUCache.keys. intros [w ->]. simpl.
  intros (e & -> & He)%list_elem_of_fmap. rewrite elem_of_cons.
  destruct (decide (e.1 = key)) as [|Hne]; [by left|right].
  apply list_elem_of_fmap. exists e. split; [done|]. by apply list_elem_of_filter.
Qed.

Lemma confirm_present record key m i :
  well_formed i →
  cached key i = Some m →
  let m' :=
    MessagePayload.set_confirmations
      (Some (default [] (MessagePayload.confirmations m) ++ [record])) m in
  let i' := confirm record key i in
  cached key i' = Some m'
  ∧ (∀ other, other ≠ key → cached other i' = cached other i)
  ∧ (∀ k, k ∈ LRUCache.keys (Instance.messages i)
          → k ∈ LRUCache.keys (Instance.messages i')).
Proof.
  intros Hok Hcached m' i'.
  assert (Hpeek : ∃ r, LRUCache.peek key (Instance.messages i) = Some r
                       ∧ Instance.objects i !! r = Some m).
  { unfold cached in Hcached.
    destruct (LRUCache.peek key (Instance.messages i)) as [r|]; [|done]. eauto. }
  destruct Hpeek as (r & Hpeek & Hm).
  assert (Hid : MessagePayload.id m = key).
  { destruct Hok as [_ Hall]. rewrite Forall_forall in Hall.
    specialize (Hall _ (find_Some_elem _ _ _ Hpeek)). cbn [fst snd] in Hall.
    rewrite Hm in Hall. by injection Hall. }
  assert (Hi' : i' =
    Instance.set_messages
      (LRUCache.set key r (LRUCache.get key (Instance.messages i)).2)
      (Instance.set_objects (<[r := m']> (Instance.objects i)) i)).
  { subst i'. unfold confirm.
    rewrite (surjective_pairing (messages_get key i)), messages_get_fst,
      messages_get_snd.
    rewrite Hpeek. simpl. rewrite Hm. simpl. rewrite Hid. by destruct i. }
  rewrite Hi'. unfold cached. destruct i as [? ? ? ? ? c ? objects]. simpl in *.
  split_and!.
  - rewrite peek_set_eq. simpl.
    apply list_lookup_insert_eq. by eapply lookup_lt_Some.
  - intros other Hne.
    rewrite peek_set_ne_keep, peek_get; [|done|].
    + destruct (LRUCache.peek other c) as [r'|] eqn:Hother; [|done]. simpl.
      apply list_lookup_insert_ne. intros <-.
      destruct Hok as [_ Hall]. rewrite Forall_forall in Hall.
      specialize (Hall _ (find_Some_elem _ _ _ Hother)). cbn [fst snd] in Hall.
      simpl in Hall. rewrite Hm in Hall. simpl in Hall. congruence.
    + left. rewrite peek_get, Hpeek. done.
  - intros k Hk. apply keys_set_present.
    + rewrite peek_get, Hpeek. done.
    + by apply keys_get_rev.
Qed.

Lemma foldl_confirm_absent record (keys : list string) i :
  (∀ k, k ∈ keys → k ∉ LRUCache.keys (Instance.messages i)) →
  foldl (λ i furtherMessageId, confirm record furtherMessageId i) i keys = i.
Proof.
  induction keys as [|key keys IH]; intros Habsent; [done|].
  simpl. rewrite confirm_absent.
  - apply IH. intros k Hk. apply Habsent. by right.
  - apply find_None, Habsent. left.
Qed.

Lemma on_CONFIRMATION_first_only payload confirmationContent i :
  well_formed i →
  (∀ k, k ∈ array_keys (default [] (ConfirmationContent.moreMessageIds
                                      confirmationContent)) →
        k ∉ LRUCache.keys (Instance.messages i)) →
  on_CONFIRMATION payload confirmationContent i =
  confirm
    (ConfirmationWithSender.mk confirmationContent (MessagePayload.from payload))
    (ConfirmationContent.firstMessageId confirmationContent) i.
Proof.
  intros Hok Hindices.
  destruct (ConfirmationContent.moreMessageIds confirmationContent) as [more|] eqn:Hmore.
  - by apply (confirmation_listener_reads_indices _ _ more).
  - unfold on_CONFIRMATION. by rewrite Hmore.
Qed.

(** X5: a confirmation event whose first target is cached appends exactly
    one record, the event's content with its sender, to that message's
    confirmation list, creating the list if there was none; the records
    already there stay in front and no other message changes.  (The
    indices of the further ids are assumed not to be message ids.) *)
Theorem confirmation_event_appends_to_first (i : Instance.t)
    (payload m : MessagePayload.t) (confirmationContent : ConfirmationContent.t) :
  MessagePayload.content payload = CONFIRMATION confirmationContent →
  well_formed i →
  cached (ConfirmationContent.firstMessageId confirmationContent) i = Some m →
  (∀ k, k ∈ array_keys (default [] (ConfirmationContent.moreMessageIds
                                      confirmationContent)) →
        k ∉ LRUCache.keys (Instance.messages i)) →
  let first := ConfirmationContent.firstMessageId confirmationContent in
  let record :=
    ConfirmationWithSender.mk confirmationContent (MessagePayload.from payload) in
  let i' := project isAssetContent stripAsset stripLinkPreview payload i in
  cached first i' =
    Some (MessagePayload.set_confirmations
            (Some (default [] (MessagePayload.confirmations m) ++ [record])) m)
  ∧ (∀ other, other ≠ first → cached other i' = cached other i).
Proof.
  intros Hcontent Hok Hcached Hindices first record i'.
  assert (Hi' : i' = confirm record first i).
  { subst i'. unfold project. rewrite Hcontent.
    by apply on_CONFIRMATION_first_only. }
  rewrite Hi'.
  destruct (confirm_present record first m i Hok Hcached) as (Hfirst & Hother & _).
  by split.
Qed.

(** X6: a confirmation event for a message that is not cached is dropped:
    the instance is left exactly as it was.  (The indices of the
    further ids are assumed not to be message ids.) *)
Theorem confirmation_event_for_unknown_message_is_dropped (i : Instance.t)
    (payload : MessagePayload.t) (confirmationContent : ConfirmationContent.t) :
  MessagePayload.content payload = CONFIRMATION confirmationContent →
  ConfirmationContent.firstMessageId confirmationContent
    ∉ LRUCache.keys (Instance.messages i) →
  (∀ k, k ∈ array_keys (default [] (ConfirmationContent.moreMessageIds
                                      confirmationContent)) →
        k ∉ LRUCache.keys (Instance.messages i)) →
  project isAssetContent stripAsset stripLinkPreview payload i = i.
Proof.
  intros Hcontent Hfirst Hindices. unfold project. rewrite Hcontent.
  unfold on_CONFIRMATION. rewrite confirm_absent by (by apply find_None).
  destruct (ConfirmationContent.moreMessageIds confirmationContent) as [more|];
    [|done].
  by apply foldl_confirm_absent.
Qed.

Lemma keys_confirm_iff record key i k :
  well_formed i →
  k ∈ LRUCache.keys (Instance.messages (confirm record key i))
  ↔ k ∈ LRUCache.keys (Instance.messages i).
Proof.
  intros Hok. split; [by apply keys_confirm|]. intros Hk.
  destruct (cached key i) as [m|] eqn:Hcached.
  - by apply (confirm_present record key m i Hok Hcached).
  - rewrite confirm_absent; [done|].
    unfold cached in Hcached.
    destruct (LRUCache.peek key (Instance.messages i)) as [r|] eqn:Hpeek; [|done].
    exfalso. destruct Hok as [_ Hall]. rewrite Forall_forall in Hall.
    specialize (Hall _ (find_Some_elem _ _ _ Hpeek)). cbn [fst snd] in Hall.
    simpl in Hcached. by rewrite Hcached in Hall.
Qed.

Lemma length_cachedMessages i :
  well_formed i →
  length (cachedMessages i) = length (LRUCache.entries (Instance.messages i)).
Proof.
  intros [_ Hall]. unfold cachedMessages.
  induction Hall as [|[k r] l Hr Hall IH]; [done|].
  cbn [fst snd] in Hr. simpl.
  destruct (Instance.objects i !! r); [|done]. simpl. by f_equal.
Qed.

(** X7: whatever ids and indices it looks up, a confirmation event neither
    creates nor removes a cache entry: the confirmation is not itself
    retained, and no message is evicted to record it. *)
Theorem confirmation_event_keeps_the_keys (i : Instance.t)
    (payload : MessagePayload.t) (confirmationContent : ConfirmationContent.t) :
  MessagePayload.content payload = CONFIRMATION confirmationContent →
  well_formed i →
  let i' := project isAssetContent stripAsset stripLinkPreview payload i in
  (∀ k, k ∈ LRUCache.keys (Instance.messages i')
        ↔ k ∈ LRUCache.keys (Instance.messages i))
  ∧ length (cachedMessages i') = length (cachedMessages i).
Proof.
  intros Hcontent Hok i'.
  assert (Hkeys : ∀ k, k ∈ LRUCache.keys (Instance.messages i')
                       ↔ k ∈ LRUCache.keys (Instance.messages i)).
  { subst i'. unfold project. rewrite Hcontent. unfold on_CONFIRMATION.
    set (record := ConfirmationWithSender.mk _ _).
    pose proof (confirm_well_formed record
      (ConfirmationContent.firstMessageId confirmationContent) i Hok) as Hok1.
    pose proof (λ k, keys_confirm_iff record
      (ConfirmationContent.firstMessageId confirmationContent) i k Hok) as Hkeys1.
    destruct (ConfirmationContent.moreMessageIds confirmationContent) as [more|];
      [|done].
    revert Hok1 Hkeys1.
    generalize (confirm record
      (ConfirmationContent.firstMessageId confirmationContent) i).
    induction (array_keys more) as [|key keys IH]; intros i1 Hok1 Hkeys1; [done|].
    simpl. apply IH; [by apply confirm_well_formed|].
    intros k. by rewrite keys_confirm_iff. }
  split; [done|].
  assert (Hok' : well_formed i') by (by apply project_well_formed).
  rewrite !length_cachedMessages by done.
  rewrite <-(length_fmap fst (LRUCache.entries (Instance.messages i'))).
  rewrite <-(length_fmap fst (LRUCache.entries (Instance.messages i))).
  apply Permutation_length, NoDup_Permutation; [apply Hok'|apply Hok|apply Hkeys].
Qed.
End ListenerFacts.

(** ** The registry *)
Section RegistryFacts.
Variable stripLinkPreview : LinkPreviewContent.t → LinkPreviewContent.t.
Variable env : Collaborators.
Variable builder : MessageBuilder.

Lemma same_instances_get instanceId s :
  same_instances s
    (set_cachedInstances (LRUCache.get instanceId (cachedInstances s)).2 s).
Proof. intros k. simpl. apply peek_get. Qed.

(** X8: in a registry made for at least one instance, [createInstance],
    when the login and the start of the event delivery resolve, returns
    the generated id and registers under it an instance with the
    logged-in account, the parsed backend and an empty message cache;
    the instance is then found by [getInstance] and [instanceExists],
    and its conversations are empty. *)
Theorem createInstance_registers (options : InstanceCreationOptions.t)
    (s : State) (account : Account.t) :
  let loginData := InstanceCreationOptions.loginData options in
  let ClientInfo := creation_ClientInfo env options in
  1 ≤ LRUCache.capacity (cachedInstances s) →
  login env (calls s) (new_Account (creation_client env options)) loginData ClientInfo
  = inr account →
  listen env (calls s ++ [login_call loginData ClientInfo]) account = None →
  let instanceId := uuid env (calls s) in
  let instance := created_instance env options instanceId account in
  let s' := (createInstance env options s).2 in
  (createInstance env options s).1 = Returned instanceId
  ∧ LRUCache.peek instanceId (cachedInstances s') = Some instance
  ∧ calls s' = calls s ++ [login_call loginData ClientInfo; listen_call account]
  ∧ (getInstance instanceId s').1 = Returned instance
  ∧ (instanceExists instanceId s').1 = true
  ∧ (Account.service account = true →
     ∀ conversationId, (getMessages instanceId conversationId s').1 = Returned []).
Proof.
  intros loginData ClientInfo Hcapacity Hlogin Hlisten instanceId instance s'.
  assert (Hrun : createInstance env options s =
    (Returned instanceId,
     set_cachedInstances
       (LRUCache.set instanceId instance (cachedInstances s))
       (record_call (listen_call account)
          (record_call (login_call loginData ClientInfo) s)))).
  { unfold createInstance, bind, ask, try_catch, await, await_unit. simpl.
    fold loginData ClientInfo. rewrite Hlogin. simpl. rewrite Hlisten. done. }
  assert (Hpeek : LRUCache.peek instanceId (cachedInstances s') = Some instance).
  { subst s'. rewrite Hrun. simpl. apply peek_set_eq. }
  subst s'. rewrite Hrun in *. simpl in *. split_and!; try done.
  - by rewrite <-app_assoc.
  - by rewrite (getInstance_registered _ instance).
  - unfold instanceExists.
    pose proof (get_fst instanceId
      (LRUCache.set instanceId instance (cachedInstances s))) as Hfst.
    simpl. destruct (LRUCache.get _ _) as [[found|] c]; [done|].
    simpl in Hfst. congruence.
  - intros Hservice conversationId. unfold getMessages, bind.
    rewrite (getInstance_registered _ instance) by done.
    simpl. by rewrite Hservice.
Qed.

Lemma createInstance_run (options : InstanceCreationOptions.t) (s : State)
    (account : Account.t) :
  let loginData := InstanceCreationOptions.loginData options in
  let ClientInfo := creation_ClientInfo env options in
  login env (calls s) (new_Account (creation_client env options)) loginData ClientInfo
  = inr account →
  listen env (calls s ++ [login_call loginData ClientInfo]) account = None →
  createInstance env options s =
  (Returned (uuid env (calls s)),
   set_cachedInstances
     (LRUCache.set (uuid env (calls s))
        (created_instance env options (uuid env (calls s)) account)
        (cachedInstances s))
     (record_call (listen_call account)
        (record_call (login_call loginData ClientInfo) s))).
Proof.
  intros loginData ClientInfo Hlogin Hlisten.
  unfold createInstance, bind, ask, try_catch, await, await_unit. simpl.
  fold loginData ClientInfo. rewrite Hlogin. simpl. rewrite Hlisten. done.
Qed.

(** X9: when the registry is full, [createInstance] drops the least
    recently used instance to make room and keeps the others; the
    dropped instance's account is not logged out: the only calls made
    are the login and the listen of the new instance. *)
Theorem createInstance_evicts_least_recently_used
    (options : InstanceCreationOptions.t) (s : State) (account : Account.t)
    (front : list (string * Instance.t)) (oldest : string) (old : Instance.t) :
  let loginData := InstanceCreationOptions.loginData options in
  let ClientInfo := creation_ClientInfo env options in
  login env (calls s) (new_Account (creation_client env options)) loginData ClientInfo
  = inr account →
  listen env (calls s ++ [login_call loginData ClientInfo]) account = None →
  uuid env (calls s) ∉ LRUCache.keys (cachedInstances s) →
  LRUCache.entries (cachedInstances s) = front ++ [(oldest, old)] →
  LRUCache.capacity (cachedInstances s) ≤ length (LRUCache.entries (cachedInstances s)) →
  let instanceId := uuid env (calls s) in
  let s' := (createInstance env options s).2 in
  LRUCache.entries (cachedInstances s')
  = (instanceId, created_instance env options instanceId account) :: front
  ∧ (oldest ∉ front.*1 → LRUCache.peek oldest (cachedInstances s') = None)
  ∧ calls s' = calls s ++ [login_call loginData ClientInfo; listen_call account].
Proof.
  intros loginData ClientInfo Hlogin Hlisten Hfresh Hentries Hfull instanceId s'.
  subst s' instanceId. rewrite (createInstance_run options s account Hlogin Hlisten).
  set (instanceId := uuid env (calls s)) in *.
  set (instance := created_instance env options instanceId account).
  assert (Hset : LRUCache.entries
            (LRUCache.set instanceId instance (cachedInstances s))
          = (instanceId, instance) :: front).
  { pose proof (proj2 (find_None _ _) Hfresh) as Hfind.
    unfold LRUCache.set, LRUCache.peek.
    rewrite Hfind. simpl. rewrite decide_True by done.
    by rewrite Hentries, removelast_last. }
  cbn [snd cachedInstances set_cachedInstances calls record_call]. split_and!.
  - exact Hset.
  - intros Holdest. unfold LRUCache.peek. rewrite Hset. simpl.
    rewrite decide_False.
    + by apply find_None.
    + intros Heq. apply Hfresh. unfold LRUCache.keys. rewrite Hentries.
      rewrite fmap_app. apply elem_of_app. right. simpl. rewrite Heq. left.
  - by rewrite <-app_assoc.
Qed.

(** X10: when the start of the event delivery is rejected after a login
    that succeeded, [createInstance] throws what its catch clause makes
    of the rejection and registers nothing, the login having been
    made. *)
Theorem createInstance_rejected_listen (options : InstanceCreationOptions.t)
    (s : State) (account : Account.t) (error : JsError) :
  let loginData := InstanceCreationOptions.loginData options in
  let ClientInfo := creation_ClientInfo env options in
  login env (calls s) (new_Account (creation_client env options)) loginData ClientInfo
  = inr account →
  listen env (calls s ++ [login_call loginData ClientInfo]) account = Some error →
  (createInstance env options s).1 = Thrown (backend_error error)
  ∧ cachedInstances (createInstance env options s).2 = cachedInstances s
  ∧ calls (createInstance env options s).2
    = calls s ++ [login_call loginData ClientInfo; listen_call account].
Proof.
  intros loginData ClientInfo Hlogin Hlisten.
  unfold createInstance, bind, ask, try_catch, await, await_unit, throw. simpl.
  fold loginData ClientInfo. rewrite Hlogin. simpl. rewrite Hlisten. simpl.
  split_and!; [done..|]. by rewrite <-app_assoc.
Qed.

Lemma unlink_head {V} key (v : V) (l : list (string * V)) :
  LRUCache.unlink key ((key, v) :: l) = LRUCache.unlink key l.
Proof.
  unfold LRUCache.unlink. rewrite filter_cons. by rewrite decide_False by naive_solver.
Qed.

Lemma delete_get_set_fresh {V} key (v : V) (c : LRUCache.t V) :
  key ∉ LRUCache.keys c →
  length (LRUCache.entries c) < LRUCache.capacity c →
  LRUCache.delete key (LRUCache.get key (LRUCache.set key v c)).2 = c.
Proof.
  intros Hfresh Hroom.
  pose proof (proj2 (find_None _ _) Hfresh) as Hfind.
  assert (Hset : LRUCache.set key v c
                 = LRUCache.mk (LRUCache.capacity c) ((key, v) :: LRUCache.entries c)).
  { unfold LRUCache.set, LRUCache.peek. rewrite Hfind.
    by rewrite decide_False by lia. }
  rewrite Hset. unfold LRUCache.get, LRUCache.peek.
  cbn [LRUCache.entries LRUCache.find]. rewrite decide_True by done.
  unfold LRUCache.delete. cbn [snd LRUCache.entries LRUCache.capacity].
  rewrite !unlink_head. rewrite !(unlink_absent key (LRUCache.entries c)) by exact Hfresh.
  by destruct c.
Qed.

(** X11: creating an instance and deleting it again, in a registry that had
    room and did not know the generated id, gives back the registry as
    it was, recency order included. *)
Theorem createInstance_then_deleteInstance (options : InstanceCreationOptions.t)
    (s : State) (account : Account.t) :
  let loginData := InstanceCreationOptions.loginData options in
  let ClientInfo := creation_ClientInfo env options in
  let instanceId := uuid env (calls s) in
  let s' := (createInstance env options s).2 in
  login env (calls s) (new_Account (creation_client env options)) loginData ClientInfo
  = inr account →
  listen env (calls s ++ [login_call loginData ClientInfo]) account = None →
  logout env (calls s') account = None →
  instanceId ∉ LRUCache.keys (cachedInstances s) →
  length (LRUCache.entries (cachedInstances s)) < LRUCache.capacity (cachedInstances s) →
  (deleteInstance env instanceId s').1 = Returned ()
  ∧ cachedInstances (deleteInstance env instanceId s').2 = cachedInstances s.
Proof.
  intros loginData ClientInfo instanceId s' Hlogin Hlisten Hlogout Hfresh Hroom.
  pose proof (createInstance_run options s account Hlogin Hlisten) as Hrun.
  fold instanceId loginData ClientInfo in Hrun.
  assert (Hs' : s' = (createInstance env options s).2) by done.
  rewrite Hrun in Hs'. simpl in Hs'.
  set (instance := created_instance env options instanceId account) in *.
  unfold deleteInstance, bind.
  rewrite (getInstance_registered _ instance)
    by (rewrite Hs'; simpl; apply peek_set_eq).
  unfold await_unit. simpl. rewrite Hlogout. simpl.
  split; [done|].
  rewrite Hs'. simpl. by apply delete_get_set_fresh.
Qed.
End RegistryFacts.

(** ** The methods and the instance they are given *)
Section MethodFacts.
Variable stripLinkPreview : LinkPreviewContent.t → LinkPreviewContent.t.
Variable env : Collaborators.
Variable builder : MessageBuilder.

Lemma bind_getInstance_unregistered {A} instanceId (k : Instance.t → M A) s :
  LRUCache.peek instanceId (cachedInstances s) = None →
  bind (getInstance instanceId) k s = (Thrown (instance_not_found instanceId), s).
Proof. intros Hpeek. unfold bind. by rewrite getInstance_unregistered. Qed.

Lemma bind_getInstance_registered {A} instanceId instance (k : Instance.t → M A) s :
  LRUCache.peek instanceId (cachedInstances s) = Some instance →
  bind (getInstance instanceId) k s
  = k instance (set_cachedInstances (LRUCache.get instanceId (cachedInstances s)).2 s).
Proof. intros Hpeek. unfold bind. by rewrite (getInstance_registered _ instance). Qed.

(** X12: every method that is given an instance id which is not registered
    throws the not-found error that names the id and leaves the state
    as it was: nothing is asked of the Messaging Client. *)
Theorem unknown_instance_is_reported (instanceId : string) (s : State) :
  LRUCache.peek instanceId (cachedInstances s) = None →
  let not_found := instance_not_found instanceId in
  (∀ conversationId, getMessages instanceId conversationId s = (Thrown not_found, s))
  ∧ (∀ conversationId message linkPreview mentions quote expectsReadConfirmation
       expireAfterMillis,
       sendText stripLinkPreview env instanceId conversationId message linkPreview
         mentions quote expectsReadConfirmation expireAfterMillis s
       = (Thrown not_found, s))
  ∧ (∀ conversationId originalMessageId newMessageText newLinkPreview newMentions
       newQuote expectsReadConfirmation,
       sendEditedText stripLinkPreview env instanceId conversationId
         originalMessageId newMessageText newLinkPreview newMentions newQuote
         expectsReadConfirmation s
       = (Thrown not_found, s))
  ∧ (∀ conversationId firstMessageId moreMessageIds,
       sendConfirmationDelivered env instanceId conversationId firstMessageId
         moreMessageIds s = (Thrown not_found, s)
       ∧ sendConfirmationRead env instanceId conversationId firstMessageId
           moreMessageIds s = (Thrown not_found, s)
       ∧ sendEphemeralConfirmationDelivered env instanceId conversationId
           firstMessageId moreMessageIds s = (Thrown not_found, s)
       ∧ sendEphemeralConfirmationRead env instanceId conversationId
           firstMessageId moreMessageIds s = (Thrown not_found, s))
  ∧ (∀ conversationId location expireAfterMillis,
       sendLocation env builder instanceId conversationId location
         expireAfterMillis s = (Thrown not_found, s))
  ∧ (∀ conversationId expectsReadConfirmation expireAfterMillis,
       sendPing env builder instanceId conversationId expectsReadConfirmation
         expireAfterMillis s = (Thrown not_found, s))
  ∧ (∀ conversationId originalMessageId type,
       sendReaction env builder instanceId conversationId originalMessageId type s
       = (Thrown not_found, s))
  ∧ (∀ conversationId,
       resetSession env builder instanceId conversationId s = (Thrown not_found, s)).
Proof.
  intros Hpeek not_found.
  split_and!; intros; repeat split;
    by apply bind_getInstance_unregistered.
Qed.

Lemma cached_messages_get key key' i :
  cached key' (messages_get key i).2 = cached key' i.
Proof.
  rewrite messages_get_snd. unfold cached. simpl. by rewrite peek_get.
Qed.

Lemma messages_get_front key i :
  is_Some (cached key i) →
  head (LRUCache.keys (Instance.messages (messages_get key i).2)) = Some key.
Proof.
  intros [m Hm]. rewrite messages_get_snd. unfold cached in Hm.
  unfold LRUCache.get.
  destruct (LRUCache.peek key (Instance.messages i)) as [r|]; [done|discriminate].
Qed.

Lemma throws_untouched_after_lookup {A} instanceId (m : M A) s e :
  m s = (Thrown e,
         set_cachedInstances (LRUCache.get instanceId (cachedInstances s)).2 s) →
  throws_untouched m s e.
Proof.
  intros Hrun. unfold throws_untouched. rewrite Hrun.
  split_and!; [done..|]. apply same_instances_get.
Qed.

(** X13: a method given an instance whose account has no service throws
    before it asks anything of the Messaging Client.  The sending
    methods name the instance in the error, [getMessages] does not;
    these leave every instance as it was.  The ephemeral confirmations
    look the first message up before they check the service: they get
    this far only for a cached first message, and the lookup has by
    then made it the most recently used message of the instance, so
    the instance holds the same messages under the same keys in another
    order; the other instances are as they were. *)
Theorem account_without_service_is_reported (instanceId : string)
    (instance : Instance.t) (s : State) :
  LRUCache.peek instanceId (cachedInstances s) = Some instance →
  Account.service (Instance.account instance) = false →
  let not_set :=
    Error ("Account service for instance " +:+ instanceId +:+ " not set.") in
  (∀ conversationId,
     throws_untouched (getMessages instanceId conversationId) s
       (Error "Account service not set."))
  ∧ (∀ conversationId message linkPreview mentions quote expectsReadConfirmation
       expireAfterMillis,
       throws_untouched
         (sendText stripLinkPreview env instanceId conversationId message
            linkPreview mentions quote expectsReadConfirmation expireAfterMillis)
         s not_set)
  ∧ (∀ conversationId originalMessageId newMessageText newLinkPreview newMentions
       newQuote expectsReadConfirmation,
       throws_untouched
         (sendEditedText stripLinkPreview env instanceId conversationId
            originalMessageId newMessageText newLinkPreview newMentions newQuote
            expectsReadConfirmation)
         s not_set)
  ∧ (∀ conversationId firstMessageId moreMessageIds,
       throws_untouched
         (sendConfirmationDelivered env instanceId conversationId firstMessageId
            moreMessageIds) s not_set
       ∧ throws_untouched
           (sendConfirmationRead env instanceId conversationId firstMessageId
              moreMessageIds) s not_set)
  ∧ (∀ type conversationId firstMessageId moreMessageIds,
       is_Some (cached firstMessageId instance) →
       let outcome :=
         sendEphemeralConfirmation env type instanceId conversationId
           firstMessageId moreMessageIds s in
       let looked_up := (messages_get firstMessageId instance).2 in
       outcome.1 = Thrown not_set
       ∧ calls outcome.2 = calls s
       ∧ LRUCache.peek instanceId (cachedInstances outcome.2) = Some looked_up
       ∧ head (LRUCache.keys (Instance.messages looked_up)) = Some firstMessageId
       ∧ (∀ key, cached key looked_up = cached key instance)
       ∧ (∀ other, other ≠ instanceId →
            LRUCache.peek other (cachedInstances outcome.2)
            = LRUCache.peek other (cachedInstances s)))
  ∧ (∀ conversationId location expireAfterMillis,
       throws_untouched
         (sendLocation env builder instanceId conversationId location
            expireAfterMillis) s not_set)
  ∧ (∀ conversationId expectsReadConfirmation expireAfterMillis,
       throws_untouched
         (sendPing env builder instanceId conversationId expectsReadConfirmation
            expireAfterMillis) s not_set)
  ∧ (∀ conversationId originalMessageId type,
       throws_untouched
         (sendReaction env builder instanceId conversationId originalMessageId
            type) s not_set)
  ∧ (∀ conversationId,
       throws_untouched (resetSession env builder instanceId conversationId) s
         not_set).
Proof.
  intros Hpeek Hservice not_set.
  assert (Hephemeral : ∀ type conversationId firstMessageId moreMessageIds,
    is_Some (cached firstMessageId instance) →
    let outcome :=
      sendEphemeralConfirmation env type instanceId conversationId
        firstMessageId moreMessageIds s in
    let looked_up := (messages_get firstMessageId instance).2 in
    outcome.1 = Thrown not_set
    ∧ calls outcome.2 = calls s
    ∧ LRUCache.peek instanceId (cachedInstances outcome.2) = Some looked_up
    ∧ head (LRUCache.keys (Instance.messages looked_up)) = Some firstMessageId
    ∧ (∀ key, cached key looked_up = cached key instance)
    ∧ (∀ other, other ≠ instanceId →
         LRUCache.peek other (cachedInstances outcome.2)
         = LRUCache.peek other (cachedInstances s))).
  { intros type conversationId firstMessageId moreMessageIds Hcached outcome
      looked_up.
    pose proof (messages_get_front firstMessageId instance Hcached) as Hfront.
    pose proof (λ key, cached_messages_get firstMessageId key instance) as Hsame.
    destruct Hcached as [m Hm].
    subst outcome looked_up. unfold sendEphemeralConfirmation.
    rewrite (bind_getInstance_registered _ instance) by done.
    destruct (messages_get_cached _ _ _ Hm) as [r Hget].
    pose proof (messages_get_snd firstMessageId instance) as Hsnd.
    destruct (messages_get firstMessageId instance) as [message instance1].
    cbn [fst snd] in Hget, Hsnd, Hfront, Hsame |- *. subst message.
    assert (Haccount : Account.service (Instance.account instance1) = false)
      by (by subst instance1).
    unfold bind, store_instance. cbn [fst snd]. rewrite Haccount.
    unfold service_not_set, throw.
    cbn [fst snd calls cachedInstances set_cachedInstances].
    split_and!; [done|done| |exact Hfront|intros key; apply Hsame|].
    - by rewrite peek_mutate_eq, peek_get, Hpeek.
    - intros other Hne. rewrite peek_mutate_ne by done. apply peek_get. }
  split_and!; try exact Hephemeral; intros;
    try lazymatch goal with |- _ ∧ _ => split end.
  all: apply (throws_untouched_after_lookup instanceId).
  all: try unfold getMessages; try unfold sendText; try unfold sendEditedText;
    try unfold sendConfirmationDelivered; try unfold sendConfirmationRead;
    try unfold sendConfirmation; try unfold sendLocation; try unfold sendPing;
    try unfold sendReaction; try unfold resetSession; cbv beta zeta.
  all: rewrite (bind_getInstance_registered _ instance) by done.
  all: by rewrite Hservice.
Qed.
End MethodFacts.

(** ** What the sending methods cache *)
Section SendFacts.
Variable stripLinkPreview : LinkPreviewContent.t → LinkPreviewContent.t.
Variable env : Collaborators.
Variable builder : MessageBuilder.

Ltac run_send :=
  unfold bind, ask, await, await_unit, store_instance, service_not_set, throw, ret;
  cbn [fst snd calls cachedInstances record_call set_cachedInstances maximumInstances].

Ltac failed_send instanceId s :=
  cbv beta zeta;
  destruct (LRUCache.peek instanceId (cachedInstances s)) as [instance|] eqn:Hpeek;
  [ rewrite (bind_getInstance_registered _ instance) by done;
    destruct (Account.service (Instance.account instance));
    run_send;
    repeat (match goal with
            | |- context [match ?o with inl _ => _ | inr _ => _ end] =>
                destruct o; run_send
            | |- context [match ?o with Some _ => _ | None => _ end] =>
                destruct o; run_send
            end);
    first [ discriminate | intros _ k; simpl; apply peek_get ]
  | rewrite bind_getInstance_unregistered by done; by intros _ k ].

(** X14: a send that throws, for whatever reason (unknown instance, no
    account service, a rejected send or a rejected link preview),
    caches nothing: every registered instance is as it was.  This holds
    for [sendText], [sendEditedText], [sendLocation] and [sendPing]. *)
Theorem failed_send_caches_nothing (instanceId conversationId : string)
    (s : State) (e : JsError) :
  (∀ message linkPreview mentions quote expectsReadConfirmation expireAfterMillis,
     let outcome :=
       sendText stripLinkPreview env instanceId conversationId message linkPreview
         mentions quote expectsReadConfirmation expireAfterMillis s in
     outcome.1 = Thrown e → same_instances s outcome.2)
  ∧ (∀ originalMessageId newMessageText newLinkPreview newMentions newQuote
       expectsReadConfirmation,
       let outcome :=
         sendEditedText stripLinkPreview env instanceId conversationId
           originalMessageId newMessageText newLinkPreview newMentions newQuote
           expectsReadConfirmation s in
       outcome.1 = Thrown e → same_instances s outcome.2)
  ∧ (∀ location expireAfterMillis,
       let outcome :=
         sendLocation env builder instanceId conversationId location
           expireAfterMillis s in
       outcome.1 = Thrown e → same_instances s outcome.2)
  ∧ (∀ expectsReadConfirmation expireAfterMillis,
       let outcome :=
         sendPing env builder instanceId conversationId expectsReadConfirmation
           expireAfterMillis s in
       outcome.1 = Thrown e → same_instances s outcome.2).
Proof.
  split_and!; intros; subst outcome;
    match goal with Hthrown : _ = Thrown _ |- _ => revert Hthrown end.
  - unfold sendText. failed_send instanceId s.
  - unfold sendEditedText. failed_send instanceId s.
  - unfold sendLocation. failed_send instanceId s.
  - unfold sendPing. failed_send instanceId s.
Qed.

(** X15: [sendText] with a link preview sends the text first and builds the
    preview afterwards: when the preview is rejected the method throws
    the rejection and caches nothing, although the text has gone out. *)
Theorem sendText_rejected_link_preview (instanceId conversationId message : string)
    (linkPreview : LinkPreviewContent.t) (mentions : option (list MentionContent.t))
    (quote : option QuoteContent.t) (expectsReadConfirmation : option bool)
    (expireAfterMillis : option N) (s : State) (instance : Instance.t)
    (sent : MessagePayload.t) (error : JsError) :
  let account := Instance.account instance in
  let timer :=
    setMessageLevelTimer_call account conversationId (default 0%N expireAfterMillis) in
  let payload :=
    createText env (calls s ++ [timer]) account
      (TextArguments.mk conversationId message None None mentions quote
         expectsReadConfirmation) in
  LRUCache.peek instanceId (cachedInstances s) = Some instance →
  Account.service account = true →
  send env (calls s ++ [timer]) account payload = inr sent →
  createLinkPreview env ((calls s ++ [timer]) ++ [send_call account payload])
    account linkPreview = inl error →
  let outcome :=
    sendText stripLinkPreview env instanceId conversationId message
      (Some linkPreview) mentions quote expectsReadConfirmation expireAfterMillis s in
  outcome.1 = Thrown error
  ∧ calls outcome.2
    = calls s ++ [timer; send_call account payload;
                  createLinkPreview_call account linkPreview]
  ∧ same_instances s outcome.2.
Proof.
  intros account timer payload Hpeek Hservice Hsend Hpreview outcome.
  subst outcome. unfold sendText. cbv beta zeta.
  rewrite (bind_getInstance_registered _ instance) by done.
  fold account. rewrite Hservice. run_send. fold timer. fold payload.
  rewrite Hsend. run_send. rewrite Hpreview. run_send.
  split_and!; [done| |intros k; simpl; apply peek_get].
  by rewrite <-!app_assoc.
Qed.

(** X16: [sendConfirmationDelivered] and [sendConfirmationRead] send one
    confirmation bundle, of type 0 and 1, and return the name of the
    instance.  They do not look the confirmed message up: it need not be
    cached, and the message caches are left as they were. *)
Theorem sendConfirmation_sends_without_lookup
    (instanceId conversationId firstMessageId : string)
    (moreMessageIds : option (list string)) (s : State) (instance : Instance.t)
    (sentDelivered sentRead : MessagePayload.t) :
  let account := Instance.account instance in
  let payload type :=
    createConfirmation env (calls s) account conversationId firstMessageId type
      moreMessageIds in
  LRUCache.peek instanceId (cachedInstances s) = Some instance →
  Account.service account = true →
  send env (calls s) account (payload 0) = inr sentDelivered →
  send env (calls s) account (payload 1) = inr sentRead →
  let delivered :=
    sendConfirmationDelivered env instanceId conversationId firstMessageId
      moreMessageIds s in
  let read :=
    sendConfirmationRead env instanceId conversationId firstMessageId
      moreMessageIds s in
  delivered.1 = Returned (Instance.name instance)
  ∧ calls delivered.2 = calls s ++ [send_call account (payload 0)]
  ∧ same_instances s delivered.2
  ∧ read.1 = Returned (Instance.name instance)
  ∧ calls read.2 = calls s ++ [send_call account (payload 1)]
  ∧ same_instances s read.2.
Proof.
  intros account payload Hpeek Hservice Hdelivered Hread delivered read.
  assert (Hrun : ∀ type sent,
    send env (calls s) account (payload type) = inr sent →
    let outcome :=
      sendConfirmation env type instanceId conversationId firstMessageId
        moreMessageIds s in
    outcome.1 = Returned (Instance.name instance)
    ∧ calls outcome.2 = calls s ++ [send_call account (payload type)]
    ∧ same_instances s outcome.2).
  { intros type sent Hsent outcome. subst outcome. unfold sendConfirmation.
    rewrite (bind_getInstance_registered _ instance) by done.
    fold account. rewrite Hservice. run_send. fold (payload type).
    rewrite Hsent. run_send.
    split_and!; [done..|]. intros k. simpl. apply peek_get. }
  destruct (Hrun 0 _ Hdelivered) as (? & ? & ?).
  destruct (Hrun 1 _ Hread) as (? & ? & ?).
  done.
Qed.

(** X17: [sendLocation] and [sendPing] set the message timer of the
    conversation (to 0 when no expiry is given), send the bundle the
    builder made and cache what [send] resolved to under that bundle's
    id, which they return. *)
Theorem sendLocation_and_sendPing_cache_what_was_sent
    (instanceId conversationId : string) (location : Opaque)
    (expectsReadConfirmation : option bool) (expireAfterMillis : option N)
    (s : State) (instance : Instance.t) (sentLocation sentPing : MessagePayload.t) :
  let account := Instance.account instance in
  let timer :=
    setMessageLevelTimer_call account conversationId (default 0%N expireAfterMillis) in
  let locationPayload :=
    createLocation builder (calls s ++ [timer]) account conversationId location in
  let pingPayload :=
    createPing builder (calls s ++ [timer]) account conversationId
      expectsReadConfirmation in
  LRUCache.peek instanceId (cachedInstances s) = Some instance →
  Account.service account = true →
  send env (calls s ++ [timer]) account locationPayload = inr sentLocation →
  send env (calls s ++ [timer]) account pingPayload = inr sentPing →
  let located :=
    sendLocation env builder instanceId conversationId location expireAfterMillis s in
  let pinged :=
    sendPing env builder instanceId conversationId expectsReadConfirmation
      expireAfterMillis s in
  located.1 = Returned (MessagePayload.id sentLocation)
  ∧ calls located.2 = calls s ++ [timer; send_call account locationPayload]
  ∧ LRUCache.peek instanceId (cachedInstances located.2)
    = Some (messages_set (MessagePayload.id sentLocation) sentLocation instance)
  ∧ pinged.1 = Returned (MessagePayload.id sentPing)
  ∧ calls pinged.2 = calls s ++ [timer; send_call account pingPayload]
  ∧ LRUCache.peek instanceId (cachedInstances pinged.2)
    = Some (messages_set (MessagePayload.id sentPing) sentPing instance).
Proof.
  intros account timer locationPayload pingPayload Hpeek Hservice Hlocation Hping
    located pinged.
  subst located pinged. unfold sendLocation, sendPing. cbv beta zeta.
  rewrite !(bind_getInstance_registered _ instance) by done.
  fold account. rewrite Hservice. run_send.
  fold timer. fold locationPayload. fold pingPayload.
  rewrite Hlocation, Hping. run_send.
  rewrite <-!app_assoc. split_and!; try done.
  all: by rewrite peek_mutate_eq, peek_get, Hpeek.
Qed.

(** X18: [sendReaction] and [resetSession] send the bundle the builder made
    and return the id of what [send] resolved to; unlike the other
    sends they cache nothing. *)
Theorem sendReaction_and_resetSession_cache_nothing
    (instanceId conversationId originalMessageId : string) (type : ReactionType.t)
    (s : State) (instance : Instance.t) (sentReaction sentReset : MessagePayload.t) :
  let account := Instance.account instance in
  let reactionPayload :=
    createReaction builder (calls s) account conversationId originalMessageId type in
  let resetPayload := createSessionReset builder (calls s) account conversationId in
  LRUCache.peek instanceId (cachedInstances s) = Some instance →
  Account.service account = true →
  send env (calls s) account reactionPayload = inr sentReaction →
  send env (calls s) account resetPayload = inr sentReset →
  let reacted :=
    sendReaction env builder instanceId conversationId originalMessageId type s in
  let reset := resetSession env builder instanceId conversationId s in
  reacted.1 = Returned (MessagePayload.id sentReaction)
  ∧ calls reacted.2 = calls s ++ [send_call account reactionPayload]
  ∧ same_instances s reacted.2
  ∧ reset.1 = Returned (MessagePayload.id sentReset)
  ∧ calls reset.2 = calls s ++ [send_call account resetPayload]
  ∧ same_instances s reset.2.
Proof.
  intros account reactionPayload resetPayload Hpeek Hservice Hreaction Hreset
    reacted reset.
  subst reacted reset. unfold sendReaction, resetSession.
  rewrite !(bind_getInstance_registered _ instance) by done.
  fold account. rewrite Hservice. run_send.
  fold reactionPayload. fold resetPayload.
  rewrite Hreaction, Hreset. run_send.
  split_and!; try done.
  all: intros k; simpl; apply peek_get.
Qed.

Ltac sent_and_cached instance Hpeek :=
  cbv beta zeta;
  rewrite (bind_getInstance_registered _ instance) by done;
  destruct (Account.service (Instance.account instance));
  run_send;
  repeat (match goal with
          | |- context [match ?o with inl _ => _ | inr _ => _ end] =>
              destruct o; run_send
          | |- context [match ?o with Some _ => _ | None => _ end] =>
              destruct o; run_send
          end);
  try discriminate;
  intros [= <- <-];
  (eexists; split;
   [ cbn [cachedInstances record_call set_cachedInstances];
     by rewrite peek_mutate_eq, peek_get, Hpeek
   | split; [by apply messages_set_well_formed
            | eexists; split; [apply cached_messages_set_eq | done]] ]).

(** X19: [sendText], [sendLocation] and [sendPing] keep the message cache of
    the instance well formed: what they cache goes under its own id,
    the id they return. *)
Theorem sending_keeps_cache_well_formed (instanceId conversationId : string)
    (s : State) (instance : Instance.t) :
  LRUCache.peek instanceId (cachedInstances s) = Some instance →
  well_formed instance →
  let kept (messageId : string) (s1 : State) :=
    ∃ instance',
      LRUCache.peek instanceId (cachedInstances s1) = Some instance'
      ∧ well_formed instance'
      ∧ ∃ m, cached messageId instance' = Some m ∧ MessagePayload.id m = messageId in
  (∀ message linkPreview mentions quote expectsReadConfirmation expireAfterMillis
     messageId s1,
     sendText stripLinkPreview env instanceId conversationId message linkPreview
       mentions quote expectsReadConfirmation expireAfterMillis s
     = (Returned messageId, s1) →
     kept messageId s1)
  ∧ (∀ location expireAfterMillis messageId s1,
       sendLocation env builder instanceId conversationId location
         expireAfterMillis s = (Returned messageId, s1) →
       kept messageId s1)
  ∧ (∀ expectsReadConfirmation expireAfterMillis messageId s1,
       sendPing env builder instanceId conversationId expectsReadConfirmation
         expireAfterMillis s = (Returned messageId, s1) →
       kept messageId s1).
Proof.
  intros Hpeek Hwf kept. subst kept. split_and!; intros *.
  - unfold sendText. sent_and_cached instance Hpeek.
  - unfold sendLocation. sent_and_cached instance Hpeek.
  - unfold sendPing. sent_and_cached instance Hpeek.
Qed.

(** *** Ephemeral confirmations *)

Lemma deletions_messages_get account conversationId key i ids :
  deletions account conversationId (messages_get key i).2 ids
  = deletions account conversationId i ids.
Proof.
  unfold deletions. induction ids as [|id ids IH]; [done|].
  cbn [omap list_omap]. by rewrite cached_messages_get, IH.
Qed.

Lemma deletions_cons account conversationId i messageId m ids :
  cached messageId i = Some m →
  deletions account conversationId i (messageId :: ids)
  = deleteMessageEveryone_call account conversationId messageId
      [MessagePayload.from m]
    :: deletions account conversationId i ids.
Proof. intros Hm. unfold deletions. cbn [omap list_omap]. by rewrite Hm. Qed.

(** The loop over the further ids, when each of them is cached and
    every deletion is accepted. *)
Lemma delete_further_messages_run instanceId conversationId firstMessageId ids :
  ∀ instance s,
    (∀ h messageId recipients,
       deleteMessageEveryone env h (Instance.account instance) conversationId
         messageId recipients = None) →
    Forall (λ messageId, is_Some (cached messageId instance)) ids →
    ∃ s',
      delete_further_messages env instanceId conversationId firstMessageId ids
        instance s = (Returned (), s')
      ∧ calls s' =
        calls s ++ deletions (Instance.account instance) conversationId instance ids.
Proof.
  induction ids as [|messageId ids IH]; intros instance s Haccept Hcached.
  - exists s. simpl. by rewrite app_nil_r.
  - apply Forall_cons in Hcached as [[m Hm] Hcached].
    destruct (messages_get_cached _ _ _ Hm) as [r Hget].
    pose proof (messages_get_snd messageId instance) as Hsnd.
    pose proof (deletions_messages_get (Instance.account instance) conversationId
                  messageId instance ids) as Hdeletions.
    assert (Hcached' : Forall (λ id, is_Some (cached id (messages_get messageId instance).2)) ids).
    { eapply Forall_impl; [exact Hcached|]. intros id. simpl.
      by rewrite cached_messages_get. }
    cbn [delete_further_messages].
    destruct (messages_get messageId instance) as [found instance1].
    simpl in Hget, Hsnd, Hdeletions, Hcached'. subst found.
    assert (Haccount : Instance.account instance1 = Instance.account instance)
      by (by subst instance1).
    run_send. rewrite Haccount, Haccept. run_send.
    destruct (IH instance1
                (record_call
                   (deleteMessageEveryone_call (Instance.account instance)
                      conversationId messageId [MessagePayload.from m])
                   (set_cachedInstances
                      (LRUCache.mutate instanceId (λ _, instance1)
                         (cachedInstances s)) s)))
      as (s' & Hrun & Hcalls).
    { intros. rewrite Haccount. apply Haccept. }
    { exact Hcached'. }
    exists s'. split.
    + rewrite <-Hrun. clear. by destruct instance1.
    + rewrite Hcalls. cbn [calls record_call set_cachedInstances].
      rewrite Haccount, Hdeletions, (deletions_cons _ _ _ _ m) by done.
      by rewrite <-app_assoc.
Qed.

(** X20: an ephemeral confirmation whose messages are all cached sends the
    confirmation bundle first and then asks, message by message in the
    order given, for the first and the further messages to be deleted
    for everyone, each request addressed to the sender of the cached
    message; it returns the name of the instance. *)
Theorem ephemeral_confirmation_confirms_then_deletes (type : nat)
    (instanceId conversationId firstMessageId : string)
    (moreMessageIds : option (list string)) (s : State) (instance : Instance.t)
    (sent : MessagePayload.t) :
  let account := Instance.account instance in
  let confirmationPayload :=
    createConfirmation env (calls s) account conversationId firstMessageId type
      moreMessageIds in
  LRUCache.peek instanceId (cachedInstances s) = Some instance →
  Account.service account = true →
  Forall (λ messageId, is_Some (cached messageId instance))
    (firstMessageId :: default [] moreMessageIds) →
  send env (calls s) account confirmationPayload = inr sent →
  (∀ h messageId recipients,
     deleteMessageEveryone env h account conversationId messageId recipients
     = None) →
  let outcome :=
    sendEphemeralConfirmation env type instanceId conversationId firstMessageId
      moreMessageIds s in
  outcome.1 = Returned (Instance.name instance)
  ∧ calls outcome.2
    = calls s ++ send_call account confirmationPayload
              :: deletions account conversationId instance
                   (firstMessageId :: default [] moreMessageIds).
Proof.
  intros account confirmationPayload Hpeek Hservice Hcached Hsend Haccept outcome.
  subst outcome. unfold sendEphemeralConfirmation.
  rewrite (bind_getInstance_registered _ instance) by done.
  apply Forall_cons in Hcached as [[m Hm] Hcached].
  destruct (messages_get_cached _ _ _ Hm) as [r Hget].
  pose proof (messages_get_snd firstMessageId instance) as Hsnd.
  pose proof (deletions_messages_get account conversationId firstMessageId
                instance (default [] moreMessageIds)) as Hdeletions.
  assert (Hcached' : Forall (λ id, is_Some (cached id (messages_get firstMessageId instance).2))
                       (default [] moreMessageIds)).
  { eapply Forall_impl; [exact Hcached|]. intros id. simpl.
    by rewrite cached_messages_get. }
  destruct (messages_get firstMessageId instance) as [found instance1].
  simpl in Hget, Hsnd, Hdeletions, Hcached'. subst found.
  assert (Haccount : Instance.account instance1 = account) by (by subst instance1).
  assert (Hname : Instance.name instance1 = Instance.name instance)
    by (by subst instance1).
  run_send. rewrite Haccount, Hservice. run_send.
  fold confirmationPayload. rewrite Hsend. run_send. rewrite Haccept. run_send.
  rewrite (deletions_cons _ _ _ _ m) by done.
  destruct moreMessageIds as [[|messageId rest]|].
  1, 3: by simpl; rewrite Hname, <-app_assoc.
  change (default [] (Some (messageId :: rest))) with (messageId :: rest) in *.
  cbv beta iota.
  match goal with
  | |- context [delete_further_messages _ _ _ _ ?ids ?i ?s0] =>
      destruct (delete_further_messages_run instanceId conversationId
                  firstMessageId ids i s0) as (s' & Hrun & Hcalls)
  end.
  { intros. rewrite Haccount. apply Haccept. }
  { exact Hcached'. }
  rewrite Hrun. simpl. rewrite Hname. split; [done|].
  rewrite Hcalls. cbn [calls record_call set_cachedInstances].
  rewrite Haccount, Hdeletions. by rewrite <-!app_assoc.
Qed.

(** X21: when a further id of an ephemeral confirmation is not cached, the
    method throws the not-found error, and the error names the first
    message, not the one that is missing.  By then the confirmation has
    been sent and the first message deleted for everyone. *)
Theorem ephemeral_confirmation_unknown_further_message (type : nat)
    (instanceId conversationId firstMessageId missing : string)
    (rest : list string) (s : State) (instance : Instance.t)
    (first sent : MessagePayload.t) :
  let account := Instance.account instance in
  let moreMessageIds := Some (missing :: rest) in
  let confirmationPayload :=
    createConfirmation env (calls s) account conversationId firstMessageId type
      moreMessageIds in
  let deletion :=
    deleteMessageEveryone_call account conversationId firstMessageId
      [MessagePayload.from first] in
  LRUCache.peek instanceId (cachedInstances s) = Some instance →
  Account.service account = true →
  cached firstMessageId instance = Some first →
  cached missing instance = None →
  send env (calls s) account confirmationPayload = inr sent →
  deleteMessageEveryone env (calls s ++ [send_call account confirmationPayload])
    account conversationId firstMessageId [MessagePayload.from first] = None →
  let outcome :=
    sendEphemeralConfirmation env type instanceId conversationId firstMessageId
      moreMessageIds s in
  outcome.1 = Thrown (message_not_found firstMessageId)
  ∧ calls outcome.2 = calls s ++ [send_call account confirmationPayload; deletion].
Proof.
  intros account moreMessageIds confirmationPayload deletion Hpeek Hservice Hfirst
    Hmissing Hsend Hdelete outcome.
  subst outcome. unfold sendEphemeralConfirmation.
  rewrite (bind_getInstance_registered _ instance) by done.
  destruct (messages_get_cached _ _ _ Hfirst) as [r Hget].
  pose proof (messages_get_snd firstMessageId instance) as Hsnd.
  pose proof (cached_messages_get firstMessageId missing instance) as Hmissing'.
  rewrite Hmissing in Hmissing'. apply messages_get_None in Hmissing'.
  destruct (messages_get firstMessageId instance) as [found instance1].
  simpl in Hget, Hsnd, Hmissing'. subst found.
  assert (Haccount : Instance.account instance1 = account) by (by subst instance1).
  run_send. rewrite Haccount, Hservice. run_send.
  fold confirmationPayload. rewrite Hsend. run_send. rewrite Hdelete. run_send.
  subst moreMessageIds. cbn [delete_further_messages].
  destruct (messages_get missing instance1) as [further instance2].
  simpl in Hmissing'. subst further. run_send.
  split; [done|]. by rewrite <-app_assoc.
Qed.
End SendFacts.

(** ** Events, queries and the registry over time *)
Section StreamFacts.
Variable isAssetContent : Content → bool.
Variable stripAsset : AssetContent.t → AssetContent.t.
Variable stripLinkPreview : LinkPreviewContent.t → LinkPreviewContent.t.
Variable env : Collaborators.

Lemma touched_refl (i : Instance.t) :
  i = Instance.set_messages (Instance.messages i)
        (Instance.set_objects (Instance.objects i) i).
Proof. by destruct i. Qed.

Lemma clear_walk_touched conversationId nodes : ∀ i,
  ∃ c o, clear_walk conversationId nodes i
         = Instance.set_messages c (Instance.set_objects o i).
Proof.
  induction nodes as [|[key r] nodes IH]; intros i; simpl.
  - eexists _, _. apply touched_refl.
  - destruct (LRUCache.peek key (Instance.messages i)); [|apply IH].
    destruct (Instance.objects i !! r) as [message|]; [|apply IH].
    case_decide; [|apply IH].
    destruct (IH (messages_delete (MessagePayload.id message) i)) as (c & o & ->).
    exists c, o. by destruct i.
Qed.

Lemma confirm_touched record key i :
  ∃ c o, confirm record key i = Instance.set_messages c (Instance.set_objects o i).
Proof.
  unfold confirm. pose proof (messages_get_snd key i) as Hsnd.
  destruct (messages_get key i) as [[[r m]|] i1]; simpl in Hsnd; subst i1.
  - destruct i. by eexists _, _.
  - destruct i. by eexists _, _.
Qed.

Lemma foldl_confirm_touched record (keys : list string) : ∀ i,
  ∃ c o, foldl (λ i key, confirm record key i) i keys
         = Instance.set_messages c (Instance.set_objects o i).
Proof.
  induction keys as [|key keys IH]; intros i; simpl.
  - eexists _, _. apply touched_refl.
  - destruct (confirm_touched record key i) as (c1 & o1 & ->).
    destruct (IH (Instance.set_messages c1 (Instance.set_objects o1 i)))
      as (c & o & ->).
    exists c, o. by destruct i.
Qed.

Lemma project_touched payload i :
  ∃ c o, project isAssetContent stripAsset stripLinkPreview payload i
         = Instance.set_messages c (Instance.set_objects o i).
Proof.
  unfold project.
  destruct (MessagePayload.content payload) as
    [c|c|c|c|c|c|c|c|c|c|c|kind c].
  - unfold on_TEXT, messages_set. destruct i. by eexists _, _.
  - unfold on_ASSET. pose proof (messages_get_snd (MessagePayload.id payload) i) as Hsnd.
    destruct (messages_get (MessagePayload.id payload) i) as [found i1].
    simpl in Hsnd. subst i1. unfold messages_set. destruct i. by eexists _, _.
  - unfold messages_set. destruct i. by eexists _, _.
  - unfold messages_set. destruct i. by eexists _, _.
  - unfold on_MESSAGE_EDIT, messages_delete, messages_set. destruct i.
    by eexists _, _.
  - apply clear_walk_touched.
  - unfold messages_set. destruct i. by eexists _, _.
  - unfold messages_delete. destruct i. by eexists _, _.
  - unfold messages_delete. destruct i. by eexists _, _.
  - unfold messages_set. destruct i. by eexists _, _.
  - unfold on_CONFIRMATION.
    destruct (confirm_touched
                (ConfirmationWithSender.mk c (MessagePayload.from payload))
                (ConfirmationContent.firstMessageId c) i) as (c1 & o1 & ->).
    destruct (ConfirmationContent.moreMessageIds c) as [more|].
    + destruct (foldl_confirm_touched
                  (ConfirmationWithSender.mk c (MessagePayload.from payload))
                  (array_keys more)
                  (Instance.set_messages c1 (Instance.set_objects o1 i)))
        as (c2 & o2 & ->).
      exists c2, o2. by destruct i.
    + by exists c1, o1.
  - exists (Instance.messages i), (Instance.objects i). apply touched_refl.
Qed.

(** X22: whatever an event is, the listeners change nothing of the instance
    but its message cache: the account, the backend, the client, the
    engine, the id and the name stay. *)
Theorem events_change_the_message_cache_only (payload : MessagePayload.t)
    (i : Instance.t) :
  let i' := project isAssetContent stripAsset stripLinkPreview payload i in
  Instance.account i' = Instance.account i
  ∧ Instance.backendType i' = Instance.backendType i
  ∧ Instance.client i' = Instance.client i
  ∧ Instance.engine i' = Instance.engine i
  ∧ Instance.id i' = Instance.id i
  ∧ Instance.name i' = Instance.name i.
Proof.
  intros i'. subst i'. by destruct (project_touched payload i) as (c & o & ->).
Qed.

Lemma peek_emit_eq instanceId payload s :
  LRUCache.peek instanceId (cachedInstances (emit isAssetContent stripAsset stripLinkPreview instanceId payload s))
  = project isAssetContent stripAsset stripLinkPreview payload
    <$> LRUCache.peek instanceId (cachedInstances s).
Proof. unfold emit. simpl. apply peek_mutate_eq. Qed.

Lemma peek_emit_ne instanceId other payload s :
  instanceId ≠ other →
  LRUCache.peek other (cachedInstances (emit isAssetContent stripAsset stripLinkPreview instanceId payload s))
  = LRUCache.peek other (cachedInstances s).
Proof. intros Hne. unfold emit. simpl. by apply peek_mutate_ne. Qed.

(** X23: a stream of events emitted by the account of a registered instance
    whose message cache is well formed leaves it well formed, with the
    account it had; the other instances are as they were and nothing is
    asked of the Messaging Client. *)
Theorem event_stream_keeps_cache_well_formed (instanceId : string)
    (instance : Instance.t) (events : list MessagePayload.t) (s : State) :
  LRUCache.peek instanceId (cachedInstances s) = Some instance →
  well_formed instance →
  let s' :=
    foldl (λ s payload,
             emit isAssetContent stripAsset stripLinkPreview instanceId payload s)
          s events in
  (∃ instance',
     LRUCache.peek instanceId (cachedInstances s') = Some instance'
     ∧ well_formed instance'
     ∧ Instance.account instance' = Instance.account instance)
  ∧ (∀ other, other ≠ instanceId →
       LRUCache.peek other (cachedInstances s')
       = LRUCache.peek other (cachedInstances s))
  ∧ calls s' = calls s.
Proof.
  revert instance s. induction events as [|payload events IH];
    intros instance s Hpeek Hwf s'; subst s'.
  - simpl. split_and!; [|done..]. by exists instance.
  - simpl.
    destruct (IH (project isAssetContent stripAsset stripLinkPreview payload instance)
                (emit isAssetContent stripAsset stripLinkPreview instanceId payload s))
      as ((instance' & Hpeek' & Hwf' & Haccount) & Hothers & Hcalls).
    { by rewrite peek_emit_eq, Hpeek. }
    { by apply project_well_formed. }
    split_and!.
    + exists instance'. split_and!; [done..|]. rewrite Haccount.
      by destruct (project_touched payload instance) as (c & o & ->).
    + intros other Hne. rewrite Hothers by done. by apply peek_emit_ne.
    + by rewrite Hcalls.
Qed.

(** X24: what an instance received is what it lists: after a text,
    asset-metadata, image, location or ping event for a registered
    instance with an account service, [getMessages] for the event's
    conversation returns the bundle (for text, with the link previews
    stripped), and only messages of that conversation. *)
Theorem received_message_is_listed (instanceId : string) (instance : Instance.t)
    (payload : MessagePayload.t) (s : State) :
  LRUCache.peek instanceId (cachedInstances s) = Some instance →
  Account.service (Instance.account instance) = true →
  plainly_stored (MessagePayload.content payload) →
  let stored :=
    MessagePayload.set_content
      (strip_linkPreviews stripLinkPreview (MessagePayload.content payload))
      payload in
  let s' := emit isAssetContent stripAsset stripLinkPreview instanceId payload s in
  ∃ listed,
    (getMessages instanceId (MessagePayload.conversation payload) s').1
    = Returned listed
    ∧ stored ∈ listed
    ∧ ∀ m, m ∈ listed →
           MessagePayload.conversation m = MessagePayload.conversation payload.
Proof.
  intros Hpeek Hservice Hplain stored s'.
  assert (Hi' : project isAssetContent stripAsset stripLinkPreview payload instance
                = messages_set (MessagePayload.id payload) stored instance).
  { subst stored. unfold project.
    destruct payload as [? content ? ? ? ? ? ?]. simpl in *.
    destruct content as [c| | | | | | | | | | |]; try done.
    unfold on_TEXT. simpl. by destruct (TextContent.linkPreviews c). }
  unfold getMessages.
  rewrite (bind_getInstance_registered _
             (messages_set (MessagePayload.id payload) stored instance)).
  2: { subst s'. by rewrite peek_emit_eq, Hpeek, <-Hi'. }
  replace (Account.service
             (Instance.account
                (messages_set (MessagePayload.id payload) stored instance)))
    with true by (by rewrite <-Hservice; destruct instance).
  eexists. split; [done|]. split.
  - change (MessagePayload.conversation payload)
      with (MessagePayload.conversation stored).
    apply (cached_conversationMessages (MessagePayload.id payload)).
    apply cached_messages_set_eq.
  - intros m Hm. by apply elem_of_conversationMessages in Hm as [Hm _].
Qed.

(** X25: [instanceExists] answers whether the id is registered, agrees with
    [getInstance] and leaves the state [getInstance] leaves: the
    instances are as they were, and an instance that was found has
    become the most recently used one. *)
Theorem instanceExists_agrees_with_getInstance (instanceId : string) (s : State) :
  ((instanceExists instanceId s).1 = true
   ↔ instanceId ∈ LRUCache.keys (cachedInstances s))
  ∧ ((instanceExists instanceId s).1 = true
     ↔ ∃ instance, (getInstance instanceId s).1 = Returned instance)
  ∧ (instanceExists instanceId s).2 = (getInstance instanceId s).2
  ∧ same_instances s (instanceExists instanceId s).2
  ∧ ((instanceExists instanceId s).1 = true →
     head (LRUCache.keys (cachedInstances (instanceExists instanceId s).2))
     = Some instanceId).
Proof.
  unfold instanceExists, getInstance, same_instances.
  pose proof (get_fst instanceId (cachedInstances s)) as Hfst.
  pose proof (λ k, peek_get instanceId k (cachedInstances s)) as Hpeek.
  pose proof (find_None instanceId (LRUCache.entries (cachedInstances s))) as Hnone.
  unfold LRUCache.get in *. fold (LRUCache.peek instanceId (cachedInstances s)) in Hnone.
  destruct (LRUCache.peek instanceId (cachedInstances s)) as [instance|];
    simpl in *.
  - split_and!; try done.
    + split; [|done]. intros _.
      destruct (decide (instanceId ∈ LRUCache.keys (cachedInstances s)))
        as [|Hnot]; [done|].
      apply Hnone in Hnot. discriminate.
    + split; eauto.
  - split_and!; try done.
    + split; [done|]. intros Hin. by apply (proj1 Hnone) in Hin.
    + split; [done|]. by intros [instance [=]].
Qed.
End StreamFacts.

(** ** The backend of an instance and the size of the registry *)
Section CreationFacts.
Variable isAssetContent : Content → bool.
Variable stripAsset : AssetContent.t → AssetContent.t.
Variable stripLinkPreview : LinkPreviewContent.t → LinkPreviewContent.t.
Variable env : Collaborators.

(** X26: a non-empty backend name decides the backend of the instance on its
    own: production for the names production and prod, staging for any
    other name, whatever custom backend the options carry; the instance
    and its API client are given that backend. *)
Theorem named_backend_overrides_custom_backend
    (options : InstanceCreationOptions.t) (name : string) :
  InstanceCreationOptions.backend options = Some name →
  truthy name = true →
  let chosen :=
    if bool_decide (name = "production" ∨ name = "prod")
    then BACKEND_PRODUCTION env else BACKEND_STAGING env in
  parseBackend env (backend_or_custom options) = chosen
  ∧ ∀ instanceId account,
      Instance.backendType (created_instance env options instanceId account) = chosen
      ∧ APIClient.urls (Instance.client (created_instance env options instanceId account))
        = chosen.
Proof.
  intros Hbackend Hname chosen.
  assert (Hchosen : parseBackend env (backend_or_custom options) = chosen).
  { subst chosen. unfold backend_or_custom. rewrite Hbackend, Hname. simpl.
    repeat case_decide; case_bool_decide; tauto. }
  split; [done|]. intros instanceId account. simpl. by rewrite Hchosen.
Qed.

Lemma length_unlink {V} key (l : list (string * V)) :
  length (LRUCache.unlink key l) ≤ length l.
Proof. apply length_filter. Qed.

Lemma length_unlink_found {V} key (l : list (string * V)) v :
  LRUCache.find key l = Some v → length (LRUCache.unlink key l) < length l.
Proof.
  unfold LRUCache.unlink. induction l as [|[k w] l IH]; [done|]. simpl.
  rewrite filter_cons. simpl. case_decide; case_decide; simpl; try congruence.
  - intros _. pose proof (length_filter (λ e : string * V, e.1 ≠ key) l). lia.
  - intros Hfind. apply IH in Hfind. lia.
Qed.

Lemma within_get {V} key (c : LRUCache.t V) :
  LRUCache.capacity (LRUCache.get key c).2 = LRUCache.capacity c
  ∧ length (LRUCache.entries (LRUCache.get key c).2) ≤ length (LRUCache.entries c).
Proof.
  unfold LRUCache.get, LRUCache.peek.
  destruct (LRUCache.find key (LRUCache.entries c)) as [v|] eqn:Hfind; simpl; [|done].
  split; [done|]. apply length_unlink_found in Hfind. lia.
Qed.

Lemma within_set {V} key (v : V) (c : LRUCache.t V) :
  1 ≤ LRUCache.capacity c →
  length (LRUCache.entries c) ≤ LRUCache.capacity c →
  LRUCache.capacity (LRUCache.set key v c) = LRUCache.capacity c
  ∧ length (LRUCache.entries (LRUCache.set key v c)) ≤ LRUCache.capacity c.
Proof.
  intros Hone Hwithin. unfold LRUCache.set, LRUCache.peek.
  destruct (LRUCache.find key (LRUCache.entries c)) as [w|] eqn:Hfind; simpl.
  - split; [done|]. apply length_unlink_found in Hfind. lia.
  - split; [done|]. case_decide.
    + destruct (LRUCache.entries c) as [|e l] eqn:Hentries using rev_ind.
      * simpl in *. lia.
      * rewrite removelast_last. rewrite length_app in Hwithin. simpl in *. lia.
    + lia.
Qed.

Lemma run_within (operation : Operation) (s : State) :
  1 ≤ LRUCache.capacity (cachedInstances s) →
  within_capacity s →
  LRUCache.capacity
    (cachedInstances (run isAssetContent stripAsset stripLinkPreview env s operation))
  = LRUCache.capacity (cachedInstances s)
  ∧ within_capacity (run isAssetContent stripAsset stripLinkPreview env s operation).
Proof.
  unfold within_capacity. intros Hone Hwithin.
  destruct operation as [options|instanceId|instanceId payload]; simpl.
  - unfold createInstance, bind, ask, try_catch, await, await_unit, throw, ret.
    cbn [fst snd cachedInstances set_cachedInstances record_call calls].
    destruct (login env _ _ _ _) as [error|account];
      cbn [fst snd cachedInstances set_cachedInstances record_call calls]; [done|].
    destruct (listen env _ _) as [error|];
      cbn [fst snd cachedInstances set_cachedInstances record_call calls]; [done|].
    match goal with
    | |- context [LRUCache.set ?key ?v ?c] =>
        destruct (within_set key v c Hone Hwithin) as [Hcapacity Hlength]
    end.
    split; [done|]. by rewrite Hcapacity.
  - unfold deleteInstance, bind, getInstance, await_unit.
    destruct (within_get instanceId (cachedInstances s)) as [Hcapacity Hlength].
    destruct (LRUCache.get instanceId (cachedInstances s)) as [[instance|] c];
      simpl in *; [|done].
    destruct (logout env _ _) as [error|]; simpl.
    + split; [done|]. lia.
    + split; [done|]. pose proof (length_unlink instanceId (LRUCache.entries c)). lia.
  - split; [done|]. by rewrite length_fmap.
Qed.

(** X27: a service made for at most [n] instances never registers more:
    whatever instances are created and deleted and whatever events
    arrive, with logins, listens and logouts resolving or not, the
    registry holds at most [n] instances. *)
Theorem registry_never_exceeds_maximum (n : nat) (operations : list Operation) :
  1 ≤ n →
  let s :=
    foldl (run isAssetContent stripAsset stripLinkPreview env)
      (new_InstanceService (Some n)) operations in
  length (getInstances s) ≤ n.
Proof.
  intros Hone s.
  assert (Hinv : LRUCache.capacity (cachedInstances s) = n ∧ within_capacity s).
  { subst s. induction operations as [|operation operations IH] using rev_ind.
    - simpl. unfold within_capacity. simpl. split; [done|lia].
    - rewrite foldl_app. simpl. destruct IH as [Hcapacity Hwithin].
      destruct (run_within operation
                  (foldl (run isAssetContent stripAsset stripLinkPreview env)
                     (new_InstanceService (Some n)) operations))
        as [Hcapacity' Hwithin']; [lia|done|].
      split; [congruence|done]. }
  destruct Hinv as [Hcapacity Hwithin]. unfold within_capacity in Hwithin.
  unfold getInstances, LRUCache.getAll. lia.
Qed.
End CreationFacts.

(** ** Images and files *)
Section AssetFacts.
Variable env : Collaborators.
Variable assets : AssetBuilder.
Variable stripSent : Content → Content.

Ltac run_asset :=
  unfold bind, ask, await, await_built, await_unit, store_instance,
    service_not_set, throw, ret;
  cbn [fst snd calls cachedInstances record_call set_cachedInstances maximumInstances].

(** X28: [sendFile] sends two bundles, the metadata and then the data built
    with the id of the metadata bundle, and caches one: what the second
    [send] resolved to, its content stripped, under its id, which is
    returned.  The instance is otherwise as it was: the metadata bundle
    is not cached by the method. *)
Theorem sendFile_caches_the_data_bundle_only (instanceId conversationId : string)
    (file : Buffer) (metadata : Opaque) (expectsReadConfirmation : option bool)
    (expireAfterMillis : option N) (s : State) (instance : Instance.t)
    (metadataPayload sentMetadata filePayload sentFile : MessagePayload.t) :
  let account := Instance.account instance in
  let timer :=
    setMessageLevelTimer_call account conversationId (default 0%N expireAfterMillis) in
  LRUCache.peek instanceId (cachedInstances s) = Some instance →
  Account.service account = true →
  createFileMetadata assets (calls s ++ [timer]) account conversationId metadata
    expectsReadConfirmation = inr metadataPayload →
  send env (calls s ++ [timer]) account metadataPayload = inr sentMetadata →
  createFileData assets (calls s ++ [timer; send_call account metadataPayload])
    account conversationId file (MessagePayload.id metadataPayload)
    expectsReadConfirmation = inr filePayload →
  send env (calls s ++ [timer; send_call account metadataPayload]) account
    filePayload = inr sentFile →
  let outcome :=
    sendFile env assets stripSent instanceId conversationId file metadata
      expectsReadConfirmation expireAfterMillis s in
  let stored :=
    MessagePayload.set_content (stripSent (MessagePayload.content sentFile))
      sentFile in
  outcome.1 = Returned (MessagePayload.id sentFile)
  ∧ calls outcome.2
    = calls s ++ [timer; send_call account metadataPayload;
                  send_call account filePayload]
  ∧ LRUCache.peek instanceId (cachedInstances outcome.2)
    = Some (messages_set (MessagePayload.id sentFile) stored instance).
Proof.
  intros account timer Hpeek Hservice Hmeta Hsent Hdata Hfile outcome stored.
  subst outcome. unfold sendFile. cbv beta zeta.
  rewrite (bind_getInstance_registered _ instance) by done.
  fold account. rewrite Hservice. run_asset. fold timer.
  rewrite Hmeta. run_asset. rewrite Hsent. run_asset.
  rewrite <-app_assoc. simpl app. rewrite Hdata. run_asset.
  rewrite <-app_assoc. simpl app. rewrite Hfile. run_asset.
  split_and!; [done| |by rewrite peek_mutate_eq, peek_get, Hpeek].
  by rewrite <-!app_assoc.
Qed.

(** X29: when the metadata of a file is rejected by [send], [sendFile]
    throws the rejection: the data is neither built nor sent and
    nothing is cached. *)
Theorem sendFile_rejected_metadata (instanceId conversationId : string)
    (file : Buffer) (metadata : Opaque) (expectsReadConfirmation : option bool)
    (expireAfterMillis : option N) (s : State) (instance : Instance.t)
    (metadataPayload : MessagePayload.t) (error : JsError) :
  let account := Instance.account instance in
  let timer :=
    setMessageLevelTimer_call account conversationId (default 0%N expireAfterMillis) in
  LRUCache.peek instanceId (cachedInstances s) = Some instance →
  Account.service account = true →
  createFileMetadata assets (calls s ++ [timer]) account conversationId metadata
    expectsReadConfirmation = inr metadataPayload →
  send env (calls s ++ [timer]) account metadataPayload = inl error →
  let outcome :=
    sendFile env assets stripSent instanceId conversationId file metadata
      expectsReadConfirmation expireAfterMillis s in
  outcome.1 = Thrown error
  ∧ calls outcome.2 = calls s ++ [timer; send_call account metadataPayload]
  ∧ same_instances s outcome.2.
Proof.
  intros account timer Hpeek Hservice Hmeta Hsent outcome.
  subst outcome. unfold sendFile. cbv beta zeta.
  rewrite (bind_getInstance_registered _ instance) by done.
  fold account. rewrite Hservice. run_asset. fold timer.
  rewrite Hmeta. run_asset. rewrite Hsent. run_asset.
  split_and!; [done| |intros k; simpl; apply peek_get].
  by rewrite <-app_assoc.
Qed.

(** X30: [sendImage] sets the message timer, sends the image bundle and
    caches what [send] resolved to, its content stripped, under its id,
    which is returned; a rejected upload or send is thrown with nothing
    cached. *)
Theorem sendImage_caches_the_stripped_bundle (instanceId conversationId : string)
    (image : ImageContent.t) (expectsReadConfirmation : option bool)
    (expireAfterMillis : option N) (s : State) (instance : Instance.t) :
  let account := Instance.account instance in
  let timer :=
    setMessageLevelTimer_call account conversationId (default 0%N expireAfterMillis) in
  LRUCache.peek instanceId (cachedInstances s) = Some instance →
  Account.service account = true →
  let outcome :=
    sendImage env assets stripSent instanceId conversationId image
      expectsReadConfirmation expireAfterMillis s in
  match createImage assets (calls s ++ [timer]) account conversationId image
          expectsReadConfirmation with
  | inl error =>
      outcome.1 = Thrown error ∧ calls outcome.2 = calls s ++ [timer]
      ∧ same_instances s outcome.2
  | inr payload =>
      calls outcome.2 = calls s ++ [timer; send_call account payload]
      ∧ match send env (calls s ++ [timer]) account payload with
        | inl error => outcome.1 = Thrown error ∧ same_instances s outcome.2
        | inr sentImage =>
            let stored :=
              MessagePayload.set_content
                (stripSent (MessagePayload.content sentImage)) sentImage in
            outcome.1 = Returned (MessagePayload.id sentImage)
            ∧ LRUCache.peek instanceId (cachedInstances outcome.2)
              = Some (messages_set (MessagePayload.id sentImage) stored instance)
        end
  end.
Proof.
  intros account timer Hpeek Hservice outcome.
  subst outcome. unfold sendImage. cbv beta zeta.
  rewrite (bind_getInstance_registered _ instance) by done.
  fold account. rewrite Hservice. run_asset. fold timer.
  destruct (createImage assets _ _ _ _ _) as [error|payload]; run_asset.
  - split_and!; [done..|]. intros k. simpl. apply peek_get.
  - destruct (send env _ _ _) as [error|sentImage]; run_asset;
      rewrite <-app_assoc; (split; [done|]).
    + split; [done|]. intros k. simpl. apply peek_get.
    + split; [done|]. by rewrite peek_mutate_eq, peek_get, Hpeek.
Qed.
End AssetFacts.

(** ** The further properties on the scenarios *)

(** M1 deleted from an instance that holds M1 and M3. *)
Lemma delete_event_removes_target_only_witness :
  let i' := Mock.project Runs.delete_M1 Scenario.received_M1_M3 in
  cached "M1" i' = None
  ∧ cached "M3" i' = cached "M3" Scenario.received_M1_M3.
Proof.
  intros i'.
  destruct (delete_event_removes_target_only Mock.isAssetContent Mock.stripAsset
              Mock.stripLinkPreview Scenario.received_M1_M3 Runs.delete_M1 "M1")
    as (Hgone & Hothers & _).
  - left. exists (DeletedContent.mk "M1"). split; reflexivity.
  - split; [exact Hgone|]. apply Hothers. discriminate.
Defined.

(** A ping received by an instance that holds M1 and M3. *)
Lemma storing_event_upserts_witness :
  let i' := Mock.project Runs.ping Scenario.received_M1_M3 in
  cached "P" i' = Some Runs.ping
  ∧ cached "M1" i' = cached "M1" Scenario.received_M1_M3.
Proof.
  intros i'.
  destruct (storing_event_upserts Mock.isAssetContent Mock.stripAsset
              Mock.stripLinkPreview Scenario.received_M1_M3 Runs.ping)
    as (Hstored & _ & Hothers).
  - exact I.
  - apply (bool_decide_unpack (well_formed _)). vm_compute. exact I.
  - split; [exact Hstored|]. apply Hothers.
    + right. vm_compute. lia.
    + discriminate.
Defined.

(** The data of a file arriving with no metadata before it. *)
Lemma asset_data_event_without_placeholder_witness :
  cached "F" (Mock.project Scenario.file_data Mock.instance)
  = Some (MessagePayload.set_content
            (ASSET (Mock.stripAsset Scenario.file_data_content)) Scenario.file_data).
Proof.
  destruct (asset_data_event_without_placeholder Mock.isAssetContent
              Mock.stripAsset Mock.stripLinkPreview Mock.instance Scenario.file_data
              Scenario.file_data_content) as (Hstored & _).
  - reflexivity.
  - exact I.
  - exact Hstored.
Defined.

(** A clear of C1 on two messages of C1 and one of C2. *)
Lemma clear_event_only_removes_witness :
  cached "m3" (Mock.project Scenario.clear_C1 Scenario.received_three)
  = Some (Mock.text "m3" "C2" "bob" "three")
  ∧ cached "m3" Scenario.received_three = Some (Mock.text "m3" "C2" "bob" "three").
Proof.
  split; [reflexivity|].
  destruct (clear_event_only_removes Mock.isAssetContent Mock.stripAsset
              Mock.stripLinkPreview Scenario.received_three Scenario.clear_C1
              (ClearedContent.mk "C1")) as (Honly & _).
  - reflexivity.
  - apply (Honly "m3"). reflexivity.
Defined.

(** The confirmation of M1 on an instance that holds M1 and M3. *)
Lemma confirmation_event_appends_to_first_witness :
  let record := ConfirmationWithSender.mk Scenario.confirmation_content "alice" in
  cached "M1" (Mock.project Scenario.confirmation Scenario.received_M1_M3)
  = Some (MessagePayload.set_confirmations (Some [record])
            (Mock.text "M1" "X" "bob" "one")).
Proof.
  intros record.
  destruct (confirmation_event_appends_to_first Mock.isAssetContent Mock.stripAsset
              Mock.stripLinkPreview Scenario.received_M1_M3 Scenario.confirmation
              (Mock.text "M1" "X" "bob" "one") Scenario.confirmation_content)
    as (Hfirst & _).
  - reflexivity.
  - apply (bool_decide_unpack (well_formed _)). vm_compute. exact I.
  - reflexivity.
  - apply Forall_forall.
    apply (bool_decide_unpack (Forall (λ k, k ∉ ["M3"; "M1"]) ["0"; "1"])).
    vm_compute. exact I.
  - exact Hfirst.
Defined.

(** The confirmation of M1 on an instance that holds no message. *)
Lemma confirmation_event_for_unknown_message_is_dropped_witness :
  Mock.project Scenario.confirmation Mock.instance = Mock.instance.
Proof.
  apply (confirmation_event_for_unknown_message_is_dropped Mock.isAssetContent
           Mock.stripAsset Mock.stripLinkPreview Mock.instance Scenario.confirmation
           Scenario.confirmation_content).
  - reflexivity.
  - apply (bool_decide_unpack (_ ∉ _)). vm_compute. exact I.
  - apply Forall_forall.
    apply (bool_decide_unpack (Forall (λ k : string, k ∉ []) ["0"; "1"])).
    vm_compute. exact I.
Defined.

(** The confirmation of M1, M2 and M3 on an instance that holds M1 and
    M3. *)
Lemma confirmation_event_keeps_the_keys_witness :
  length (cachedMessages (Mock.project Scenario.confirmation Scenario.received_M1_M3))
  = length (cachedMessages Scenario.received_M1_M3).
Proof.
  destruct (confirmation_event_keeps_the_keys Mock.isAssetContent Mock.stripAsset
              Mock.stripLinkPreview Scenario.received_M1_M3 Scenario.confirmation
              Scenario.confirmation_content) as (_ & Hlength).
  - reflexivity.
  - apply (bool_decide_unpack (well_formed _)). vm_compute. exact I.
  - exact Hlength.
Defined.

(** The first instance of a new service. *)
Lemma createInstance_registers_witness :
  let created := createInstance Mock.accepting Mock.options (new_InstanceService None) in
  created.1 = Returned "uuid-0"
  ∧ LRUCache.peek "uuid-0" (cachedInstances created.2) = Some Runs.instance
  ∧ (getMessages "uuid-0" "X" created.2).1 = Returned [].
Proof.
  intros created.
  destruct (createInstance_registers Mock.accepting Mock.options
              (new_InstanceService None) Runs.account)
    as (Hreturned & Hpeek & _ & _ & _ & Hmessages).
  - vm_compute. lia.
  - reflexivity.
  - reflexivity.
  - split_and!; [exact Hreturned|exact Hpeek|]. apply Hmessages. reflexivity.
Defined.

(** A second instance created in a service for one instance. *)
Lemma createInstance_evicts_least_recently_used_witness :
  let second := (createInstance Mock.accepting Mock.options Runs.full).2 in
  LRUCache.keys (cachedInstances Runs.full) = ["uuid-0"]
  ∧ LRUCache.keys (cachedInstances second) = ["uuid-2"]
  ∧ LRUCache.peek "uuid-0" (cachedInstances second) = None.
Proof.
  intros second. split; [reflexivity|].
  destruct (createInstance_evicts_least_recently_used Mock.accepting Mock.options
              Runs.full Runs.account [] "uuid-0" Runs.instance)
    as (Hentries & Hgone & _).
  - reflexivity.
  - reflexivity.
  - apply (bool_decide_unpack (_ ∉ _)). vm_compute. exact I.
  - reflexivity.
  - vm_compute. lia.
  - split.
    + unfold LRUCache.keys. fold second in Hentries. rewrite Hentries. reflexivity.
    + apply Hgone. apply (bool_decide_unpack (_ ∉ _)). vm_compute. exact I.
Defined.

(** A creation whose login is accepted and whose listen is rejected. *)
Lemma createInstance_rejected_listen_witness :
  let env := Stub.with_listen (λ _ _, Some Scenario.invalid_credentials) in
  let s := new_InstanceService None in
  (createInstance env Mock.options s).1
  = Thrown (Error "Backend error: Authentication failed.")
  ∧ cachedInstances (createInstance env Mock.options s).2 = cachedInstances s.
Proof.
  intros env s.
  destruct (createInstance_rejected_listen env Mock.options s Runs.account
              Scenario.invalid_credentials) as (Hthrown & Hregistry & _).
  - reflexivity.
  - reflexivity.
  - split; [exact Hthrown|exact Hregistry].
Defined.

(** An instance created and deleted again. *)
Lemma createInstance_then_deleteInstance_witness :
  let s := new_InstanceService None in
  let created := (createInstance Mock.accepting Mock.options s).2 in
  (deleteInstance Mock.accepting "uuid-0" created).1 = Returned ()
  ∧ cachedInstances (deleteInstance Mock.accepting "uuid-0" created).2
    = cachedInstances s.
Proof.
  intros s created.
  apply (createInstance_then_deleteInstance Mock.accepting Mock.options s
           Runs.account).
  - reflexivity.
  - reflexivity.
  - reflexivity.
  - apply (bool_decide_unpack (_ ∉ _)). vm_compute. exact I.
  - vm_compute. lia.
Defined.

(** Methods called with an id that was never created. *)
Lemma unknown_instance_is_reported_witness :
  getMessages "never-created" "X" Scenario.created
  = (Thrown (instance_not_found "never-created"), Scenario.created)
  ∧ resetSession Mock.accepting Stub.builder "never-created" "X" Scenario.created
    = (Thrown (instance_not_found "never-created"), Scenario.created).
Proof.
  destruct (unknown_instance_is_reported Mock.stripLinkPreview Mock.accepting
              Stub.builder "never-created" Scenario.created)
    as (Hmessages & _ & _ & _ & _ & _ & _ & Hreset).
  - reflexivity.
  - split; [apply Hmessages|apply Hreset].
Defined.

(** Methods called on an instance whose account has no service. *)
Lemma account_without_service_is_reported_witness :
  let confirmed :=
    sendEphemeralConfirmationRead Mock.accepting "uuid-0" "X" "M1" None
      Runs.without_service_received in
  (getMessages "uuid-0" "X" Runs.without_service_received).1
  = Thrown (Error "Account service not set.")
  ∧ (sendPing Mock.accepting Stub.builder "uuid-0" "X" None None
       Runs.without_service_received).1
    = Thrown (Error "Account service for instance uuid-0 not set.")
  ∧ confirmed.1 = Thrown (Error "Account service for instance uuid-0 not set.")
  ∧ LRUCache.keys (Instance.messages Runs.instance_without_service_received)
    = ["M3"; "M1"]
  ∧ (LRUCache.keys ∘ Instance.messages
       <$> LRUCache.peek "uuid-0" (cachedInstances confirmed.2))
    = Some ["M1"; "M3"].
Proof.
  intros confirmed.
  destruct (account_without_service_is_reported Mock.stripLinkPreview Mock.accepting
              Stub.builder "uuid-0" Runs.instance_without_service_received
              Runs.without_service_received)
    as (Hmessages & _ & _ & _ & Hephemeral & _ & Hping & _).
  - reflexivity.
  - reflexivity.
  - destruct (Hephemeral 1 "X" "M1" None) as (Hthrown & _ & Hpeek & _).
    + eexists. reflexivity.
    + split_and!.
      * apply (Hmessages "X").
      * apply (Hping "X" None None).
      * exact Hthrown.
      * reflexivity.
      * unfold confirmed, sendEphemeralConfirmationRead. rewrite Hpeek.
        reflexivity.
Defined.

(** A text sent while the network is down. *)
Lemma failed_send_caches_nothing_witness :
  let env := Stub.with_send (λ _ _ _, inl Stub.offline) in
  same_instances Scenario.created
    (sendText Mock.stripLinkPreview env "uuid-0" "X" "Hello" None None None None None
       Scenario.created).2.
Proof.
  intros env.
  apply (proj1 (failed_send_caches_nothing Mock.stripLinkPreview env Stub.builder
                  "uuid-0" "X" Scenario.created Stub.offline)
           "Hello" None None None None None).
  reflexivity.
Defined.

(** A text sent with a link preview that the client rejects. *)
Lemma sendText_rejected_link_preview_witness :
  let env := Stub.with_createLinkPreview (λ _ _ _, inl Stub.offline) in
  let outcome :=
    sendText Mock.stripLinkPreview env "uuid-0" "X" "Hello" (Some Runs.preview)
      None None None None Scenario.created in
  outcome.1 = Thrown Stub.offline
  ∧ length (calls outcome.2) = length (calls Scenario.created) + 3
  ∧ (getMessages "uuid-0" "X" outcome.2).1 = Returned [].
Proof.
  intros env outcome.
  destruct (sendText_rejected_link_preview Mock.stripLinkPreview env "uuid-0" "X"
              "Hello" Runs.preview None None None None Scenario.created
              Runs.instance
              (Mock.sent
                 (Mock.createText
                    (calls Scenario.created
                     ++ [setMessageLevelTimer_call Runs.account "X" 0%N])
                    Runs.account
                    (TextArguments.mk "X" "Hello" None None None None None)))
              Stub.offline)
    as (Hthrown & Hcalls & _).
  - reflexivity.
  - reflexivity.
  - reflexivity.
  - reflexivity.
  - split; [exact Hthrown|]. split; [|reflexivity].
    fold outcome in Hcalls. rewrite Hcalls. reflexivity.
Defined.

(** Confirmations for a message the instance does not hold. *)
Lemma sendConfirmation_sends_without_lookup_witness :
  let delivered :=
    sendConfirmationDelivered Mock.accepting "uuid-0" "X" "unknown" None
      Scenario.created in
  let read :=
    sendConfirmationRead Mock.accepting "uuid-0" "X" "unknown" None
      Scenario.created in
  cached "unknown" Runs.instance = None
  ∧ delivered.1 = Returned EmptyString
  ∧ read.1 = Returned EmptyString
  ∧ same_instances Scenario.created read.2.
Proof.
  intros delivered read. split; [reflexivity|].
  destruct (sendConfirmation_sends_without_lookup Mock.accepting "uuid-0" "X"
              "unknown" None Scenario.created Runs.instance
              (Mock.sent
                 (Mock.createConfirmation (calls Scenario.created) Runs.account "X"
                    "unknown" 0 None))
              (Mock.sent
                 (Mock.createConfirmation (calls Scenario.created) Runs.account "X"
                    "unknown" 1 None)))
    as (Hdelivered & _ & _ & Hread & _ & Hsame).
  - reflexivity.
  - reflexivity.
  - reflexivity.
  - reflexivity.
  - split_and!; [exact Hdelivered|exact Hread|exact Hsame].
Defined.

(** A location and a ping sent by the created instance. *)
Lemma sendLocation_and_sendPing_cache_what_was_sent_witness :
  let located :=
    sendLocation Mock.accepting Stub.builder "uuid-0" "X" "52.5,13.4" None
      Scenario.created in
  let pinged :=
    sendPing Mock.accepting Stub.builder "uuid-0" "X" None (Some 5000%N)
      Scenario.created in
  located.1 = Returned "uuid-3"
  ∧ pinged.1 = Returned "uuid-3"
  ∧ ∃ m, (getMessages "uuid-0" "X" located.2).1 = Returned [m]
         ∧ MessagePayload.content m = LOCATION "52.5,13.4".
Proof.
  intros located pinged.
  assert (Hlocated : located.1 = Returned "uuid-3" ∧ pinged.1 = Returned "uuid-3").
  { split.
    - destruct (sendLocation_and_sendPing_cache_what_was_sent Mock.accepting
                  Stub.builder "uuid-0" "X" "52.5,13.4" None None Scenario.created
                  Runs.instance
                  (Mock.sent
                     (Stub.bundle (LOCATION "52.5,13.4") "X"
                        (calls Scenario.created
                         ++ [setMessageLevelTimer_call Runs.account "X" 0%N])
                        Runs.account))
                  (Mock.sent
                     (Stub.bundle (PING "ping") "X"
                        (calls Scenario.created
                         ++ [setMessageLevelTimer_call Runs.account "X" 0%N])
                        Runs.account)))
        as (Hlocation & _); [reflexivity..|exact Hlocation].
    - destruct (sendLocation_and_sendPing_cache_what_was_sent Mock.accepting
                  Stub.builder "uuid-0" "X" "52.5,13.4" None (Some 5000%N)
                  Scenario.created Runs.instance
                  (Mock.sent
                     (Stub.bundle (LOCATION "52.5,13.4") "X"
                        (calls Scenario.created
                         ++ [setMessageLevelTimer_call Runs.account "X" 5000%N])
                        Runs.account))
                  (Mock.sent
                     (Stub.bundle (PING "ping") "X"
                        (calls Scenario.created
                         ++ [setMessageLevelTimer_call Runs.account "X" 5000%N])
                        Runs.account)))
        as (_ & _ & _ & Hping & _); [reflexivity..|exact Hping]. }
  destruct Hlocated as [Hlocation Hping].
  split_and!; [exact Hlocation|exact Hping|].
  eexists. split; reflexivity.
Defined.

(** A reaction sent and a session reset by the created instance. *)
Lemma sendReaction_and_resetSession_cache_nothing_witness :
  let reacted :=
    sendReaction Mock.accepting Stub.builder "uuid-0" "X" "M1" ReactionType.LIKE
      Scenario.created in
  let reset := resetSession Mock.accepting Stub.builder "uuid-0" "X" Scenario.created in
  reacted.1 = Returned "uuid-2"
  ∧ same_instances Scenario.created reacted.2
  ∧ reset.1 = Returned "uuid-2"
  ∧ same_instances Scenario.created reset.2.
Proof.
  intros reacted reset.
  destruct (sendReaction_and_resetSession_cache_nothing Mock.accepting Stub.builder
              "uuid-0" "X" "M1" ReactionType.LIKE Scenario.created Runs.instance
              (Mock.sent
                 (Stub.bundle (OTHER "reaction" "M1") "X" (calls Scenario.created)
                    Runs.account))
              (Mock.sent
                 (Stub.bundle (OTHER "session-reset" EmptyString) "X"
                    (calls Scenario.created) Runs.account)))
    as (Hreacted & _ & Hsame & Hreset & _ & Hsame').
  - reflexivity.
  - reflexivity.
  - reflexivity.
  - reflexivity.
  - split_and!; [exact Hreacted|exact Hsame|exact Hreset|exact Hsame'].
Defined.

(** A text sent by an instance that holds M1 and M3. *)
Lemma sending_keeps_cache_well_formed_witness :
  let sent :=
    sendText Mock.stripLinkPreview Mock.accepting "uuid-0" "X" "Hello" None None None
      None None Runs.received in
  ∃ instance',
    LRUCache.peek "uuid-0" (cachedInstances sent.2) = Some instance'
    ∧ well_formed instance'
    ∧ ∃ m, cached "uuid-3" instance' = Some m ∧ MessagePayload.id m = "uuid-3".
Proof.
  intros sent.
  destruct (sending_keeps_cache_well_formed Mock.stripLinkPreview Mock.accepting
              Stub.builder "uuid-0" "X" Runs.received Runs.received_instance)
    as (Htext & _).
  - reflexivity.
  - apply (bool_decide_unpack (well_formed _)). vm_compute. exact I.
  - apply (Htext "Hello" None None None None None "uuid-3" sent.2). reflexivity.
Defined.

(** An ephemeral confirmation for M1 and M3, both cached. *)
Lemma ephemeral_confirmation_confirms_then_deletes_witness :
  let outcome :=
    sendEphemeralConfirmationRead Mock.accepting "uuid-0" "X" "M1" (Some ["M3"])
      Runs.received in
  let confirmation :=
    Mock.createConfirmation (calls Runs.received) Runs.account "X" "M1" 1
      (Some ["M3"]) in
  outcome.1 = Returned EmptyString
  ∧ calls outcome.2
    = calls Runs.received
      ++ [send_call Runs.account confirmation;
          deleteMessageEveryone_call Runs.account "X" "M1" ["bob"];
          deleteMessageEveryone_call Runs.account "X" "M3" ["bob"]].
Proof.
  intros outcome confirmation.
  destruct (ephemeral_confirmation_confirms_then_deletes Mock.accepting 1 "uuid-0"
              "X" "M1" (Some ["M3"]) Runs.received Runs.received_instance
              (Mock.sent confirmation)) as (Hreturned & Hcalls).
  - reflexivity.
  - reflexivity.
  - apply (bool_decide_unpack (Forall _ _)). vm_compute. exact I.
  - reflexivity.
  - reflexivity.
  - split; [exact Hreturned|exact Hcalls].
Defined.

(** An ephemeral confirmation for M1 and, further, M2 and M3, of which
    M2 is not cached. *)
Lemma ephemeral_confirmation_unknown_further_message_witness :
  let outcome :=
    sendEphemeralConfirmationDelivered Mock.accepting "uuid-0" "X" "M1"
      (Some ["M2"; "M3"]) Runs.received in
  let confirmation :=
    Mock.createConfirmation (calls Runs.received) Runs.account "X" "M1" 0
      (Some ["M2"; "M3"]) in
  outcome.1 = Thrown (message_not_found "M1")
  ∧ calls outcome.2
    = calls Runs.received
      ++ [send_call Runs.account confirmation;
          deleteMessageEveryone_call Runs.account "X" "M1" ["bob"]].
Proof.
  intros outcome confirmation.
  destruct (ephemeral_confirmation_unknown_further_message Mock.accepting 0 "uuid-0"
              "X" "M1" "M2" ["M3"] Runs.received Runs.received_instance
              (Mock.text "M1" "X" "bob" "one") (Mock.sent confirmation))
    as (Hthrown & Hcalls).
  - reflexivity.
  - reflexivity.
  - reflexivity.
  - reflexivity.
  - reflexivity.
  - reflexivity.
  - split; [exact Hthrown|exact Hcalls].
Defined.

(** Texts, a confirmation, a delete and a clear received in turn. *)
Lemma event_stream_keeps_cache_well_formed_witness :
  let events :=
    [Mock.text "M1" "X" "bob" "one"; Mock.text "M3" "X" "bob" "three";
     Scenario.confirmation; Runs.delete_M1; Scenario.clear_C1] in
  let s' :=
    foldl (λ s payload,
             emit Mock.isAssetContent Mock.stripAsset Mock.stripLinkPreview "uuid-0"
               payload s)
          Scenario.created events in
  (∃ instance',
     LRUCache.peek "uuid-0" (cachedInstances s') = Some instance'
     ∧ well_formed instance'
     ∧ Instance.account instance' = Runs.account)
  ∧ calls s' = calls Scenario.created.
Proof.
  intros events s'.
  destruct (event_stream_keeps_cache_well_formed Mock.isAssetContent Mock.stripAsset
              Mock.stripLinkPreview "uuid-0" Runs.instance events Scenario.created)
    as (Hinstance & _ & Hcalls).
  - reflexivity.
  - apply (bool_decide_unpack (well_formed _)). vm_compute. exact I.
  - split; [exact Hinstance|exact Hcalls].
Defined.

(** A ping received and listed. *)
Lemma received_message_is_listed_witness :
  let s' :=
    emit Mock.isAssetContent Mock.stripAsset Mock.stripLinkPreview "uuid-0" Runs.ping
      Runs.received in
  ∃ listed,
    (getMessages "uuid-0" "X" s').1 = Returned listed ∧ Runs.ping ∈ listed.
Proof.
  intros s'.
  destruct (received_message_is_listed Mock.isAssetContent Mock.stripAsset
              Mock.stripLinkPreview "uuid-0" Runs.received_instance Runs.ping
              Runs.received) as (listed & Hlisted & Helem & _).
  - reflexivity.
  - reflexivity.
  - exact I.
  - exists listed. split; [exact Hlisted|exact Helem].
Defined.

(** The name prod given together with a custom backend. *)
Lemma named_backend_overrides_custom_backend_witness :
  parseBackend Mock.accepting (backend_or_custom Runs.options_prod)
  = BACKEND_PRODUCTION Mock.accepting.
Proof.
  destruct (named_backend_overrides_custom_backend Mock.accepting Runs.options_prod
              "prod") as (Hchosen & _).
  - reflexivity.
  - reflexivity.
  - exact Hchosen.
Defined.

(** Two creations and a deletion in a service for one instance. *)
Lemma registry_never_exceeds_maximum_witness :
  let operations :=
    [create_instance Mock.options; create_instance Mock.options;
     receive_event "uuid-2" Runs.ping; delete_instance "uuid-0"] in
  length (getInstances
            (foldl (run Mock.isAssetContent Mock.stripAsset Mock.stripLinkPreview
                      Mock.accepting)
               (new_InstanceService (Some 1)) operations)) ≤ 1.
Proof.
  intros operations.
  apply (registry_never_exceeds_maximum Mock.isAssetContent Mock.stripAsset
           Mock.stripLinkPreview Mock.accepting 1 operations).
  lia.
Defined.

(** A file sent by the created instance. *)
Lemma sendFile_caches_the_data_bundle_only_witness :
  let outcome :=
    sendFile Mock.accepting Stub.assets Stub.stripSent "uuid-0" "X" [Byte.x25]
      "report.pdf" None None Scenario.created in
  outcome.1 = Returned "uuid-3"
  ∧ ∃ m, (getMessages "uuid-0" "X" outcome.2).1 = Returned [m]
         ∧ MessagePayload.content m
           = ASSET (Mock.stripAsset Scenario.file_data_content).
Proof.
  intros outcome.
  set (timer := setMessageLevelTimer_call Runs.account "X" 0%N).
  set (metadataPayload :=
         Stub.bundle (ASSET_META (AssetContent.mk (Some Scenario.file_original) None None))
           "X" (calls Scenario.created ++ [timer]) Runs.account).
  set (filePayload :=
         MessagePayload.mk None (ASSET Scenario.file_data_content) "X" "self" "uuid-3"
           0%N OUTGOING_UNSENT 4%N).
  destruct (sendFile_caches_the_data_bundle_only Mock.accepting Stub.assets
              Stub.stripSent "uuid-0" "X" [Byte.x25] "report.pdf" None None
              Scenario.created Runs.instance metadataPayload
              (Mock.sent metadataPayload) filePayload (Mock.sent filePayload))
    as (Hreturned & _ & _).
  - reflexivity.
  - reflexivity.
  - reflexivity.
  - reflexivity.
  - reflexivity.
  - reflexivity.
  - split; [exact Hreturned|]. eexists. split; reflexivity.
Defined.

(** A file whose metadata cannot be sent. *)
Lemma sendFile_rejected_metadata_witness :
  let env := Stub.with_send (λ _ _ _, inl Stub.offline) in
  let outcome :=
    sendFile env Stub.assets Stub.stripSent "uuid-0" "X" [Byte.x25] "report.pdf"
      None None Scenario.created in
  outcome.1 = Thrown Stub.offline
  ∧ same_instances Scenario.created outcome.2.
Proof.
  intros env outcome.
  destruct (sendFile_rejected_metadata env Stub.assets Stub.stripSent "uuid-0" "X"
              [Byte.x25] "report.pdf" None None Scenario.created Runs.instance
              (Stub.bundle
                 (ASSET_META (AssetContent.mk (Some Scenario.file_original) None None))
                 "X"
                 (calls Scenario.created
                  ++ [setMessageLevelTimer_call Runs.account "X" 0%N])
                 Runs.account)
              Stub.offline) as (Hthrown & _ & Hsame).
  - reflexivity.
  - reflexivity.
  - reflexivity.
  - reflexivity.
  - split; [exact Hthrown|exact Hsame].
Defined.

(** An image sent by the created instance. *)
Lemma sendImage_caches_the_stripped_bundle_witness :
  let outcome :=
    sendImage Mock.accepting Stub.assets Stub.stripSent "uuid-0" "X"
      (ImageContent.mk [Byte.x89] 1 "image/png" 1) None None Scenario.created in
  outcome.1 = Returned "uuid-3"
  ∧ ∃ m, (getMessages "uuid-0" "X" outcome.2).1 = Returned [m]
         ∧ MessagePayload.id m = "uuid-3".
Proof.
  intros outcome.
  pose proof (sendImage_caches_the_stripped_bundle Mock.accepting Stub.assets
                Stub.stripSent "uuid-0" "X"
                (ImageContent.mk [Byte.x89] 1 "image/png" 1) None None
                Scenario.created Runs.instance eq_refl eq_refl) as Hrun.
  destruct Hrun as (_ & Hreturned & _).
  split; [exact Hreturned|]. eexists. split; reflexivity.
Defined.
